(** * cpos-api: sale transactions and inventory consistency

    A shallow embedding of the route handlers of [src/routes/customers.js]
    (the sales router: create sale, update sale status), of
    [src/routes/inventory.js] (the stock update route) and of the two
    triggers of [initialdb.sql] that fire on an update of a [sales] row.

    Conventions of the embedding.
    - The relational store is a record of tables, every table a list of rows
      in insertion order.
    - A call on the Prisma client is a function from the store to the store
      and either a thrown error or a value; [transaction] discards the
      writes of a body that throws, as [prisma.$transaction] does.
    - A backend fault (connection loss, timeout) can make any client call
      throw: the handlers take a predicate [fault] on client calls.
    - INTEGER columns are [Z]; DECIMAL columns and JavaScript numbers that
      hold amounts are exact rationals [Q], not rounded to a scale or to a
      double; a JavaScript number that may be NaN is a [jsnum]. The
      program keeps two decimals in a [DECIMAL(10,2)] column and computes
      in doubles: a statement on the value of an amount that is to hold of
      the program as well is stated with the margin of a cent, or says
      that it takes the amounts as exact.
    - An optional field of a request body ([undefined] when absent) is an
      [option]; quantities in a request are integers.
    - The constraints of the schema on the modelled tables are kept:
      [CHECK (quantity >= 0)] on [inventory]; [CHECK (total_amount >= 0)]
      on [sales] and its foreign keys to [customers], [users],
      [payment_methods], [payment_statuses] and [sale_statuses]; on the
      sale items, a table only the earlier copy of the schema declares,
      the foreign key to [products] and [CHECK (quantity > 0)],
      [CHECK (unit_price >= 0)], [CHECK (total_price >= 0)]. Of the tables
      [users], [payment_methods] and [payment_statuses], which the handlers
      never write, the store keeps the keys. *)

From Stdlib Require Import ZArith QArith Qround Qminmax List String Bool Lia Lqa.
Import ListNotations.

Local Open Scope Z_scope.
Local Open Scope string_scope.

Definition Id := string.

(** ** JavaScript numbers that may be NaN *)

Inductive jsnum : Type :=
| Num (q : Q)
| NaN.

(** [ToNumber] of a field of the request body: [undefined] gives NaN. *)
Definition toNumber (v : option Q) : jsnum :=
  match v with
  | Some q => Num q
  | None => NaN
  end.

Definition js_mul (a b : jsnum) : jsnum :=
  match a, b with
  | Num x, Num y => Num (x * y)%Q
  | _, _ => NaN
  end.

(** Division by a non-zero literal, the only division the routes apply to a
    number that may be NaN. *)
Definition js_div_lit (a : jsnum) (d : Q) : jsnum :=
  match a with
  | Num x => Num (x / d)%Q
  | NaN => NaN
  end.

(** [v || 0] on an optional number: [undefined] and [0] are falsy. *)
Definition orZero (v : option Q) : Q :=
  match v with
  | Some q => if Qeq_bool q 0 then 0%Q else q
  | None => 0%Q
  end.

(** ** Tables *)

Module Product.
(** [price] and [taxRate] are read by the sales router, [quantity] by the
    inventory router. *)
Record t : Type := mk {
  id : Id;
  price : Q;
  taxRate : Q;
  quantity : Z
}.
End Product.

Module Inventory.
(** A row of table [inventory]: [UNIQUE(product_id, location)] and
    [CHECK (quantity >= 0)]. *)
Record t : Type := mk {
  id : Id;
  productId : Id;
  quantity : Z;
  minQuantity : Z;
  maxQuantity : option Z;
  location : string;
  lastUpdated : Z
}.
End Inventory.

Module Customer.
Record t : Type := mk {
  id : Id;
  loyaltyPoints : Z;
  totalPurchases : Q
}.
End Customer.

Module SaleStatus.
(** A row of the lookup table [sale_statuses]. *)
Record t : Type := mk {
  id : Id;
  name : string
}.
End SaleStatus.

Module Sale.
Record t : Type := mk {
  id : Id;
  customerId : option Id;
  userId : Id;
  totalAmount : Q;
  taxAmount : Q;
  discountAmount : Q;
  paymentMethodId : option Id;
  paymentStatusId : option Id;
  saleStatusId : option Id;
  notes : option string
}.
End Sale.

Module SaleItem.
Record t : Type := mk {
  saleId : Id;
  productId : Id;
  quantity : Z;
  unitPrice : Q;
  discount : Q;
  taxAmount : jsnum;
  totalPrice : Q
}.
End SaleItem.

Module InventoryLog.
Record t : Type := mk {
  productId : Id;
  operation : string;
  quantity : Z;
  previousQuantity : Z;
  newQuantity : Z;
  reason : string;
  userId : Id
}.
End InventoryLog.

Record Db : Type := mkDb {
  products : list Product.t;
  inventory : list Inventory.t;
  customers : list Customer.t;
  saleStatuses : list SaleStatus.t;
  sales : list Sale.t;
  saleItems : list SaleItem.t;
  inventoryLogs : list InventoryLog.t;
  users : list Id;
  paymentMethods : list Id;
  paymentStatuses : list Id
}.

Definition set_products (db : Db) (v : list Product.t) : Db :=
  mkDb v (inventory db) (customers db) (saleStatuses db) (sales db)
       (saleItems db) (inventoryLogs db)
       (users db) (paymentMethods db) (paymentStatuses db).

Definition set_inventory (db : Db) (v : list Inventory.t) : Db :=
  mkDb (products db) v (customers db) (saleStatuses db) (sales db)
       (saleItems db) (inventoryLogs db)
       (users db) (paymentMethods db) (paymentStatuses db).

Definition set_customers (db : Db) (v : list Customer.t) : Db :=
  mkDb (products db) (inventory db) v (saleStatuses db) (sales db)
       (saleItems db) (inventoryLogs db)
       (users db) (paymentMethods db) (paymentStatuses db).

Definition set_sales (db : Db) (v : list Sale.t) : Db :=
  mkDb (products db) (inventory db) (customers db) (saleStatuses db) v
       (saleItems db) (inventoryLogs db)
       (users db) (paymentMethods db) (paymentStatuses db).

Definition set_saleItems (db : Db) (v : list SaleItem.t) : Db :=
  mkDb (products db) (inventory db) (customers db) (saleStatuses db)
       (sales db) v (inventoryLogs db)
       (users db) (paymentMethods db) (paymentStatuses db).

Definition set_inventoryLogs (db : Db) (v : list InventoryLog.t) : Db :=
  mkDb (products db) (inventory db) (customers db) (saleStatuses db)
       (sales db) (saleItems db) v
       (users db) (paymentMethods db) (paymentStatuses db).

(** ** Request bodies and responses *)

Module Item.
(** A line of the [items] array of a create-sale request. *)
Record t : Type := mk {
  productId : Id;
  quantity : Z;
  unitPrice : Q;
  discount : option Q;
  taxRate : option Q
}.
End Item.

Module SaleRequest.
Record t : Type := mk {
  customerId : option Id;
  items : list Item.t;
  paymentMethodId : option Id;
  paymentStatusId : option Id;
  saleStatusId : option Id;
  discountAmount : option Q;
  notes : option string
}.
End SaleRequest.

Module StatusRequest.
Record t : Type := mk {
  paymentStatusId : option Id;
  saleStatusId : option Id
}.
End StatusRequest.

Module StockRequest.
Record t : Type := mk {
  quantity : option Z;
  operation : string;
  reason : option string
}.
End StockRequest.

Inductive Body : Type :=
| ErrorBody (error : string)
| SaleBody (message : string) (sale : Sale.t) (items : list SaleItem.t)
| ProductBody (product : Product.t).

Module Response.
Record t : Type := mk {
  status : Z;
  body : Body
}.
End Response.

(** ** The Prisma client *)

(** The client calls the modelled routes make; a call in a loop carries the
    index of the iteration. *)
Inductive Op : Type :=
| ProductFindUnique (n : nat)
| SaleCreate
| InventoryUpdateMany (n : nat)
| CustomerUpdate
| SaleUpdate
| ProductFind
| ProductUpdate
| InventoryLogCreate.

Inductive PrismaError : Type :=
| P2002            (* unique constraint failed *)
| P2003            (* foreign key constraint failed *)
| P2025            (* record to update not found *)
| CheckViolation   (* a CHECK constraint of the schema failed *)
| BackendFailure.  (* the store did not answer *)

(** A client call: the store after the call, and a thrown error or a value.
    A call that throws keeps the writes made before it. *)
Definition M (A : Type) : Type := Db -> Db * (PrismaError + A).

Definition ret {A : Type} (a : A) : M A := fun db => (db, inr a).

Definition bind {A B : Type} (m : M A) (k : A -> M B) : M B :=
  fun db =>
    match m db with
    | (db', inr a) => k a db'
    | (db', inl e) => (db', inl e)
    end.

Notation "x <- m ;; k" := (bind m (fun x => k))
  (at level 61, m at next level, right associativity).
Notation "m ;;; k" := (bind m (fun _ => k))
  (at level 61, right associativity).

(** [prisma.$transaction(async (prisma) => body)]: the writes of a body that
    throws are rolled back and the error is thrown again. *)
Definition transaction {A : Type} (body : M A) : M A :=
  fun db =>
    match body db with
    | (db', inr a) => (db', inr a)
    | (_, inl e) => (db, inl e)
    end.

Definition Handler : Type := Db -> Db * Response.t.

Definition json (status : Z) (body : Body) : Response.t :=
  Response.mk status body.

Definition findProduct (db : Db) (id : Id) : option Product.t :=
  find (fun p => Product.id p =? id) (products db).

Definition findCustomer (db : Db) (id : Id) : option Customer.t :=
  find (fun c => Customer.id c =? id) (customers db).

Definition findSale (db : Db) (id : Id) : option Sale.t :=
  find (fun s => Sale.id s =? id) (sales db).

Definition findSaleStatus (db : Db) (id : Id) : option SaleStatus.t :=
  find (fun s => SaleStatus.id s =? id) (saleStatuses db).

(** A key of one of the tables of which the store keeps the keys. *)
Definition findKey (keys : list Id) (id : Id) : option Id :=
  find (fun k => k =? id) keys.

(** A nullable foreign key holds when it is NULL or names a row. *)
Definition fkHolds {A : Type} (lookup : Id -> option A) (key : option Id) : bool :=
  match key with
  | None => true
  | Some k => match lookup k with Some _ => true | None => false end
  end.

(** ** Client calls on the tables *)

Section Client.

Variable fault : Op -> bool.

(** Every client call first reaches the backend. *)
Definition reach (op : Op) : M unit :=
  fun db => if fault op then (db, inl BackendFailure) else (db, inr tt).

(** [prisma.product.findUnique({ where: { id } })] *)
Definition product_findUnique (op : Op) (id : Id) : M (option Product.t) :=
  reach op ;;;
  fun db => (db, inr (findProduct db id)).

(** The foreign keys of a row of [sales]. *)
Definition saleKeysHold (db : Db) (sale : Sale.t) : bool :=
  fkHolds (findCustomer db) (Sale.customerId sale)
  && fkHolds (findSaleStatus db) (Sale.saleStatusId sale)
  && fkHolds (findKey (users db)) (Some (Sale.userId sale))
  && fkHolds (findKey (paymentMethods db)) (Sale.paymentMethodId sale)
  && fkHolds (findKey (paymentStatuses db)) (Sale.paymentStatusId sale).

(** The foreign key of a sale item to [products]. *)
Definition itemKeyHolds (db : Db) (i : SaleItem.t) : bool :=
  fkHolds (findProduct db) (Some (SaleItem.productId i)).

(** [CHECK (quantity > 0)], [CHECK (unit_price >= 0)] and
    [CHECK (total_price >= 0)] of a sale item. *)
Definition itemCheck (i : SaleItem.t) : bool :=
  (0 <? SaleItem.quantity i)%Z
  && Qle_bool 0 (SaleItem.unitPrice i)
  && Qle_bool 0 (SaleItem.totalPrice i).

(** [prisma.sale.create({ data: { ..., saleItems: { create: [...] } } })]:
    one insert into [sales] (primary key, foreign keys,
    [CHECK (total_amount >= 0)]) and one insert per item into the sale
    items (foreign key to [products], the three checks). The amounts are
    stored as they are given, not rounded to the scale of their columns. *)
Definition sale_create (sale : Sale.t) (items : list SaleItem.t)
  : M (Sale.t * list SaleItem.t) :=
  reach SaleCreate ;;;
  fun db =>
    match findSale db (Sale.id sale) with
    | Some _ => (db, inl P2002)
    | None =>
        if negb (saleKeysHold db sale && forallb (itemKeyHolds db) items)
        then (db, inl P2003)
        else if negb (Qle_bool 0 (Sale.totalAmount sale)
                      && forallb itemCheck items)
        then (db, inl CheckViolation)
        else
          (set_saleItems (set_sales db (sales db ++ [sale]))
                         (saleItems db ++ items),
           inr (sale, items))
    end.

(** The row written by [quantity: { decrement: q }, lastUpdated: now]. *)
Definition decrementRow (q now : Z) (r : Inventory.t) : Inventory.t :=
  Inventory.mk (Inventory.id r) (Inventory.productId r)
               (Inventory.quantity r - q)
               (Inventory.minQuantity r) (Inventory.maxQuantity r)
               (Inventory.location r) now.

Definition decrementWhere (productId : Id) (q now : Z) (r : Inventory.t)
  : Inventory.t :=
  if Inventory.productId r =? productId then decrementRow q now r else r.

(** [CHECK (quantity >= 0)] on the rows an update of [inventory] wrote. *)
Definition quantityCheck (touched : Inventory.t -> bool)
           (rows : list Inventory.t) : bool :=
  forallb (fun r => implb (touched r) (0 <=? Inventory.quantity r)%Z) rows.

(** [prisma.inventory.updateMany({ where: { productId },
      data: { quantity: { decrement: q }, lastUpdated: new Date() } })]:
    every row of the product, whatever its location. *)
Definition inventory_updateMany (op : Op) (productId : Id) (q now : Z)
  : M unit :=
  reach op ;;;
  fun db =>
    let rows := map (decrementWhere productId q now) (inventory db) in
    if quantityCheck (fun r => Inventory.productId r =? productId) rows
    then (set_inventory db rows, inr tt)
    else (db, inl CheckViolation).

Definition incrementCustomer (id : Id) (amount : Q) (points : Z)
           (c : Customer.t) : Customer.t :=
  if Customer.id c =? id
  then Customer.mk (Customer.id c) (Customer.loyaltyPoints c + points)
                   (Customer.totalPurchases c + amount)%Q
  else c.

(** [prisma.customer.update({ where: { id }, data: { totalPurchases:
      { increment: amount }, loyaltyPoints: { increment: points } } })] *)
Definition customer_update (id : Id) (amount : Q) (points : Z) : M unit :=
  reach CustomerUpdate ;;;
  fun db =>
    match findCustomer db id with
    | None => (db, inl P2025)
    | Some _ =>
        (set_customers db (map (incrementCustomer id amount points)
                               (customers db)),
         inr tt)
    end.

(** ** Create sale: [router.post('/')] of the sales router *)

(** The first loop of the handler: one catalog read per line. The result
    is the id of the first unknown product, or the two sums. *)
Fixpoint computeTotals (items : list Item.t) (n : nat)
         (subtotal taxAmount : Q) : M (Id + Q * Q) :=
  match items with
  | [] => ret (inr (subtotal, taxAmount))
  | item :: rest =>
      product <- product_findUnique (ProductFindUnique n)
                                    (Item.productId item) ;;
      match product with
      | None => ret (inl (Item.productId item))
      | Some product =>
          let itemTotal :=
            (Product.price product * inject_Z (Item.quantity item))%Q in
          let itemTax := (itemTotal * (Product.taxRate product / 100))%Q in
          computeTotals rest (S n) (subtotal + itemTotal)%Q
                        (taxAmount + itemTax)%Q
      end
  end.

(** [const totalAmount = subtotal + taxAmount - discountAmount;] *)
Definition totalAmount (subtotal taxAmount discountAmount : Q) : Q :=
  (subtotal + taxAmount - discountAmount)%Q.

(** The object [items.map(item => ({ ... }))] builds for a line. *)
Definition saleItemOf (saleId : Id) (item : Item.t) : SaleItem.t :=
  SaleItem.mk saleId (Item.productId item) (Item.quantity item)
    (Item.unitPrice item)
    (orZero (Item.discount item))
    (js_div_lit
       (js_mul (Num (Item.unitPrice item * inject_Z (Item.quantity item))%Q)
               (toNumber (Item.taxRate item)))
       100)
    (Item.unitPrice item * inject_Z (Item.quantity item)
     - orZero (Item.discount item))%Q.

(** The second loop: one [updateMany] per line. *)
Fixpoint updateInventory (items : list Item.t) (n : nat) (now : Z) : M unit :=
  match items with
  | [] => ret tt
  | item :: rest =>
      inventory_updateMany (InventoryUpdateMany n) (Item.productId item)
                           (Item.quantity item) now ;;;
      updateInventory rest (S n) now
  end.

(** [if (customerId)]: a present, non-empty id. *)
Definition truthyId (v : option Id) : option Id :=
  match v with
  | Some s => if s =? "" then None else Some s
  | None => None
  end.

(** The body of the transaction of the handler. [Math.floor(totalAmount /
    10)] is the floor of the exact quotient. *)
Definition createSaleTx (now : Z) (saleId userId : Id) (req : SaleRequest.t)
           (taxAmount discountAmount total : Q)
  : M (Sale.t * list SaleItem.t) :=
  sale <- sale_create
            (Sale.mk saleId (SaleRequest.customerId req) userId total
                     taxAmount discountAmount
                     (SaleRequest.paymentMethodId req)
                     (SaleRequest.paymentStatusId req)
                     (SaleRequest.saleStatusId req)
                     (SaleRequest.notes req))
            (map (saleItemOf saleId) (SaleRequest.items req)) ;;
  updateInventory (SaleRequest.items req) 0 now ;;;
  match truthyId (SaleRequest.customerId req) with
  | Some customerId =>
      customer_update customerId total (Qfloor (total / 10)) ;;;
      ret sale
  | None => ret sale
  end.

Definition internalServerError : Response.t :=
  json 500 (ErrorBody "Internal server error").

(** [saleId] is the key the store generates for the new row and [now] the
    clock read by [new Date()]; [userId] is [req.user.userId]. *)
Definition createSale (now : Z) (saleId userId : Id) (req : SaleRequest.t)
  : Handler :=
  fun db =>
    let discountAmount :=
      match SaleRequest.discountAmount req with
      | Some d => d
      | None => 0%Q
      end in
    match computeTotals (SaleRequest.items req) 0 0 0 db with
    | (db1, inl _) => (db1, internalServerError)
    | (db1, inr (inl productId)) =>
        (db1, json 400 (ErrorBody ("Product " ++ productId ++ " not found")))
    | (db1, inr (inr (subtotal, taxAmount))) =>
        let total := totalAmount subtotal taxAmount discountAmount in
        match transaction
                (createSaleTx now saleId userId req taxAmount
                              discountAmount total) db1 with
        | (db2, inr (sale, items)) =>
            (db2, json 201 (SaleBody "Sale created successfully" sale items))
        | (db2, inl _) => (db2, internalServerError)
        end
    end.

(** ** The triggers of [initialdb.sql] on [AFTER UPDATE ON sales] *)

(** [SELECT name INTO v FROM sale_statuses WHERE id = key]: NULL when the
    key is NULL or names no row. *)
Definition statusName (db : Db) (key : option Id) : option string :=
  match key with
  | None => None
  | Some k => option_map SaleStatus.name (findSaleStatus db k)
  end.

(** [v = 'name'] in a condition: a NULL [v] does not satisfy it. *)
Definition isName (v : option string) (name : string) : bool :=
  match v with
  | Some n => n =? name
  | None => false
  end.

(** [new = 'completed' AND (old IS NULL OR old != 'completed')] *)
Definition entersCompleted (old new : option string) : bool :=
  isName new "completed" && negb (isName old "completed").

(** [new = 'cancelled' AND old = 'completed'] *)
Definition completedToCancelled (old new : option string) : bool :=
  isName new "cancelled" && isName old "completed".

Definition itemsOfSale (db : Db) (saleId : Id) : list SaleItem.t :=
  filter (fun i => SaleItem.saleId i =? saleId) (saleItems db).

(** [product_id IN (SELECT product_id FROM sale_items WHERE sale_id = id)] *)
Definition inSale (db : Db) (saleId productId : Id) : bool :=
  existsb (fun i => SaleItem.productId i =? productId) (itemsOfSale db saleId).

(** [SELECT SUM(quantity) FROM sale_items WHERE sale_id = id AND
    product_id = inventory.product_id], for a product of the sale. *)
Definition soldQuantity (db : Db) (saleId productId : Id) : Z :=
  fold_right Z.add 0
    (map SaleItem.quantity
         (filter (fun i => SaleItem.productId i =? productId)
                 (itemsOfSale db saleId))).

Definition withQuantity (r : Inventory.t) (q : Z) : Inventory.t :=
  Inventory.mk (Inventory.id r) (Inventory.productId r) q
               (Inventory.minQuantity r) (Inventory.maxQuantity r)
               (Inventory.location r) (Inventory.lastUpdated r).

(** [UPDATE inventory SET quantity = quantity - (SELECT SUM ...) WHERE
    product_id IN (...)] *)
Definition takeSold (db : Db) (saleId : Id) (r : Inventory.t) : Inventory.t :=
  if inSale db saleId (Inventory.productId r)
  then withQuantity r (Inventory.quantity r
                       - soldQuantity db saleId (Inventory.productId r))
  else r.

(** [UPDATE inventory SET quantity = quantity + (SELECT SUM ...) WHERE
    product_id IN (...)] *)
Definition putBackSold (db : Db) (saleId : Id) (r : Inventory.t)
  : Inventory.t :=
  if inSale db saleId (Inventory.productId r)
  then withQuantity r (Inventory.quantity r
                       + soldQuantity db saleId (Inventory.productId r))
  else r.

(** An [UPDATE inventory] of a trigger, under [CHECK (quantity >= 0)]. *)
Definition updateInventoryRows (db : Db) (saleId : Id)
           (f : Inventory.t -> Inventory.t) : PrismaError + Db :=
  let rows := map f (inventory db) in
  if quantityCheck (fun r => inSale db saleId (Inventory.productId r)) rows
  then inr (set_inventory db rows)
  else inl CheckViolation.

(** Function [update_inventory_after_sale], on the row before ([old]) and
    after ([new]) the update. *)
Definition update_inventory_after_sale (old new : Sale.t) (db : Db)
  : PrismaError + Db :=
  let old_status_name := statusName db (Sale.saleStatusId old) in
  let new_status_name := statusName db (Sale.saleStatusId new) in
  match
    (if entersCompleted old_status_name new_status_name
     then updateInventoryRows db (Sale.id new) (takeSold db (Sale.id new))
     else inr db)
  with
  | inl e => inl e
  | inr db1 =>
      if completedToCancelled old_status_name new_status_name
      then updateInventoryRows db1 (Sale.id new)
                               (putBackSold db1 (Sale.id new))
      else inr db1
  end.

(** [WHERE id = NEW.customer_id]: no row when the reference is NULL. *)
Definition isCustomerOf (sale : Sale.t) (c : Customer.t) : bool :=
  match Sale.customerId sale with
  | Some k => Customer.id c =? k
  | None => false
  end.

Definition withTotalPurchases (c : Customer.t) (v : Q) : Customer.t :=
  Customer.mk (Customer.id c) (Customer.loyaltyPoints c) v.

(** Function [update_customer_total_purchases]. *)
Definition update_customer_total_purchases (old new : Sale.t) (db : Db)
  : PrismaError + Db :=
  let old_status_name := statusName db (Sale.saleStatusId old) in
  let new_status_name := statusName db (Sale.saleStatusId new) in
  let db1 :=
    if entersCompleted old_status_name new_status_name
    then set_customers db
           (map (fun c =>
                   if isCustomerOf new c
                   then withTotalPurchases c
                          (Customer.totalPurchases c + Sale.totalAmount new)%Q
                   else c)
                (customers db))
    else db in
  let db2 :=
    if completedToCancelled old_status_name new_status_name
    then set_customers db1
           (map (fun c =>
                   if isCustomerOf new c
                   then withTotalPurchases c
                          (Qmax (Customer.totalPurchases c
                                 - Sale.totalAmount new) 0)
                   else c)
                (customers db1))
    else db1 in
  inr db2.

(** ** Update sale status: [router.put('/:id/status')] *)

(** A field of [data] that is [undefined] leaves the column as it is. *)
Definition orKeep (v current : option Id) : option Id :=
  match v with
  | Some k => Some k
  | None => current
  end.

(** [prisma.sale.update({ where: { id }, data: { paymentStatusId,
    saleStatusId } })]: the row update and the two row triggers are one
    statement; an error in a trigger undoes the statement. The triggers
    fire in the order of their names. The payment status written must be
    a key of [payment_statuses]. *)
Definition sale_update (id : Id) (paymentStatusId saleStatusId : option Id)
  : M Sale.t :=
  reach SaleUpdate ;;;
  fun db =>
    match findSale db id with
    | None => (db, inl P2025)
    | Some old =>
        let new :=
          Sale.mk (Sale.id old) (Sale.customerId old) (Sale.userId old)
                  (Sale.totalAmount old) (Sale.taxAmount old)
                  (Sale.discountAmount old) (Sale.paymentMethodId old)
                  (orKeep paymentStatusId (Sale.paymentStatusId old))
                  (orKeep saleStatusId (Sale.saleStatusId old))
                  (Sale.notes old) in
        if negb (fkHolds (findSaleStatus db) (Sale.saleStatusId new)
                 && fkHolds (findKey (paymentStatuses db)) paymentStatusId)
        then (db, inl P2003)
        else
          let db1 :=
            set_sales db (map (fun s => if Sale.id s =? id then new else s)
                              (sales db)) in
          match update_customer_total_purchases old new db1 with
          | inl e => (db, inl e)
          | inr db2 =>
              match update_inventory_after_sale old new db2 with
              | inl e => (db, inl e)
              | inr db3 => (db3, inr new)
              end
          end
    end.

Definition updateSaleStatus (id : Id) (req : StatusRequest.t) : Handler :=
  fun db =>
    match sale_update id (StatusRequest.paymentStatusId req)
                      (StatusRequest.saleStatusId req) db with
    | (db1, inr sale) =>
        (db1, json 200 (SaleBody "Sale status updated successfully" sale []))
    | (db1, inl P2025) => (db1, json 404 (ErrorBody "Sale not found"))
    | (db1, inl _) => (db1, internalServerError)
    end.

(** ** Update product stock: [router.put('/:id/stock')] of the inventory
    router *)

Inductive Operation : Type :=
| Add
| Subtract
| SetTo.

(** [['add', 'subtract', 'set'].includes(operation)] *)
Definition parseOperation (operation : string) : option Operation :=
  if operation =? "add" then Some Add
  else if operation =? "subtract" then Some Subtract
  else if operation =? "set" then Some SetTo
  else None.

(** The [switch (operation)] of the handler. *)
Definition newQuantityOf (op : Operation) (current quantity : Z) : Z :=
  match op with
  | Add => current + quantity
  | Subtract => Z.max 0 (current - quantity)
  | SetTo => quantity
  end.

(** [!quantity || quantity < 0] *)
Definition invalidQuantity (quantity : option Z) : bool :=
  match quantity with
  | None => true
  | Some q => (q =? 0)%Z || (q <? 0)%Z
  end.

(** [reason || 'Manual stock update'] *)
Definition reasonOrDefault (reason : option string) : string :=
  match reason with
  | Some r => if r =? "" then "Manual stock update" else r
  | None => "Manual stock update"
  end.

Definition withStock (p : Product.t) (q : Z) : Product.t :=
  Product.mk (Product.id p) (Product.price p) (Product.taxRate p) q.

(** [prisma.product.update({ where: { id }, data: { quantity } })] *)
Definition product_update (id : Id) (quantity : Z) : M Product.t :=
  reach ProductUpdate ;;;
  fun db =>
    match findProduct db id with
    | None => (db, inl P2025)
    | Some p =>
        (set_products db
           (map (fun x => if Product.id x =? id then withStock x quantity
                          else x)
                (products db)),
         inr (withStock p quantity))
    end.

(** [prisma.inventoryLog.create({ data })] *)
Definition inventoryLog_create (entry : InventoryLog.t) : M unit :=
  reach InventoryLogCreate ;;;
  fun db => (set_inventoryLogs db (inventoryLogs db ++ [entry]), inr tt).

(** [id] is the product id of the path, [userId] is [req.user.id]. *)
Definition adjustStock (id userId : Id) (req : StockRequest.t) : Handler :=
  fun db =>
    if invalidQuantity (StockRequest.quantity req)
    then (db, json 400 (ErrorBody "Valid quantity is required"))
    else
      match StockRequest.quantity req,
            parseOperation (StockRequest.operation req) with
      | None, _ => (db, json 400 (ErrorBody "Valid quantity is required"))
      | Some _, None =>
          (db, json 400
                 (ErrorBody
                    "Valid operation is required (add, subtract, set)"))
      | Some quantity, Some op =>
          match
            (product <- product_findUnique ProductFind id ;;
             match product with
             | None => ret (json 404 (ErrorBody "Product not found"))
             | Some product =>
                 let newQuantity :=
                   newQuantityOf op (Product.quantity product) quantity in
                 updatedProduct <- product_update id newQuantity ;;
                 inventoryLog_create
                   (InventoryLog.mk id (StockRequest.operation req) quantity
                      (Product.quantity product) newQuantity
                      (reasonOrDefault (StockRequest.reason req))
                      userId) ;;;
                 ret (json 200 (ProductBody updatedProduct))
             end) db
          with
          | (db1, inr response) => (db1, response)
          | (db1, inl _) =>
              (db1, json 500 (ErrorBody "Failed to update stock"))
          end
      end.

End Client.

(** ** Notions the statements use *)

(** The total quantity the lines of a cart ask of a product. *)
Definition requested (items : list Item.t) (productId : Id) : Z :=
  fold_right Z.add 0
    (map Item.quantity
         (filter (fun i => Item.productId i =? productId) items)).

(** Whether some line of a cart names the product. *)
Definition ordered (items : list Item.t) (productId : Id) : bool :=
  existsb (fun i => Item.productId i =? productId) items.

(** The stock rows after the second loop of [createSale] ran to its end. *)
Definition soldRows (now : Z) (items : list Item.t) (rows : list Inventory.t)
  : list Inventory.t :=
  fold_left
    (fun rows item =>
       map (decrementWhere (Item.productId item) (Item.quantity item) now) rows)
    items rows.

(** A stock row after the lines of a cart were taken from it one by one. *)
Definition soldRow (now : Z) (items : list Item.t) (r : Inventory.t)
  : Inventory.t :=
  if ordered items (Inventory.productId r)
  then Inventory.mk (Inventory.id r) (Inventory.productId r)
         (Inventory.quantity r - requested items (Inventory.productId r))
         (Inventory.minQuantity r) (Inventory.maxQuantity r)
         (Inventory.location r) now
  else r.

(** No stock row is below zero. *)
Definition stockNonNegative (db : Db) : Prop :=
  Forall (fun r => 0 <= Inventory.quantity r) (inventory db).

(** A line asks more of a product than one of its stock rows holds. *)
Definition oversells (items : list Item.t) (db : Db) : Prop :=
  exists item row,
    In item items /\ In row (inventory db)
    /\ Inventory.productId row = Item.productId item
    /\ Inventory.quantity row < Item.quantity item.

(** The sum of the tax amounts of stored sale items, NaN as soon as one is. *)
Definition js_add (a b : jsnum) : jsnum :=
  match a, b with
  | Num x, Num y => Num (x + y)%Q
  | _, _ => NaN
  end.

Definition sumItemTax (items : list SaleItem.t) : jsnum :=
  fold_left js_add (map SaleItem.taxAmount items) (Num 0).

(** Equality of a JavaScript number and an amount, as rationals. *)
Definition jsnum_is (a : jsnum) (q : Q) : Prop :=
  match a with
  | Num x => (x == q)%Q
  | NaN => False
  end.

(** The customers a sale of [total] for [customerId] leaves. *)
Definition creditedCustomers (customerId : option Id) (total : Q)
           (rows : list Customer.t) : list Customer.t :=
  match truthyId customerId with
  | Some c => map (incrementCustomer c total (Qfloor (total / 10))) rows
  | None => rows
  end.

(** The sale header [createSale] stores. *)
Definition headerOf (saleId userId : Id) (req : SaleRequest.t)
           (taxAmount discountAmount : Q) (total : Q) : Sale.t :=
  Sale.mk saleId (SaleRequest.customerId req) userId total taxAmount
          discountAmount (SaleRequest.paymentMethodId req)
          (SaleRequest.paymentStatusId req) (SaleRequest.saleStatusId req)
          (SaleRequest.notes req).

Definition discountOf (req : SaleRequest.t) : Q :=
  match SaleRequest.discountAmount req with
  | Some d => d
  | None => 0%Q
  end.

(** All the writes of a sale are in [db'], and nothing else changed since
    [db]. *)
Definition committed (now : Z) (saleId : Id) (req : SaleRequest.t)
           (db db' : Db) : Prop :=
  exists sale,
    Sale.id sale = saleId
    /\ sales db' = (sales db ++ [sale])%list
    /\ saleItems db'
       = (saleItems db ++ map (saleItemOf saleId) (SaleRequest.items req))%list
    /\ inventory db' = soldRows now (SaleRequest.items req) (inventory db)
    /\ customers db'
       = creditedCustomers (SaleRequest.customerId req) (Sale.totalAmount sale)
                           (customers db)
    /\ inventoryLogs db' = inventoryLogs db
    /\ products db' = products db
    /\ saleStatuses db' = saleStatuses db.

(** The row of a sale after a status update with body [req]. *)
Definition updatedSale (old : Sale.t) (req : StatusRequest.t) : Sale.t :=
  Sale.mk (Sale.id old) (Sale.customerId old) (Sale.userId old)
          (Sale.totalAmount old) (Sale.taxAmount old)
          (Sale.discountAmount old) (Sale.paymentMethodId old)
          (orKeep (StatusRequest.paymentStatusId req)
                  (Sale.paymentStatusId old))
          (orKeep (StatusRequest.saleStatusId req) (Sale.saleStatusId old))
          (Sale.notes old).

(** The customers after the trigger added the total of [sale] to the
    purchases of its customer. *)
Definition purchasesAdded (sale : Sale.t) (rows : list Customer.t)
  : list Customer.t :=
  map (fun c =>
         if isCustomerOf sale c
         then withTotalPurchases c
                (Customer.totalPurchases c + Sale.totalAmount sale)%Q
         else c)
      rows.

(** The customers after the trigger took the total of [sale] from the
    purchases of its customer, not below zero. *)
Definition purchasesTaken (sale : Sale.t) (rows : list Customer.t)
  : list Customer.t :=
  map (fun c =>
         if isCustomerOf sale c
         then withTotalPurchases c
                (Qmax (Customer.totalPurchases c - Sale.totalAmount sale) 0)
         else c)
      rows.

(** The store never answers with a fault. *)
Definition nofault : Op -> bool := fun _ => false.

(** The store answers every call but the one given. *)
Definition faultAt (op : Op) : Op -> bool :=
  fun o =>
    match op, o with
    | CustomerUpdate, CustomerUpdate => true
    | InventoryLogCreate, InventoryLogCreate => true
    | SaleCreate, SaleCreate => true
    | ProductUpdate, ProductUpdate => true
    | SaleUpdate, SaleUpdate => true
    | ProductFind, ProductFind => true
    | InventoryUpdateMany n, InventoryUpdateMany m => Nat.eqb n m
    | ProductFindUnique n, ProductFindUnique m => Nat.eqb n m
    | _, _ => false
    end.

(** ** A small shop, for the concrete runs *)

Definition statuses : list SaleStatus.t :=
  [SaleStatus.mk "st-pending" "pending";
   SaleStatus.mk "st-completed" "completed";
   SaleStatus.mk "st-cancelled" "cancelled";
   SaleStatus.mk "st-refunded" "refunded"].

(** The keys of [users], [payment_methods] and [payment_statuses]. *)
Definition staff : list Id := ["u1"].

Definition methods : list Id := ["pm-cash"; "pm-card"].

Definition paid : list Id := ["pay-pending"; "pay-paid"].

(** Two products; [p1] is stocked at two locations. *)
Definition shop : Db :=
  mkDb [Product.mk "p1" 100 8 10; Product.mk "p2" 20 0 10]
       [Inventory.mk "i1" "p1" 10 0 None "default" 0;
        Inventory.mk "i2" "p2" 10 0 None "default" 0;
        Inventory.mk "i3" "p1" 7 0 None "warehouse" 0]
       [Customer.mk "c1" 0 0]
       statuses [] [] [] staff methods paid.

(** One stock row per product: [p1 = 10], [p2 = 10]. *)
Definition counter : Db :=
  mkDb [Product.mk "p1" 100 8 10; Product.mk "p2" 20 0 10]
       [Inventory.mk "i1" "p1" 10 0 None "default" 0;
        Inventory.mk "i2" "p2" 10 0 None "default" 0]
       [Customer.mk "c1" 0 0]
       statuses [] [] [] staff methods paid.

(** One stock row, [p1 = 3]. *)
Definition lowShelf : Db :=
  mkDb [Product.mk "p1" 100 8 3]
       [Inventory.mk "i1" "p1" 3 0 None "default" 0]
       [Customer.mk "c1" 0 0]
       statuses [] [] [] staff methods paid.

Definition cartOf (status : Id) (discountAmount : option Q)
           (items : list Item.t) : SaleRequest.t :=
  SaleRequest.mk (Some "c1") items None None (Some status) discountAmount None.

(** [[(p1, 5), (p2, 3)]], the first line without a tax rate. *)
Definition twoLines : list Item.t :=
  [Item.mk "p1" 5 100 None None; Item.mk "p2" 3 20 (Some 1%Q) (Some 10%Q)].

(** [counter] after a sale of 5 of [p1] and 3 of [p2] to [c1] was stored with
    the given status. *)
Definition booked (status : Id) : Db :=
  mkDb [Product.mk "p1" 100 8 10; Product.mk "p2" 20 0 10]
       [Inventory.mk "i1" "p1" 5 0 None "default" 42;
        Inventory.mk "i2" "p2" 7 0 None "default" 42]
       [Customer.mk "c1" 59 590]
       statuses
       [Sale.mk "s1" (Some "c1") "u1" 590 40 10 None None (Some status) None]
       [SaleItem.mk "s1" "p1" 5 100 0 (Num 40) 500;
        SaleItem.mk "s1" "p2" 3 20 0 (Num 0) 60]
       [] staff methods paid.

Definition statusTo (status : Id) : StatusRequest.t :=
  StatusRequest.mk None (Some status).

(** * Further handlers of the same routers

    The read handlers of the sales router, the customer delete and
    statistics handlers of the customers router ([src/routes/customers.js])
    and the stock row upsert of the products router
    ([src/routes/products.js]), over the same store.

    - A handler below answers with an [Answer]: the status and either the
      error message or the JSON value.
    - The column [created_at] of [sales] is not a field of [Sale.t]; the
      handlers that read it take it as [createdAt].
    - A numeric query parameter is absent or a decimal numeral, given by its
      value; [Number] and [parseInt] agree on it.
    - A read leaves the store as it is. *)

From Stdlib Require Import Permutation.

Inductive Answer (T : Type) : Type :=
| Fail (status : Z) (error : string)
| Done (status : Z) (value : T).

Arguments Fail {T} status error.
Arguments Done {T} status value.

Definition statusOf {T : Type} (a : Answer T) : Z :=
  match a with
  | Fail s _ => s
  | Done s _ => s
  end.

(** The client calls of the handlers below. *)
Inductive Call : Type :=
| SaleFindUnique
| SaleFindMany
| SaleCount
| SaleAggregate
| CustomerCount
| CustomerFindUnique
| CustomerDelete
| InventoryUpsert.

(** The range of a Prisma [Int] argument or column. *)
Definition inInt32 (z : Z) : bool :=
  (-2147483648 <=? z)%Z && (z <=? 2147483647)%Z.

Module SaleView.
(** A sale with the relations [include] asks for, over the modelled
    tables. *)
Record t : Type := mk {
  sale : Sale.t;
  customer : option Customer.t;
  saleStatus : option SaleStatus.t;
  saleItems : list (SaleItem.t * option Product.t)
}.
End SaleView.

Module SalesQuery.
Record t : Type := mk {
  page : option N;
  limit : option N;
  customerId : option Id;
  paymentStatusId : option Id;
  saleStatusId : option Id
}.
End SalesQuery.

Module Pagination.
(** [pages] is [None] when [Math.ceil(total / take)] is not a finite
    number, which JSON writes as [null]. *)
Record t : Type := mk {
  page : Z;
  limit : Z;
  total : Z;
  pages : option Z
}.
End Pagination.

Module CustomerStats.
Record t : Type := mk {
  customerId : Id;
  totalPurchases : Q;
  totalOrders : Z;
  averageOrderValue : Q;
  loyaltyPoints : Z;
  lastOrderDate : option Z
}.
End CustomerStats.

Module SalesStats.
Record t : Type := mk {
  totalSales : Z;
  totalRevenue : Q;
  totalCustomers : Z;
  averageSale : Q
}.
End SalesStats.

Module StatsQuery.
Record t : Type := mk {
  startDate : option string;
  endDate : option string
}.
End StatsQuery.

Section Routes.

Variable fault : Call -> bool.

(** [createdAt] of a sale. *)
Variable createdAt : Sale.t -> Z.

(** The rows a [findMany] with [orderBy: { createdAt: 'desc' }] returns for
    the rows that match, in the order the store gives them. *)
Variable newestFirst : list Sale.t -> list Sale.t.

(** [new Date(s)] as a time, [None] for an invalid date. *)
Variable parseDate : string -> option Z.

Definition attempt (c : Call) : M unit :=
  fun db => if fault c then (db, inl BackendFailure) else (db, inr tt).

(** ** Get single sale: [router.get('/:id')] of the sales router *)

Definition relatedCustomer (db : Db) (sale : Sale.t) : option Customer.t :=
  match Sale.customerId sale with
  | Some k => findCustomer db k
  | None => None
  end.

Definition relatedStatus (db : Db) (sale : Sale.t) : option SaleStatus.t :=
  match Sale.saleStatusId sale with
  | Some k => findSaleStatus db k
  | None => None
  end.

(** [include: { customer: true, saleStatus: true,
      saleItems: { include: { product: true } } }] *)
Definition hydrate (db : Db) (sale : Sale.t) : SaleView.t :=
  SaleView.mk sale (relatedCustomer db sale) (relatedStatus db sale)
    (map (fun i => (i, findProduct db (SaleItem.productId i)))
         (itemsOfSale db (Sale.id sale))).

(** [prisma.sale.findUnique({ where: { id }, include })] *)
Definition sale_findUnique (id : Id) : M (option SaleView.t) :=
  attempt SaleFindUnique ;;;
  fun db => (db, inr (option_map (hydrate db) (findSale db id))).

Definition getSale (id : Id) : Db -> Db * Answer SaleView.t :=
  fun db =>
    match sale_findUnique id db with
    | (db1, inr (Some sale)) => (db1, Done 200 sale)
    | (db1, inr None) => (db1, Fail 404 "Sale not found")
    | (db1, inl _) => (db1, Fail 500 "Internal server error")
    end.

(** ** Get all sales: [router.get('/')] of the sales router *)

(** [if (v) where.field = v]: an absent or empty value does not filter. *)
Definition filterBy (v : option Id) (field : option Id) : bool :=
  match truthyId v with
  | None => true
  | Some k => match field with
              | Some f => f =? k
              | None => false
              end
  end.

(** The [where] object of the handler, as a test on a row. *)
Definition salesWhere (q : SalesQuery.t) (s : Sale.t) : bool :=
  filterBy (SalesQuery.customerId q) (Sale.customerId s)
  && filterBy (SalesQuery.paymentStatusId q) (Sale.paymentStatusId s)
  && filterBy (SalesQuery.saleStatusId q) (Sale.saleStatusId s).

(** [const { page = 1, limit = 10 } = req.query] *)
Definition pageOf (q : SalesQuery.t) : Z :=
  match SalesQuery.page q with
  | Some p => Z.of_N p
  | None => 1
  end.

Definition limitOf (q : SalesQuery.t) : Z :=
  match SalesQuery.limit q with
  | Some l => Z.of_N l
  | None => 10
  end.

(** [prisma.sale.findMany({ where, include, skip, take, orderBy })]: the
    client refuses a negative [skip] before it reaches the store. *)
Definition sale_findMany (cond : Sale.t -> bool) (skip take : Z)
  : M (option (list SaleView.t)) :=
  fun db =>
    if negb (0 <=? skip)%Z
    then (db, inr None)
    else
      (attempt SaleFindMany ;;;
       fun db =>
         (db,
          inr (Some (map (hydrate db)
                         (firstn (Z.to_nat take)
                                 (skipn (Z.to_nat skip)
                                        (newestFirst
                                           (filter cond (sales db))))))))) db.

(** [prisma.sale.count({ where })] *)
Definition sale_count (cond : Sale.t -> bool) : M Z :=
  attempt SaleCount ;;;
  fun db => (db, inr (Z.of_nat (List.length (filter cond (sales db))))).

(** [Math.ceil(total / take)] for a count and a [take] that is not below
    zero: not finite when [take] is 0. *)
Definition ceilDiv (total take : Z) : option Z :=
  if (take =? 0)%Z then None
  else Some (Qceiling (inject_Z total / inject_Z take)).

Definition listSales (q : SalesQuery.t)
  : Db -> Db * Answer (list SaleView.t * Pagination.t) :=
  fun db =>
    let skip := ((pageOf q - 1) * limitOf q)%Z in
    let take := limitOf q in
    match sale_findMany (salesWhere q) skip take db with
    | (db1, inr (Some found)) =>
        match sale_count (salesWhere q) db1 with
        | (db2, inr total) =>
            (db2, Done 200 (found,
                            Pagination.mk (pageOf q) take total
                                          (ceilDiv total take)))
        | (db2, inl _) => (db2, Fail 500 "Internal server error")
        end
    | (db1, inr None) => (db1, Fail 500 "Internal server error")
    | (db1, inl _) => (db1, Fail 500 "Internal server error")
    end.

(** ** Sales statistics: [router.get('/stats/overview')] *)

(** [if (v)] on a query string. *)
Definition truthyString (v : option string) : option string :=
  match v with
  | Some s => if s =? "" then None else Some s
  | None => None
  end.

(** The [dateFilter] of the handler: [None] when a date is invalid, else the
    test on a row; a filter needs both dates. *)
Definition dateFilter (q : StatsQuery.t) : option (Sale.t -> bool) :=
  match truthyString (StatsQuery.startDate q),
        truthyString (StatsQuery.endDate q) with
  | Some s, Some e =>
      match parseDate s, parseDate e with
      | Some from, Some to =>
          Some (fun sale => (from <=? createdAt sale)%Z
                            && (createdAt sale <=? to)%Z)
      | _, _ => None
      end
  | _, _ => Some (fun _ => true)
  end.

(** [_sum: { totalAmount: true }]: [None] (null) over no row. *)
Definition sumTotalAmount (rows : list Sale.t) : option Q :=
  match rows with
  | [] => None
  | _ => Some (fold_left (fun acc s => (acc + Sale.totalAmount s)%Q) rows 0%Q)
  end.

(** [prisma.sale.aggregate({ where, _sum: { totalAmount: true } })] *)
Definition sale_aggregate (cond : Sale.t -> bool) : M (option Q) :=
  attempt SaleAggregate ;;;
  fun db => (db, inr (sumTotalAmount (filter cond (sales db)))).

(** [prisma.customer.count()] *)
Definition customer_count : M Z :=
  attempt CustomerCount ;;;
  fun db => (db, inr (Z.of_nat (List.length (customers db)))).

(** [sum || 0] on the [Decimal] object or [null] the aggregate returns. *)
Definition sumOrZero (v : option Q) : Q :=
  match v with
  | Some q => q
  | None => 0%Q
  end.

Definition salesStats (q : StatsQuery.t) : Db -> Db * Answer SalesStats.t :=
  fun db =>
    match dateFilter q with
    | None => (db, Fail 500 "Internal server error")
    | Some cond =>
        match
          (totalSales <- sale_count cond ;;
           totalRevenue <- sale_aggregate cond ;;
           totalCustomers <- customer_count ;;
           ret (SalesStats.mk totalSales
                  (sumOrZero totalRevenue)
                  totalCustomers
                  (if (0 <? totalSales)%Z
                   then (sumOrZero totalRevenue / inject_Z totalSales)%Q
                   else 0%Q))) db
        with
        | (db1, inr stats) => (db1, Done 200 stats)
        | (db1, inl _) => (db1, Fail 500 "Internal server error")
        end
    end.

(** ** Customer statistics: [router.get('/:id/stats')] of the customers
    router *)

(** [customer.sales]: the sales that refer to the customer. *)
Definition salesOfCustomer (db : Db) (id : Id) : list Sale.t :=
  filter (fun s => match Sale.customerId s with
                   | Some k => k =? id
                   | None => false
                   end)
         (sales db).

(** [sales.sort((a, b) => new Date(b.createdAt) - new Date(a.createdAt))]: a
    stable sort, newest first. *)
Fixpoint insertNewest (s : Sale.t) (sorted : list Sale.t) : list Sale.t :=
  match sorted with
  | [] => [s]
  | x :: rest =>
      if (createdAt x <? createdAt s)%Z then s :: x :: rest
      else x :: insertNewest s rest
  end.

Definition sortNewest (rows : list Sale.t) : list Sale.t :=
  fold_left (fun sorted s => insertNewest s sorted) rows [].

(** [prisma.customer.findUnique({ where: { id }, select: { ..., sales } })] *)
Definition customer_findUnique (id : Id)
  : M (option (Customer.t * list Sale.t)) :=
  attempt CustomerFindUnique ;;;
  fun db =>
    (db, inr (option_map (fun c => (c, salesOfCustomer db id))
                         (findCustomer db id))).

Definition customerStats (id : Id) : Db -> Db * Answer CustomerStats.t :=
  fun db =>
    match customer_findUnique id db with
    | (db1, inr (Some (customer, customerSales))) =>
        let totalOrders := Z.of_nat (List.length customerSales) in
        let averageOrderValue :=
          if (0 <? totalOrders)%Z
          then (Customer.totalPurchases customer / inject_Z totalOrders)%Q
          else 0%Q in
        let lastOrderDate :=
          match sortNewest customerSales with
          | newest :: _ => Some (createdAt newest)
          | [] => None
          end in
        (db1, Done 200 (CustomerStats.mk id
                          (Customer.totalPurchases customer) totalOrders
                          averageOrderValue
                          (Customer.loyaltyPoints customer) lastOrderDate))
    | (db1, inr None) => (db1, Fail 404 "Customer not found")
    | (db1, inl _) => (db1, Fail 500 "Internal server error")
    end.

(** ** Delete customer: [router.delete('/:id')] of the customers router *)

Definition refersTo (id : Id) (s : Sale.t) : bool :=
  match Sale.customerId s with
  | Some k => k =? id
  | None => false
  end.

(** [prisma.customer.delete({ where: { id } })]: [sales.customer_id]
    references [customers(id)] with no [ON DELETE] action, so a customer a
    sale refers to cannot be deleted. *)
Definition customer_delete (id : Id) : M Customer.t :=
  attempt CustomerDelete ;;;
  fun db =>
    match findCustomer db id with
    | None => (db, inl P2025)
    | Some c =>
        if existsb (refersTo id) (sales db)
        then (db, inl P2003)
        else
          (set_customers db
             (filter (fun x => negb (Customer.id x =? id)) (customers db)),
           inr c)
    end.

Definition deleteCustomer (id : Id) : Db -> Db * Answer string :=
  fun db =>
    match customer_delete id db with
    | (db1, inr _) => (db1, Done 200 "Customer deleted successfully")
    | (db1, inl P2025) => (db1, Fail 404 "Customer not found")
    | (db1, inl _) => (db1, Fail 500 "Internal server error")
    end.

End Routes.

(** ** Update inventory: [router.put('/:id/inventory')] of the products
    router

    The fields [quantity], [minQuantity] and [maxQuantity] of the body are
    JSON values of any kind; the handler passes them through [parseInt] and
    [||]. The two are JavaScript's own: the handler is modelled over a type
    of values [JsValue] with [parseInt] ([None] is NaN) and the truth test
    of [||]. *)

Section Upsert.

Variable fault : Call -> bool.

Variable JsValue : Type.

Variable parseInt : JsValue -> option Z.

Variable truthy : JsValue -> bool.

Record InventoryBody : Type := mkInventoryBody {
  bodyQuantity : JsValue;
  bodyMinQuantity : JsValue;
  bodyMaxQuantity : JsValue;
  bodyLocation : option string
}.

(** [parseInt(v || 0)] *)
Definition parseIntOrZero (v : JsValue) : option Z :=
  if truthy v then parseInt v else Some 0.

(** [location || 'default'] *)
Definition locationOrDefault (v : option string) : string :=
  match v with
  | Some s => if s =? "" then "default" else s
  | None => "default"
  end.

(** What the client accepts for an [Int] field: a number, not NaN, in the
    range. *)
Definition prismaInt (v : option Z) : option Z :=
  match v with
  | Some z => if inInt32 z then Some z else None
  | None => None
  end.

(** [where: { productId_location: { productId, location } }] *)
Definition atKey (productId : Id) (location : string) (r : Inventory.t)
  : bool :=
  (Inventory.productId r =? productId) && (Inventory.location r =? location).

(** The row the [update] branch writes over [r]. *)
Definition restocked (quantity minQuantity maxQuantity now : Z)
           (r : Inventory.t) : Inventory.t :=
  Inventory.mk (Inventory.id r) (Inventory.productId r) quantity minQuantity
               (Some maxQuantity) (Inventory.location r) now.

(** [prisma.inventory.upsert({ where, update, create })], one statement:
    the row at the key is updated with [lastUpdated: now], or a row is
    inserted under the key [newId] the store generates, with [last_updated]
    at its default [CURRENT_TIMESTAMP], the time [storeNow] of the store.
    [location] is a [VARCHAR(100)], [CHECK (quantity >= 0)] holds of the row
    written, and an inserted row must refer to a product. *)
Definition inventory_upsert (newId : Id) (now storeNow : Z) (productId : Id)
           (location : string) (quantity minQuantity maxQuantity : Z)
  : M Inventory.t :=
  fun db =>
    if fault InventoryUpsert then (db, inl BackendFailure)
    else if negb (String.length location <=? 100)%nat
    then (db, inl CheckViolation)
    else
      match find (atKey productId location) (inventory db) with
      | Some r =>
          if (0 <=? quantity)%Z
          then
            (set_inventory db
               (map (fun x =>
                       if atKey productId location x
                       then restocked quantity minQuantity maxQuantity now x
                       else x)
                    (inventory db)),
             inr (restocked quantity minQuantity maxQuantity now r))
          else (db, inl CheckViolation)
      | None =>
          let row :=
            Inventory.mk newId productId quantity minQuantity
                         (Some maxQuantity) location storeNow in
          match find (fun x => Inventory.id x =? newId) (inventory db) with
          | Some _ => (db, inl P2002)
          | None =>
              match findProduct db productId with
              | None => (db, inl P2003)
              | Some _ =>
                  if (0 <=? quantity)%Z
                  then (set_inventory db (inventory db ++ [row]), inr row)
                  else (db, inl CheckViolation)
              end
          end
      end.

(** [id] is the product id of the path; a value the client refuses makes
    the call throw before the store is reached. *)
Definition putInventory (newId : Id) (now storeNow : Z) (id : Id)
           (body : InventoryBody) : Db -> Db * Answer Inventory.t :=
  fun db =>
    match prismaInt (parseInt (bodyQuantity body)),
          prismaInt (parseIntOrZero (bodyMinQuantity body)),
          prismaInt (parseIntOrZero (bodyMaxQuantity body)) with
    | Some quantity, Some minQuantity, Some maxQuantity =>
        match inventory_upsert newId now storeNow id
                (locationOrDefault (bodyLocation body))
                quantity minQuantity maxQuantity db with
        | (db1, inr row) => (db1, Done 200 row)
        | (db1, inl _) => (db1, Fail 500 "Internal server error")
        end
    | _, _, _ => (db, Fail 500 "Internal server error")
    end.

End Upsert.

(** ** Notions the further statements use *)

(** The stock of every product of the catalog is not below zero. *)
Definition catalogNonNegative (db : Db) : Prop :=
  forall p, In p (products db) -> 0 <= Product.quantity p.

(** An audit entry replays: its operation is one of the three, its amount
    is positive, and its new quantity is what the operation gives from its
    previous quantity and its amount. *)
Definition replays (e : InventoryLog.t) : Prop :=
  exists op,
    parseOperation (InventoryLog.operation e) = Some op
    /\ 0 < InventoryLog.quantity e
    /\ InventoryLog.newQuantity e
       = newQuantityOf op (InventoryLog.previousQuantity e)
                       (InventoryLog.quantity e).

Definition auditReplays (db : Db) : Prop :=
  Forall replays (inventoryLogs db).

(** Two lines ask the same quantity of the same product. *)
Definition sameLine (a b : Item.t) : Prop :=
  Item.productId a = Item.productId b /\ Item.quantity a = Item.quantity b.

(** The request with other lines. *)
Definition withItems (req : SaleRequest.t) (items : list Item.t)
  : SaleRequest.t :=
  SaleRequest.mk (SaleRequest.customerId req) items
                 (SaleRequest.paymentMethodId req)
                 (SaleRequest.paymentStatusId req)
                 (SaleRequest.saleStatusId req)
                 (SaleRequest.discountAmount req)
                 (SaleRequest.notes req).

(** Two stores differ at most in their sale items. *)
Definition sameButItems (a b : Db) : Prop :=
  products a = products b
  /\ inventory a = inventory b
  /\ customers a = customers b
  /\ saleStatuses a = saleStatuses b
  /\ sales a = sales b
  /\ inventoryLogs a = inventoryLogs b.

(** Every stored sale item belongs to a stored sale (the foreign key of the
    sale items). *)
Definition itemsHaveSales (db : Db) : Prop :=
  forall i, In i (saleItems db) -> findSale db (SaleItem.saleId i) <> None.

(** Every stored sale refers to a stored customer, or to none, and to a
    stored sale status, or to none (the foreign keys of [sales]). *)
Definition salesHaveReferences (db : Db) : Prop :=
  forall s,
    In s (sales db) ->
    fkHolds (findCustomer db) (Sale.customerId s) = true
    /\ fkHolds (findSaleStatus db) (Sale.saleStatusId s) = true.

Definition referencesHold (db : Db) : Prop :=
  salesHaveReferences db /\ itemsHaveSales db.

(** The first row of a list is not older than any row of the list. *)
Definition newestAhead (createdAt : Sale.t -> Z) (rows : list Sale.t) : Prop :=
  match rows with
  | [] => True
  | x :: _ => forall y, In y rows -> createdAt y <= createdAt x
  end.

(** A clock for the concrete runs: the sales of the shop in the order of
    their ids. *)
Definition clock (s : Sale.t) : Z :=
  if Sale.id s =? "s1" then 100
  else if Sale.id s =? "s2" then 200
  else 0.

(** [booked] with a second, older-listed but newer sale of the same
    customer. *)
Definition twoSales : Db :=
  set_sales (booked "st-completed")
    [Sale.mk "s2" (Some "c1") "u1" 10 0 0 None None (Some "st-pending") None;
     Sale.mk "s1" (Some "c1") "u1" 590 40 10 None None (Some "st-completed")
             None].

(** The sales a query of the list asks for. *)
Definition matching (q : SalesQuery.t) (db : Db) : list Sale.t :=
  filter (salesWhere q) (sales db).

(** The same query for page [p]. *)
Definition onPage (q : SalesQuery.t) (p : N) : SalesQuery.t :=
  SalesQuery.mk (Some p) (SalesQuery.limit q) (SalesQuery.customerId q)
                (SalesQuery.paymentStatusId q) (SalesQuery.saleStatusId q).

(** The rows of an answer of the list, none for an error. *)
Definition rowsOf (a : Answer (list SaleView.t * Pagination.t))
  : list SaleView.t :=
  match a with
  | Done _ (found, _) => found
  | Fail _ _ => []
  end.

(** The rows of the pages 1 to [k], one call a page. *)
Definition firstPages (fault : Call -> bool)
           (newestFirst : list Sale.t -> list Sale.t) (q : SalesQuery.t)
           (db : Db) (k : nat) : list SaleView.t :=
  flat_map (fun p =>
              rowsOf (snd (listSales fault newestFirst
                                     (onPage q (N.of_nat p)) db)))
           (seq 1 k).

(** Three sales, the newest listed last. *)
Definition threeSales : Db :=
  set_sales (booked "st-completed")
    [Sale.mk "s0" None "u1" 5 0 0 None None (Some "st-pending") None;
     Sale.mk "s1" (Some "c1") "u1" 590 40 10 None None (Some "st-completed")
             None;
     Sale.mk "s2" (Some "c1") "u1" 10 0 0 None None (Some "st-pending") None].

Definition anyPage (page limit : N) : SalesQuery.t :=
  SalesQuery.mk (Some page) (Some limit) None None None.

(** The key of a stock row: [UNIQUE(product_id, location)]. *)
Definition stockKey (r : Inventory.t) : Id * string :=
  (Inventory.productId r, Inventory.location r).

Definition keysUnique (db : Db) : Prop :=
  NoDup (map stockKey (inventory db)).

(** Bodies whose numeric fields are JSON integers or absent: [parseInt] of
    an integer is the integer and of [undefined] is NaN; 0 and [undefined]
    are falsy. *)
Definition parseIntNumber (v : option Z) : option Z := v.

Definition truthyNumber (v : option Z) : bool :=
  match v with
  | Some z => negb (z =? 0)%Z
  | None => false
  end.

Definition putNumbers (fault : Call -> bool) (newId : Id) (now storeNow : Z)
           (id : Id) (body : InventoryBody (option Z))
  : Db -> Db * Answer Inventory.t :=
  putInventory fault (option Z) parseIntNumber truthyNumber newId now
               storeNow id body.

Definition restock (quantity : option Z) (location : option string)
  : InventoryBody (option Z) :=
  mkInventoryBody (option Z) quantity None (Some 40) location.

(** * Properties *)

(** ** Client calls *)

Lemma bind_inr {A B : Type} (m : M A) (k : A -> M B) db db' b :
  bind m k db = (db', inr b) ->
  exists a db1, m db = (db1, inr a) /\ k a db1 = (db', inr b).
Proof.
  unfold bind. destruct (m db) as [db1 [e | a]]; intros H.
  - discriminate.
  - exists a, db1. split; [reflexivity | exact H].
Qed.

Lemma reach_inr fault op db db' u :
  reach fault op db = (db', inr u) -> db' = db /\ fault op = false.
Proof.
  unfold reach. destruct (fault op); intros H; inversion H; auto.
Qed.

Lemma reach_keeps fault op db : fst (reach fault op db) = db.
Proof. unfold reach. destruct (fault op); reflexivity. Qed.

Lemma product_findUnique_keeps fault op id db :
  fst (product_findUnique fault op id db) = db.
Proof.
  unfold product_findUnique, bind, reach. destruct (fault op); reflexivity.
Qed.

Lemma product_findUnique_inr fault op id db db' v :
  product_findUnique fault op id db = (db', inr v) ->
  db' = db /\ v = findProduct db id.
Proof.
  unfold product_findUnique, bind, reach.
  destruct (fault op); intros H; inversion H; auto.
Qed.

(** The first loop of [createSale] only reads. *)
Lemma computeTotals_keeps fault items :
  forall n subtotal taxAmount db,
    fst (computeTotals fault items n subtotal taxAmount db) = db.
Proof.
  induction items as [| item rest IH]; intros n subtotal taxAmount db.
  - reflexivity.
  - simpl. unfold bind at 1.
    pose proof (product_findUnique_keeps fault (ProductFindUnique n)
                  (Item.productId item) db) as Hk.
    destruct (product_findUnique fault (ProductFindUnique n)
                (Item.productId item) db) as [db1 [e | [p |]]];
      simpl in Hk; subst db1.
    + reflexivity.
    + apply IH.
    + reflexivity.
Qed.

Lemma sale_create_inr fault sale items db db' v :
  sale_create fault sale items db = (db', inr v) ->
  v = (sale, items)
  /\ db' = set_saleItems (set_sales db (sales db ++ [sale]))
                         (saleItems db ++ items)
  /\ findSale db (Sale.id sale) = None
  /\ (0 <= Sale.totalAmount sale)%Q.
Proof.
  intros H. apply bind_inr in H as (u & db1 & Hr & H).
  apply reach_inr in Hr as [-> _].
  destruct (findSale db (Sale.id sale)) eqn:Hfind; [discriminate |].
  destruct (negb (saleKeysHold db sale && forallb (itemKeyHolds db) items));
    [discriminate |].
  destruct (Qle_bool 0 (Sale.totalAmount sale)) eqn:Hle; simpl in H;
    [| discriminate].
  destruct (forallb itemCheck items); simpl in H; [| discriminate].
  inversion H; subst. repeat split; auto.
  apply Qle_bool_iff. exact Hle.
Qed.

(** The keys and the checks a successful [prisma.sale.create] has passed. *)
Lemma sale_create_checked fault sale items db db' v :
  sale_create fault sale items db = (db', inr v) ->
  saleKeysHold db sale = true
  /\ forallb (itemKeyHolds db) items = true
  /\ forallb itemCheck items = true.
Proof.
  intros H. apply bind_inr in H as (u & db1 & Hr & H).
  apply reach_inr in Hr as [-> _].
  destruct (findSale db (Sale.id sale)) eqn:Hfind; [discriminate |].
  destruct (saleKeysHold db sale); simpl in H; [| discriminate].
  destruct (forallb (itemKeyHolds db) items); simpl in H; [| discriminate].
  destruct (Qle_bool 0 (Sale.totalAmount sale)); simpl in H;
    [| discriminate].
  destruct (forallb itemCheck items); simpl in H; [| discriminate].
  repeat split; reflexivity.
Qed.

Lemma inventory_updateMany_inr fault op productId q now db db' u :
  inventory_updateMany fault op productId q now db = (db', inr u) ->
  db' = set_inventory db (map (decrementWhere productId q now) (inventory db))
  /\ quantityCheck (fun r => Inventory.productId r =? productId)
       (map (decrementWhere productId q now) (inventory db)) = true.
Proof.
  intros H. apply bind_inr in H as (u0 & db1 & Hr & H).
  apply reach_inr in Hr as [-> _].
  cbv zeta in H.
  destruct (quantityCheck _ _) eqn:Hc; [| discriminate].
  inversion H; subst. split; reflexivity.
Qed.

(** The second loop, when it ends, leaves [soldRows] and nothing else. *)
Lemma updateInventory_inr fault now items :
  forall n db db' u,
    updateInventory fault items n now db = (db', inr u) ->
    db' = set_inventory db (soldRows now items (inventory db)).
Proof.
  induction items as [| item rest IH]; intros n db db' u H.
  - inversion H; subst. destruct db'; reflexivity.
  - simpl in H. apply bind_inr in H as (u0 & db1 & H1 & H).
    apply inventory_updateMany_inr in H1 as [-> _].
    apply IH in H. subst db'. reflexivity.
Qed.

Lemma customer_update_inr fault id amount points db db' u :
  customer_update fault id amount points db = (db', inr u) ->
  db' = set_customers db (map (incrementCustomer id amount points)
                              (customers db)).
Proof.
  intros H. apply bind_inr in H as (u0 & db1 & Hr & H).
  apply reach_inr in Hr as [-> _].
  destruct (findCustomer db id); [| discriminate].
  inversion H; reflexivity.
Qed.

Lemma createSaleTx_inr fault now saleId userId req taxAmount discount total
      db db' v :
  createSaleTx fault now saleId userId req taxAmount discount total db
  = (db', inr v) ->
  let sale := headerOf saleId userId req taxAmount discount total in
  let items := map (saleItemOf saleId) (SaleRequest.items req) in
  v = (sale, items)
  /\ (0 <= total)%Q
  /\ db' = mkDb (products db)
                (soldRows now (SaleRequest.items req) (inventory db))
                (creditedCustomers (SaleRequest.customerId req) total
                                   (customers db))
                (saleStatuses db) (sales db ++ [sale])
                (saleItems db ++ items) (inventoryLogs db)
                (users db) (paymentMethods db) (paymentStatuses db).
Proof.
  intros H sale items. unfold createSaleTx in H.
  apply bind_inr in H as (v0 & db1 & Hc & H).
  apply sale_create_inr in Hc as (-> & -> & _ & Hle).
  apply bind_inr in H as (u & db2 & Hi & H).
  apply updateInventory_inr in Hi. subst db2.
  unfold creditedCustomers.
  destruct (truthyId (SaleRequest.customerId req)) as [c |].
  - apply bind_inr in H as (u1 & db3 & Hu & H).
    apply customer_update_inr in Hu. subst db3.
    inversion H; subst. repeat split; auto.
  - inversion H; subst. repeat split; auto.
Qed.

(** What a [201] of [createSale] says of the request and of the store. *)
Lemma createSale_created fault now saleId userId req db db' r :
  createSale fault now saleId userId req db = (db', r) ->
  Response.status r = 201 ->
  exists subtotal taxAmount,
    computeTotals fault (SaleRequest.items req) 0 0 0 db
    = (db, inr (inr (subtotal, taxAmount)))
    /\ let total := totalAmount subtotal taxAmount (discountOf req) in
       let sale := headerOf saleId userId req taxAmount (discountOf req) total in
       let items := map (saleItemOf saleId) (SaleRequest.items req) in
       r = json 201 (SaleBody "Sale created successfully" sale items)
       /\ (0 <= total)%Q
       /\ db' = mkDb (products db)
                     (soldRows now (SaleRequest.items req) (inventory db))
                     (creditedCustomers (SaleRequest.customerId req) total
                                        (customers db))
                     (saleStatuses db) (sales db ++ [sale])
                     (saleItems db ++ items) (inventoryLogs db)
                     (users db) (paymentMethods db) (paymentStatuses db).
Proof.
  unfold createSale. intros H Hs.
  pose proof (computeTotals_keeps fault (SaleRequest.items req) 0 0 0 db) as Hk.
  destruct (computeTotals fault (SaleRequest.items req) 0 0 0 db)
    as [db1 [e | [pid | [subtotal taxAmount]]]]; simpl in Hk; subst db1.
  - inversion H; subst. discriminate.
  - inversion H; subst. discriminate.
  - exists subtotal, taxAmount. split; [reflexivity |].
    fold (discountOf req) in H. unfold transaction in H.
    destruct (createSaleTx fault now saleId userId req taxAmount
                (discountOf req)
                (totalAmount subtotal taxAmount (discountOf req)) db)
      as [db2 [e | [sale items]]] eqn:Htx.
    + inversion H; subst. discriminate.
    + apply createSaleTx_inr in Htx as (Hv & Hle & Hdb).
      inversion Hv; subst. inversion H; subst. repeat split; auto.
Qed.

(** Any other answer of [createSale] leaves the store as it was. *)
Lemma createSale_failed fault now saleId userId req db db' r :
  createSale fault now saleId userId req db = (db', r) ->
  Response.status r <> 201 ->
  db' = db /\ (Response.status r = 400 \/ Response.status r = 500).
Proof.
  unfold createSale. intros H Hs.
  pose proof (computeTotals_keeps fault (SaleRequest.items req) 0 0 0 db) as Hk.
  destruct (computeTotals fault (SaleRequest.items req) 0 0 0 db)
    as [db1 [e | [pid | [subtotal taxAmount]]]]; simpl in Hk; subst db1.
  - inversion H; subst. auto.
  - inversion H; subst. auto.
  - unfold transaction in H.
    destruct (createSaleTx _ _ _ _ _ _ _ _ _) as [db2 [e | [sale items]]].
    + inversion H; subst. auto.
    + inversion H; subst. simpl in Hs. congruence.
Qed.

(** ** The stock rows a sale leaves *)

Lemma ordered_false_requested items p :
  ordered items p = false -> requested items p = 0.
Proof.
  unfold ordered, requested. induction items as [| i rest IH]; simpl.
  - reflexivity.
  - destruct (Item.productId i =? p); simpl; [discriminate | exact IH].
Qed.

Lemma soldRow_step now item rest r :
  soldRow now rest
    (decrementWhere (Item.productId item) (Item.quantity item) now r)
  = soldRow now (item :: rest) r.
Proof.
  unfold decrementWhere, soldRow, ordered, requested. simpl.
  rewrite (String.eqb_sym (Item.productId item) (Inventory.productId r)).
  destruct (Inventory.productId r =? Item.productId item); simpl.
  - fold (ordered rest (Inventory.productId r)).
    fold (requested rest (Inventory.productId r)).
    destruct (ordered rest (Inventory.productId r)) eqn:Ho.
    + f_equal. lia.
    + rewrite (ordered_false_requested _ _ Ho). unfold decrementRow.
      f_equal. lia.
  - reflexivity.
Qed.

Lemma soldRows_map now items :
  forall rows, soldRows now items rows = map (soldRow now items) rows.
Proof.
  induction items as [| item rest IH]; intros rows.
  - simpl. induction rows as [| r rows IHr]; simpl; [reflexivity |].
    f_equal. exact IHr.
  - change (soldRows now (item :: rest) rows)
      with (soldRows now rest
              (map (decrementWhere (Item.productId item) (Item.quantity item)
                                   now) rows)).
    rewrite IH, map_map. apply map_ext. intros r. apply soldRow_step.
Qed.

Lemma soldRows_nth now items rows k row :
  nth_error rows k = Some row ->
  nth_error (soldRows now items rows) k = Some (soldRow now items row).
Proof.
  intros H. rewrite soldRows_map. apply map_nth_error. exact H.
Qed.

Lemma quantityCheck_true touched rows :
  quantityCheck touched rows = true ->
  forall r, In r rows -> touched r = true -> 0 <= Inventory.quantity r.
Proof.
  unfold quantityCheck. intros H r Hin Ht.
  rewrite forallb_forall in H. specialize (H r Hin).
  rewrite Ht in H. simpl in H. apply Z.leb_le. exact H.
Qed.

Lemma decrementWhere_productId p q now r :
  Inventory.productId (decrementWhere p q now r) = Inventory.productId r.
Proof.
  unfold decrementWhere. destruct (Inventory.productId r =? p); reflexivity.
Qed.

(** The loop keeps the stock above zero: a row it writes passes the check of
    the schema, a row it does not write is as before. *)
Lemma updateInventory_nonneg fault now items :
  forall n db db' u,
    updateInventory fault items n now db = (db', inr u) ->
    stockNonNegative db -> stockNonNegative db'.
Proof.
  unfold stockNonNegative.
  induction items as [| item rest IH]; intros n db db' u H Hpos.
  - inversion H; subst. exact Hpos.
  - simpl in H. apply bind_inr in H as (u0 & db1 & H1 & H).
    apply inventory_updateMany_inr in H1 as [-> Hc].
    apply (IH _ _ _ _ H). simpl.
    apply Forall_forall. intros r' Hin.
    pose proof (quantityCheck_true _ _ Hc r' Hin) as Hq.
    apply in_map_iff in Hin as (r & <- & Hin).
    rewrite Forall_forall in Hpos. specialize (Hpos r Hin).
    unfold decrementWhere in *.
    destruct (Inventory.productId r =? Item.productId item) eqn:He.
    + apply Hq. simpl. exact He.
    + exact Hpos.
Qed.

(** When every line asks a positive quantity and the loop ends, no line asked
    more than a stock row of its product held. *)
Lemma updateInventory_inr_le fault now items :
  forall n db db' u,
    updateInventory fault items n now db = (db', inr u) ->
    Forall (fun i => 0 < Item.quantity i) items ->
    forall item row,
      In item items -> In row (inventory db) ->
      Inventory.productId row = Item.productId item ->
      Item.quantity item <= Inventory.quantity row.
Proof.
  induction items as [| it rest IH]; intros n db db' u H Hpos item row Hi Hr Hp.
  - destruct Hi.
  - simpl in H. apply bind_inr in H as (u0 & db1 & H1 & H).
    apply inventory_updateMany_inr in H1 as [-> Hc].
    inversion Hpos as [| ? ? Hit Hrest]; subst.
    set (row' := decrementWhere (Item.productId it) (Item.quantity it) now row).
    assert (Hin' : In row' (map (decrementWhere (Item.productId it)
                                   (Item.quantity it) now) (inventory db)))
      by (apply in_map; exact Hr).
    assert (Hle : Inventory.quantity row' <= Inventory.quantity row).
    { unfold row', decrementWhere.
      destruct (Inventory.productId row =? Item.productId it); simpl; lia. }
    destruct Hi as [-> | Hi].
    + pose proof (quantityCheck_true _ _ Hc row' Hin') as Hq.
      unfold row', decrementWhere in Hq.
      rewrite Hp, String.eqb_refl in Hq. simpl in Hq.
      rewrite Hp, String.eqb_refl in Hq. specialize (Hq eq_refl). lia.
    + assert (Item.quantity item <= Inventory.quantity row').
      { apply (IH _ _ _ _ H Hrest item row' Hi Hin').
        unfold row'. rewrite decrementWhere_productId. exact Hp. }
      lia.
Qed.

(** A [201] of [createSale] ran the second loop to its end, from the stock
    the call found. *)
Lemma createSale_created_loop fault now saleId userId req db db' r :
  createSale fault now saleId userId req db = (db', r) ->
  Response.status r = 201 ->
  exists db1 db2 u,
    inventory db1 = inventory db
    /\ updateInventory fault (SaleRequest.items req) 0 now db1 = (db2, inr u)
    /\ inventory db' = inventory db2.
Proof.
  unfold createSale. intros H Hs.
  pose proof (computeTotals_keeps fault (SaleRequest.items req) 0 0 0 db) as Hk.
  destruct (computeTotals fault (SaleRequest.items req) 0 0 0 db)
    as [db1 [e | [pid | [subtotal taxAmount]]]]; simpl in Hk; subst db1;
    try (inversion H; subst; discriminate).
  unfold transaction in H.
  destruct (createSaleTx _ _ _ _ _ _ _ _ _) as [db2 [e | [sale items]]] eqn:Htx;
    [inversion H; subst; discriminate |].
  inversion H; subst db2; clear H.
  unfold createSaleTx in Htx.
  apply bind_inr in Htx as (v0 & db1 & Hc & Htx).
  apply sale_create_inr in Hc as (_ & Hdb1 & _ & _).
  apply bind_inr in Htx as (u & db2 & Hi & Htx).
  exists db1, db2, u. split; [subst db1; reflexivity |]. split; [exact Hi |].
  destruct (truthyId (SaleRequest.customerId req)) as [c |].
  - apply bind_inr in Htx as (u1 & db3 & Hu & Htx).
    apply customer_update_inr in Hu. inversion Htx; subst. reflexivity.
  - inversion Htx; subst. reflexivity.
Qed.

(** ** Create sale: atomicity *)

(** C1. A [createSale] call that does not answer [201] (an unknown product,
    a constraint of the schema, a backend fault at any client call) leaves
    the store exactly as it found it: no sale header, sale item, stock
    change, audit entry or customer aggregate change. A call that answers
    [201] has made all of its writes. *)
Theorem createSale_atomic fault now saleId userId req db db' r :
  createSale fault now saleId userId req db = (db', r) ->
  (Response.status r <> 201 /\ db' = db)
  \/ (Response.status r = 201 /\ committed now saleId req db db').
Proof.
  intros H. destruct (Z.eq_dec (Response.status r) 201) as [Hs | Hs].
  - right. split; [exact Hs |].
    destruct (createSale_created _ _ _ _ _ _ _ _ H Hs)
      as (subtotal & taxAmount & _ & _ & _ & ->).
    eexists. simpl. repeat split; reflexivity.
  - left. split; [exact Hs |]. apply (createSale_failed _ _ _ _ _ _ _ _ H Hs).
Qed.

(** The store fails at the last write of the transaction, the customer
    update: the sale, its items and the stock changes written before are
    gone. *)
Lemma createSale_atomic_witness :
  createSale (faultAt CustomerUpdate) 42 "s1" "u1"
             (cartOf "st-completed" None twoLines) counter
  = (counter, internalServerError)
  /\ ((Response.status internalServerError <> 201 /\ counter = counter)
      \/ (Response.status internalServerError = 201
          /\ committed 42 "s1" (cartOf "st-completed" None twoLines)
                       counter counter)).
Proof.
  split.
  - vm_compute. reflexivity.
  - apply (createSale_atomic (faultAt CustomerUpdate) 42 "s1" "u1").
    vm_compute. reflexivity.
Defined.

(** ** Create sale: overselling *)

Lemma soldRow_quantity now items r :
  Inventory.quantity (soldRow now items r)
  = Inventory.quantity r - requested items (Inventory.productId r).
Proof.
  unfold soldRow. destruct (ordered items (Inventory.productId r)) eqn:Ho.
  - reflexivity.
  - rewrite (ordered_false_requested _ _ Ho). lia.
Qed.

Lemma soldRow_productId now items r :
  Inventory.productId (soldRow now items r) = Inventory.productId r.
Proof.
  unfold soldRow. destruct (ordered items (Inventory.productId r)); reflexivity.
Qed.

Lemma soldRow_location now items r :
  Inventory.location (soldRow now items r) = Inventory.location r.
Proof.
  unfold soldRow. destruct (ordered items (Inventory.productId r)); reflexivity.
Qed.

(** The stock after a [201]: row by row, the quantity before minus what the
    lines asked of the product of the row. *)
Lemma createSale_created_stock fault now saleId userId req db db' r :
  createSale fault now saleId userId req db = (db', r) ->
  Response.status r = 201 ->
  forall k row,
    nth_error (inventory db) k = Some row ->
    exists row',
      nth_error (inventory db') k = Some row'
      /\ Inventory.productId row' = Inventory.productId row
      /\ Inventory.location row' = Inventory.location row
      /\ Inventory.quantity row'
         = Inventory.quantity row
           - requested (SaleRequest.items req) (Inventory.productId row).
Proof.
  intros H Hs k row Hk.
  destruct (createSale_created _ _ _ _ _ _ _ _ H Hs)
    as (subtotal & taxAmount & _ & _ & _ & ->).
  exists (soldRow now (SaleRequest.items req) row). simpl.
  split; [apply soldRows_nth; exact Hk |].
  split; [apply soldRow_productId |].
  split; [apply soldRow_location | apply soldRow_quantity].
Qed.

(** C2, against the claim: with [p1 = 3] in stock a sale of 5 of [p1] is
    refused and the stock is untouched, but the answer is the [500] of any
    failure, the same a backend fault gets with enough stock: it is not a
    conflict and does not name the stock. *)
Lemma createSale_oversell_answers_500 :
  createSale nofault 42 "s1" "u1"
             (cartOf "st-completed" None [Item.mk "p1" 5 100 None None])
             lowShelf
  = (lowShelf, json 500 (ErrorBody "Internal server error"))
  /\ createSale (faultAt SaleCreate) 42 "s1" "u1"
                (cartOf "st-completed" None [Item.mk "p1" 1 100 None None])
                lowShelf
     = (lowShelf, json 500 (ErrorBody "Internal server error"))
  /\ Response.status (snd (createSale nofault 42 "s1" "u1"
                             (cartOf "st-completed" None
                                     [Item.mk "p1" 5 100 None None])
                             lowShelf)) <> 409.
Proof.
  split; [vm_compute; reflexivity |].
  split; [vm_compute; reflexivity |].
  vm_compute. discriminate.
Qed.

(** C2, amended. When every line asks a positive quantity and some line asks
    more than a stock row of its product holds, [createSale] fails with the
    [500] of any failure ([400] when a product is unknown) and leaves the
    store, so every stock quantity, as it was. A sale never takes stock
    below zero, and never clamps: after a [201] every stock row holds its
    quantity before minus what the lines asked of its product. *)
Theorem createSale_no_oversell fault now saleId userId req db db' r :
  createSale fault now saleId userId req db = (db', r) ->
  (Forall (fun i => 0 < Item.quantity i) (SaleRequest.items req) ->
   oversells (SaleRequest.items req) db ->
   db' = db /\ (Response.status r = 500 \/ Response.status r = 400))
  /\ (stockNonNegative db -> stockNonNegative db')
  /\ (Response.status r = 201 ->
      forall k row,
        nth_error (inventory db) k = Some row ->
        exists row',
          nth_error (inventory db') k = Some row'
          /\ Inventory.quantity row'
             = Inventory.quantity row
               - requested (SaleRequest.items req) (Inventory.productId row)).
Proof.
  intros H.
  destruct (Z.eq_dec (Response.status r) 201) as [Hs | Hs].
  - destruct (createSale_created_loop _ _ _ _ _ _ _ _ H Hs)
      as (db1 & db2 & u & Hinv & Hloop & Hinv').
    split; [| split].
    + intros Hpos (item & row & Hi & Hr & Hp & Hlt). exfalso.
      rewrite <- Hinv in Hr.
      pose proof (updateInventory_inr_le _ _ _ _ _ _ _ Hloop Hpos
                    item row Hi Hr Hp).
      lia.
    + unfold stockNonNegative. intros Hnn. rewrite Hinv'.
      apply (updateInventory_nonneg _ _ _ _ _ _ _ Hloop).
      unfold stockNonNegative. rewrite Hinv. exact Hnn.
    + intros _ k row Hk.
      destruct (createSale_created_stock _ _ _ _ _ _ _ _ H Hs k row Hk)
        as (row' & Hn & _ & _ & Hq).
      exists row'. split; assumption.
  - destruct (createSale_failed _ _ _ _ _ _ _ _ H Hs) as [-> Hr].
    split; [| split].
    + intros _ _. split; [reflexivity | tauto].
    + tauto.
    + intros Hs'. contradiction.
Qed.

Lemma createSale_no_oversell_witness :
  createSale nofault 42 "s1" "u1"
             (cartOf "st-completed" None [Item.mk "p1" 5 100 None None])
             lowShelf
  = (lowShelf, internalServerError)
  /\ Forall (fun i => 0 < Item.quantity i) [Item.mk "p1" 5 100 None None]
  /\ oversells [Item.mk "p1" 5 100 None None] lowShelf
  /\ lowShelf = lowShelf
  /\ (Response.status internalServerError = 500
      \/ Response.status internalServerError = 400).
Proof.
  assert (Hrun : createSale nofault 42 "s1" "u1"
                   (cartOf "st-completed" None [Item.mk "p1" 5 100 None None])
                   lowShelf
                 = (lowShelf, internalServerError))
    by (vm_compute; reflexivity).
  assert (Hpos : Forall (fun i => 0 < Item.quantity i)
                        [Item.mk "p1" 5 100 None None])
    by (repeat constructor).
  assert (Hover : oversells [Item.mk "p1" 5 100 None None] lowShelf).
  { exists (Item.mk "p1" 5 100 None None),
           (Inventory.mk "i1" "p1" 3 0 None "default" 0).
    simpl. repeat split; auto; lia. }
  split; [exact Hrun |]. split; [exact Hpos |]. split; [exact Hover |].
  exact (proj1 (createSale_no_oversell _ _ _ _ _ _ _ _ Hrun) Hpos Hover).
Defined.

(** ** Create sale: the total *)

(** A call whose first loop found every product and that does not answer
    [201] answers [500] and leaves the store as it was. *)
Lemma createSale_priced_failed fault now saleId userId req db db' r totals :
  createSale fault now saleId userId req db = (db', r) ->
  computeTotals fault (SaleRequest.items req) 0 0 0 db = (db, inr (inr totals)) ->
  Response.status r <> 201 ->
  r = internalServerError /\ db' = db.
Proof.
  unfold createSale. intros H Ht Hs. rewrite Ht in H.
  destruct totals as [subtotal taxAmount]. unfold transaction in H.
  destruct (createSaleTx _ _ _ _ _ _ _ _ _) as [db2 [e | [sale items]]].
  - inversion H; subst. auto.
  - inversion H; subst. simpl in Hs. congruence.
Qed.

(** C3, against the claim: for a subtotal of 100, a tax of 8 and a discount
    of 200 the handler computes a total of -92, not 0; the store refuses it
    ([CHECK (total_amount >= 0)]) and the call answers [500]. *)
Lemma totalAmount_not_floored :
  exists subtotal taxAmount,
    computeTotals nofault [Item.mk "p1" 1 100 None None] 0 0 0 shop
    = (shop, inr (inr (subtotal, taxAmount)))
    /\ (subtotal == 100)%Q /\ (taxAmount == 8)%Q
    /\ (totalAmount subtotal taxAmount 200 == -92)%Q
    /\ ~ (totalAmount subtotal taxAmount 200
          == Qmax 0 (subtotal + taxAmount - 200))%Q
    /\ createSale nofault 42 "s1" "u1"
                  (cartOf "st-completed" (Some 200%Q)
                          [Item.mk "p1" 1 100 None None]) shop
       = (shop, internalServerError).
Proof.
  eexists. eexists. split; [vm_compute; reflexivity |].
  split; [reflexivity |]. split; [reflexivity |]. split; [reflexivity |].
  split; [| vm_compute; reflexivity].
  vm_compute. discriminate.
Qed.

(** C3, amended. The total is [subtotal + taxAmount - discountAmount], with
    no floor at 0: it is 98 for 100, 8 and 10. A sale that is stored
    carries that amount to the cent, and never a negative one: a discount
    that exceeds [subtotal + taxAmount] by a cent or more makes the call
    answer [500] and store nothing. *)
Theorem createSale_totalAmount fault now saleId userId req db db' r
        subtotal taxAmount :
  createSale fault now saleId userId req db = (db', r) ->
  computeTotals fault (SaleRequest.items req) 0 0 0 db
  = (db, inr (inr (subtotal, taxAmount))) ->
  (Response.status r = 201 ->
   exists sale items,
     Response.body r = SaleBody "Sale created successfully" sale items
     /\ sales db' = (sales db ++ [sale])%list
     /\ (0 <= Sale.totalAmount sale)%Q
     /\ (subtotal + taxAmount - discountOf req - (1 # 100)
         < Sale.totalAmount sale)%Q
     /\ (Sale.totalAmount sale
         < subtotal + taxAmount - discountOf req + (1 # 100))%Q)
  /\ ((subtotal + taxAmount - discountOf req <= - (1 # 100))%Q ->
      r = internalServerError /\ db' = db)
  /\ (totalAmount 100 8 10 == 98)%Q.
Proof.
  intros H Ht.
  assert (Hcreated :
            Response.status r = 201 ->
            exists sale items,
              Response.body r = SaleBody "Sale created successfully" sale items
              /\ sales db' = (sales db ++ [sale])%list
              /\ (Sale.totalAmount sale
                  == subtotal + taxAmount - discountOf req)%Q
              /\ (0 <= Sale.totalAmount sale)%Q).
  { intros Hs.
    destruct (createSale_created _ _ _ _ _ _ _ _ H Hs)
      as (s & t & Ht' & -> & Hle & ->).
    rewrite Ht in Ht'. inversion Ht'; subst s t.
    eexists. eexists. simpl. split; [reflexivity |]. split; [reflexivity |].
    split; [reflexivity | exact Hle]. }
  split; [| split; [| reflexivity]].
  - intros Hs. destruct (Hcreated Hs) as (sale & items & Hb & Hdb & Heq & Hle).
    exists sale, items. split; [exact Hb |]. split; [exact Hdb |].
    split; [exact Hle |]. split; lra.
  - intros Hneg. apply (createSale_priced_failed _ _ _ _ _ _ _ _ _ H Ht).
    intros Hs. destruct (Hcreated Hs) as (sale & items & _ & _ & Heq & Hle).
    rewrite Heq in Hle. lra.
Qed.

(** A discount of 200 on a cart of 100 plus 8 of tax. *)
Lemma createSale_totalAmount_witness :
  createSale nofault 42 "s1" "u1"
             (cartOf "st-completed" (Some 200%Q)
                     [Item.mk "p1" 1 100 None None]) shop
  = (shop, internalServerError)
  /\ computeTotals nofault [Item.mk "p1" 1 100 None None] 0 0 0 shop
     = (shop, inr (inr ((0 + 100 * inject_Z 1)%Q,
                        (0 + 100 * inject_Z 1 * (8 / 100))%Q)))
  /\ (0 + 100 * inject_Z 1 + (0 + 100 * inject_Z 1 * (8 / 100))
      - discountOf (cartOf "st-completed" (Some 200%Q)
                           [Item.mk "p1" 1 100 None None])
      <= - (1 # 100))%Q
  /\ internalServerError = internalServerError /\ shop = shop.
Proof.
  assert (Hrun : createSale nofault 42 "s1" "u1"
                   (cartOf "st-completed" (Some 200%Q)
                           [Item.mk "p1" 1 100 None None]) shop
                 = (shop, internalServerError))
    by (vm_compute; reflexivity).
  assert (Htot : computeTotals nofault [Item.mk "p1" 1 100 None None] 0 0 0 shop
                 = (shop, inr (inr ((0 + 100 * inject_Z 1)%Q,
                                    (0 + 100 * inject_Z 1 * (8 / 100))%Q))))
    by reflexivity.
  assert (Hlt : (0 + 100 * inject_Z 1 + (0 + 100 * inject_Z 1 * (8 / 100))
                 - discountOf (cartOf "st-completed" (Some 200%Q)
                                      [Item.mk "p1" 1 100 None None])
                 <= - (1 # 100))%Q)
    by (vm_compute; discriminate).
  split; [exact Hrun |]. split; [exact Htot |]. split; [exact Hlt |].
  exact (proj1 (proj2 (createSale_totalAmount _ _ _ _ _ _ _ _ _ _ Hrun Htot))
               Hlt).
Defined.

(** ** Create sale: stock rows and audit entries *)

(** C7, against the claim: [p1] is stocked at [default] (10) and at
    [warehouse] (7); a sale of 5 of [p1] and 3 of [p2] takes 5 from both
    rows of [p1], and appends no audit entry. *)
Lemma createSale_decrements_every_location :
  Response.status
    (snd (createSale nofault 42 "s1" "u1"
                     (cartOf "st-completed" None twoLines) shop)) = 201
  /\ inventory (fst (createSale nofault 42 "s1" "u1"
                                (cartOf "st-completed" None twoLines) shop))
     = [Inventory.mk "i1" "p1" 5 0 None "default" 42;
        Inventory.mk "i2" "p2" 7 0 None "default" 42;
        Inventory.mk "i3" "p1" 2 0 None "warehouse" 42]
  /\ inventoryLogs (fst (createSale nofault 42 "s1" "u1"
                                    (cartOf "st-completed" None twoLines) shop))
     = [].
Proof.
  split; [vm_compute; reflexivity |].
  split; vm_compute; reflexivity.
Qed.

(** C7, amended. After a successful [createSale] every stock row of a
    product, at whatever location, holds its quantity before minus the
    quantities of the lines that name the product, no row is added or
    removed, and no inventory audit entry is appended. *)
Theorem createSale_stock_rows fault now saleId userId req db db' r :
  createSale fault now saleId userId req db = (db', r) ->
  Response.status r = 201 ->
  (forall k row,
      nth_error (inventory db) k = Some row ->
      exists row',
        nth_error (inventory db') k = Some row'
        /\ Inventory.productId row' = Inventory.productId row
        /\ Inventory.location row' = Inventory.location row
        /\ Inventory.quantity row'
           = Inventory.quantity row
             - requested (SaleRequest.items req) (Inventory.productId row))
  /\ List.length (inventory db') = List.length (inventory db)
  /\ inventoryLogs db' = inventoryLogs db.
Proof.
  intros H Hs. split.
  - apply (createSale_created_stock _ _ _ _ _ _ _ _ H Hs).
  - destruct (createSale_created _ _ _ _ _ _ _ _ H Hs)
      as (subtotal & taxAmount & _ & _ & _ & ->).
    simpl. split; [| reflexivity].
    rewrite soldRows_map. apply length_map.
Qed.

Lemma createSale_stock_rows_witness :
  Response.status
    (snd (createSale nofault 42 "s1" "u1"
                     (cartOf "st-completed" None twoLines) counter)) = 201
  /\ List.length
       (inventory (fst (createSale nofault 42 "s1" "u1"
                                   (cartOf "st-completed" None twoLines)
                                   counter)))
     = List.length (inventory counter)
  /\ inventoryLogs (fst (createSale nofault 42 "s1" "u1"
                                    (cartOf "st-completed" None twoLines)
                                    counter))
     = inventoryLogs counter.
Proof.
  assert (Hs : Response.status
                 (snd (createSale nofault 42 "s1" "u1"
                                  (cartOf "st-completed" None twoLines)
                                  counter)) = 201)
    by (vm_compute; reflexivity).
  split; [exact Hs |].
  exact (proj2 (createSale_stock_rows _ _ _ _ _ _ _ _
                  (surjective_pairing _) Hs)).
Defined.

(** ** Create sale: the tax amount of a sale item *)

(** C10. The tax amount stored with a sale item is
    [unitPrice * quantity * taxRate / 100] over the [taxRate] of the request
    line, whatever the catalog says of the product; it is NaN for a line
    without a [taxRate]; and the tax amount of the sale header, computed from
    the catalog, can differ from the sum over the items: in [shop] the
    catalog taxes [p1] at 8, a line of 5 at 100 taxed at 10 stores a header
    tax of 40 and an item tax of 50. *)
Theorem saleItem_taxAmount_from_request :
  (forall fault now saleId userId req db db' r,
      createSale fault now saleId userId req db = (db', r) ->
      Response.status r = 201 ->
      exists stored,
        saleItems db' = (saleItems db ++ stored)%list
        /\ List.length stored = List.length (SaleRequest.items req)
        /\ forall k item,
            nth_error (SaleRequest.items req) k = Some item ->
            exists si,
              nth_error stored k = Some si
              /\ SaleItem.productId si = Item.productId item
              /\ match Item.taxRate item with
                 | Some rate =>
                     SaleItem.taxAmount si
                     = Num (Item.unitPrice item * inject_Z (Item.quantity item)
                            * rate / 100)%Q
                 | None => SaleItem.taxAmount si = NaN
                 end)
  /\ (exists db' sale items,
         createSale nofault 42 "s1" "u1"
                    (cartOf "st-completed" None
                            [Item.mk "p1" 5 100 None (Some 10%Q)]) shop
         = (db', json 201 (SaleBody "Sale created successfully" sale items))
         /\ saleItems db' = items
         /\ jsnum_is (sumItemTax items) 50
         /\ (Sale.taxAmount sale == 40)%Q
         /\ ~ jsnum_is (sumItemTax items) (Sale.taxAmount sale)).
Proof.
  split.
  - intros fault now saleId userId req db db' r H Hs.
    destruct (createSale_created _ _ _ _ _ _ _ _ H Hs)
      as (subtotal & taxAmount & _ & _ & _ & ->).
    exists (map (saleItemOf saleId) (SaleRequest.items req)). simpl.
    split; [reflexivity |]. split; [apply length_map |].
    intros k item Hk. exists (saleItemOf saleId item).
    split; [apply map_nth_error; exact Hk |].
    split; [reflexivity |].
    destruct (Item.taxRate item) as [rate |] eqn:Hrate;
      unfold saleItemOf; simpl; rewrite Hrate; reflexivity.
  - eexists. eexists. eexists.
    split; [vm_compute; reflexivity |].
    split; [reflexivity |].
    split; [vm_compute; reflexivity |].
    split; [vm_compute; reflexivity |].
    vm_compute. discriminate.
Qed.

(** The first line of [twoLines] has no [taxRate], the second is taxed at 10
    by the request where the catalog says 0. *)
Lemma saleItem_taxAmount_from_request_witness :
  Response.status
    (snd (createSale nofault 42 "s1" "u1"
                     (cartOf "st-completed" None twoLines) counter)) = 201
  /\ exists stored,
      saleItems (fst (createSale nofault 42 "s1" "u1"
                                 (cartOf "st-completed" None twoLines)
                                 counter))
      = (saleItems counter ++ stored)%list
      /\ List.length stored = List.length twoLines
      /\ forall k item,
          nth_error twoLines k = Some item ->
          exists si,
            nth_error stored k = Some si
            /\ SaleItem.productId si = Item.productId item
            /\ match Item.taxRate item with
               | Some rate =>
                   SaleItem.taxAmount si
                   = Num (Item.unitPrice item * inject_Z (Item.quantity item)
                          * rate / 100)%Q
               | None => SaleItem.taxAmount si = NaN
               end.
Proof.
  assert (Hs : Response.status
                 (snd (createSale nofault 42 "s1" "u1"
                                  (cartOf "st-completed" None twoLines)
                                  counter)) = 201)
    by (vm_compute; reflexivity).
  split; [exact Hs |].
  exact (proj1 saleItem_taxAmount_from_request _ _ _ _ _ _ _ _
               (surjective_pairing _) Hs).
Defined.

(** ** Update sale status *)

Lemma entersCompleted_not_cancelled old new :
  entersCompleted old new = true -> completedToCancelled old new = false.
Proof.
  unfold entersCompleted, completedToCancelled, isName.
  destruct new as [n |]; simpl; [| discriminate].
  destruct (n =? "completed") eqn:He; simpl; [| discriminate].
  apply String.eqb_eq in He. subst n. reflexivity.
Qed.

Lemma findSale_some_id db id old :
  findSale db id = Some old -> Sale.id old = id.
Proof.
  unfold findSale. intros H. apply find_some in H as [_ H].
  apply String.eqb_eq. exact H.
Qed.

Lemma update_customer_total_purchases_eq old new db :
  update_customer_total_purchases old new db
  = inr (set_customers db
           (let oldName := statusName db (Sale.saleStatusId old) in
            let newName := statusName db (Sale.saleStatusId new) in
            if entersCompleted oldName newName
            then purchasesAdded new (customers db)
            else if completedToCancelled oldName newName
                 then purchasesTaken new (customers db)
                 else customers db)).
Proof.
  unfold update_customer_total_purchases. cbv zeta.
  destruct (entersCompleted _ _) eqn:He.
  - rewrite (entersCompleted_not_cancelled _ _ He). reflexivity.
  - destruct (completedToCancelled _ _); [reflexivity |].
    destruct db; reflexivity.
Qed.

Lemma update_inventory_after_sale_inr old new db db' :
  update_inventory_after_sale old new db = inr db' ->
  db' = set_inventory db
          (let oldName := statusName db (Sale.saleStatusId old) in
           let newName := statusName db (Sale.saleStatusId new) in
           if entersCompleted oldName newName
           then map (takeSold db (Sale.id new)) (inventory db)
           else if completedToCancelled oldName newName
                then map (putBackSold db (Sale.id new)) (inventory db)
                else inventory db).
Proof.
  unfold update_inventory_after_sale, updateInventoryRows. cbv zeta.
  destruct (entersCompleted _ _) eqn:He.
  - rewrite (entersCompleted_not_cancelled _ _ He).
    destruct (quantityCheck _ _); [| discriminate].
    intros H; inversion H; reflexivity.
  - destruct (completedToCancelled _ _).
    + destruct (quantityCheck _ _); [| discriminate].
      intros H; inversion H; reflexivity.
    + intros H; inversion H; subst. destruct db'; reflexivity.
Qed.

(** What a successful [prisma.sale.update] of the route leaves: the row with
    its new statuses, and the work of the two triggers. *)
Lemma sale_update_inr fault id req db db' new :
  sale_update fault id (StatusRequest.paymentStatusId req)
              (StatusRequest.saleStatusId req) db = (db', inr new) ->
  exists old,
    findSale db id = Some old
    /\ new = updatedSale old req
    /\ let oldName := statusName db (Sale.saleStatusId old) in
       let newName := statusName db (Sale.saleStatusId new) in
       db' = mkDb (products db)
                  (if entersCompleted oldName newName
                   then map (takeSold db id) (inventory db)
                   else if completedToCancelled oldName newName
                        then map (putBackSold db id) (inventory db)
                        else inventory db)
                  (if entersCompleted oldName newName
                   then purchasesAdded new (customers db)
                   else if completedToCancelled oldName newName
                        then purchasesTaken new (customers db)
                        else customers db)
                  (saleStatuses db)
                  (map (fun s => if Sale.id s =? id then new else s) (sales db))
                  (saleItems db) (inventoryLogs db)
                  (users db) (paymentMethods db) (paymentStatuses db).
Proof.
  intros H. apply bind_inr in H as (u & db1 & Hr & H).
  apply reach_inr in Hr as [-> _].
  destruct (findSale db id) as [old |] eqn:Hfind; [| discriminate].
  exists old. split; [reflexivity |].
  pose proof (findSale_some_id _ _ _ Hfind) as Hid.
  cbv zeta in H. fold (updatedSale old req) in H.
  destruct (negb (fkHolds (findSaleStatus db)
                          (Sale.saleStatusId (updatedSale old req))
                  && fkHolds (findKey (paymentStatuses db))
                             (StatusRequest.paymentStatusId req)));
    [discriminate |].
  rewrite update_customer_total_purchases_eq in H.
  destruct (update_inventory_after_sale _ _ _) as [e | db3] eqn:Hinv;
    [discriminate |].
  apply update_inventory_after_sale_inr in Hinv.
  inversion H; subst db3 new; clear H.
  split; [reflexivity |]. subst db'.
  change (Sale.id (updatedSale old req)) with (Sale.id old).
  rewrite Hid. cbv zeta.
  change (statusName (set_customers _ _) (Sale.saleStatusId old))
    with (statusName db (Sale.saleStatusId old)).
  change (statusName (set_customers _ _)
                     (Sale.saleStatusId (updatedSale old req)))
    with (statusName db (Sale.saleStatusId (updatedSale old req))).
  change (statusName (set_sales _ _) (Sale.saleStatusId old))
    with (statusName db (Sale.saleStatusId old)).
  change (statusName (set_sales _ _)
                     (Sale.saleStatusId (updatedSale old req)))
    with (statusName db (Sale.saleStatusId (updatedSale old req))).
  destruct (entersCompleted _ _); [reflexivity |].
  destruct (completedToCancelled _ _); reflexivity.
Qed.

Lemma sale_update_inl fault id paymentStatusId saleStatusId db db' e :
  sale_update fault id paymentStatusId saleStatusId db = (db', inl e) ->
  db' = db.
Proof.
  unfold sale_update, bind, reach. destruct (fault SaleUpdate).
  - intros H; inversion H; reflexivity.
  - destruct (findSale db id) as [old |]; [| intros H; inversion H; reflexivity].
    cbv zeta.
    destruct (negb _); [intros H; inversion H; reflexivity |].
    rewrite update_customer_total_purchases_eq.
    destruct (update_inventory_after_sale _ _ _);
      intros H; inversion H; reflexivity.
Qed.

Lemma updateSaleStatus_ok fault id req db db' r :
  updateSaleStatus fault id req db = (db', r) ->
  Response.status r = 200 ->
  exists new,
    sale_update fault id (StatusRequest.paymentStatusId req)
                (StatusRequest.saleStatusId req) db = (db', inr new).
Proof.
  unfold updateSaleStatus. intros H Hs.
  destruct (sale_update _ _ _ _ _) as [db1 [e | sale]].
  - destruct e; inversion H; subst; discriminate.
  - inversion H; subst. exists sale. reflexivity.
Qed.

Lemma updateSaleStatus_failed fault id req db db' r :
  updateSaleStatus fault id req db = (db', r) ->
  Response.status r <> 200 ->
  db' = db.
Proof.
  unfold updateSaleStatus. intros H Hs.
  destruct (sale_update _ _ _ _ _) as [db1 [e | sale]] eqn:Hu.
  - apply sale_update_inl in Hu. destruct e; inversion H; subst; reflexivity.
  - inversion H; subst. simpl in Hs. congruence.
Qed.

Lemma statusName_requested db req old n :
  statusName db (StatusRequest.saleStatusId req) = Some n ->
  Sale.saleStatusId (updatedSale old req) = StatusRequest.saleStatusId req.
Proof.
  simpl. destruct (StatusRequest.saleStatusId req); simpl.
  - reflexivity.
  - discriminate.
Qed.

(** The effects of a status update, from the names of the status before and
    of the status asked for. *)
Lemma updateSaleStatus_effects fault id req db db' r old oldName newName :
  findSale db id = Some old ->
  statusName db (Sale.saleStatusId old) = oldName ->
  statusName db (Sale.saleStatusId (updatedSale old req)) = newName ->
  updateSaleStatus fault id req db = (db', r) ->
  Response.status r = 200 ->
  inventory db'
  = (if entersCompleted oldName newName
     then map (takeSold db id) (inventory db)
     else if completedToCancelled oldName newName
          then map (putBackSold db id) (inventory db)
          else inventory db)
  /\ customers db'
     = (if entersCompleted oldName newName
        then purchasesAdded (updatedSale old req) (customers db)
        else if completedToCancelled oldName newName
             then purchasesTaken (updatedSale old req) (customers db)
             else customers db)
  /\ saleItems db' = saleItems db
  /\ saleStatuses db' = saleStatuses db
  /\ sales db'
     = map (fun s => if Sale.id s =? id then updatedSale old req else s)
           (sales db).
Proof.
  intros Hfind Ho Hn H Hs.
  destruct (updateSaleStatus_ok _ _ _ _ _ _ H Hs) as [new Hu].
  apply sale_update_inr in Hu as (old' & Hfind' & -> & Hdb).
  rewrite Hfind in Hfind'. inversion Hfind'; subst old'.
  cbv zeta in Hdb. rewrite Ho, Hn in Hdb. subst db'. simpl.
  repeat split; reflexivity.
Qed.

Lemma findSale_updated db id old new :
  findSale db id = Some old ->
  Sale.id new = id ->
  find (fun s => Sale.id s =? id)
       (map (fun s => if Sale.id s =? id then new else s) (sales db))
  = Some new.
Proof.
  unfold findSale. intros H Hid.
  induction (sales db) as [| s rest IH]; simpl in *; [discriminate |].
  destruct (Sale.id s =? id) eqn:He.
  - rewrite Hid, String.eqb_refl. reflexivity.
  - rewrite He. apply IH. exact H.
Qed.

Lemma inSale_false_soldQuantity db saleId p :
  inSale db saleId p = false -> soldQuantity db saleId p = 0.
Proof.
  unfold inSale, soldQuantity.
  induction (itemsOfSale db saleId) as [| i rest IH]; simpl.
  - reflexivity.
  - destruct (SaleItem.productId i =? p); simpl; [discriminate | exact IH].
Qed.

(** Putting back what was taken gives the row itself. *)
Lemma putBackSold_takeSold db id r :
  putBackSold db id (takeSold db id r) = r.
Proof.
  unfold putBackSold, takeSold.
  destruct (inSale db id (Inventory.productId r)) eqn:Hin; simpl.
  - rewrite Hin. destruct r; unfold withQuantity; simpl. f_equal. lia.
  - rewrite Hin. reflexivity.
Qed.

Lemma putBackSold_quantity db id r :
  Inventory.quantity (putBackSold db id r)
  = Inventory.quantity r + soldQuantity db id (Inventory.productId r).
Proof.
  unfold putBackSold.
  destruct (inSale db id (Inventory.productId r)) eqn:Hin; simpl.
  - reflexivity.
  - rewrite (inSale_false_soldQuantity _ _ _ Hin). lia.
Qed.

Lemma statusName_same db1 db2 key :
  saleStatuses db1 = saleStatuses db2 ->
  statusName db1 key = statusName db2 key.
Proof.
  unfold statusName, findSaleStatus. intros ->. reflexivity.
Qed.

Lemma putBackSold_same db1 db2 id r :
  saleItems db1 = saleItems db2 ->
  putBackSold db1 id r = putBackSold db2 id r.
Proof.
  unfold putBackSold, inSale, soldQuantity, itemsOfSale. intros ->.
  reflexivity.
Qed.

(** ** Status transitions: no second effect, and cancelling undoes
    completing *)

(** C4. A status update of a completed sale to completed changes neither
    stock nor customers, whatever it answers. And when a pending sale is
    updated to completed and then to cancelled, both updates answering
    [200], the stock is row for row what it was before the completion. *)
Theorem status_effects_idempotent_and_inverse
        fault id old req1 req2 db db1 db2 r1 r2 :
  findSale db id = Some old ->
  statusName db (StatusRequest.saleStatusId req1) = Some "completed" ->
  updateSaleStatus fault id req1 db = (db1, r1) ->
  updateSaleStatus fault id req2 db1 = (db2, r2) ->
  (statusName db (Sale.saleStatusId old) = Some "completed" ->
   inventory db1 = inventory db /\ customers db1 = customers db)
  /\ (statusName db (Sale.saleStatusId old) = Some "pending" ->
      statusName db (StatusRequest.saleStatusId req2) = Some "cancelled" ->
      Response.status r1 = 200 ->
      Response.status r2 = 200 ->
      inventory db1 = map (takeSold db id) (inventory db)
      /\ inventory db2 = inventory db).
Proof.
  intros Hfind Hreq1 H1 H2.
  pose proof (statusName_requested db req1 old _ Hreq1) as Hnew1.
  assert (Hn1 : statusName db (Sale.saleStatusId (updatedSale old req1))
                = Some "completed") by (rewrite Hnew1; exact Hreq1).
  split.
  - intros Hold.
    destruct (Z.eq_dec (Response.status r1) 200) as [Hs | Hs].
    + destruct (updateSaleStatus_effects _ _ _ _ _ _ _ _ _
                  Hfind Hold Hn1 H1 Hs) as (Hi & Hc & _).
      simpl in Hi, Hc. split; assumption.
    + rewrite (updateSaleStatus_failed _ _ _ _ _ _ H1 Hs). split; reflexivity.
  - intros Hold Hreq2 Hs1 Hs2.
    destruct (updateSaleStatus_effects _ _ _ _ _ _ _ _ _
                Hfind Hold Hn1 H1 Hs1) as (Hi1 & _ & Hitems & Hst & Hsales).
    simpl in Hi1. split; [exact Hi1 |].
    assert (Hfind1 : findSale db1 id = Some (updatedSale old req1)).
    { unfold findSale. rewrite Hsales.
      apply (findSale_updated db id old); [exact Hfind |].
      apply (findSale_some_id _ _ _ Hfind). }
    assert (Hold1 : statusName db1 (Sale.saleStatusId (updatedSale old req1))
                    = Some "completed")
      by (rewrite (statusName_same db1 db _ Hst); exact Hn1).
    assert (Hreq2' : statusName db1 (StatusRequest.saleStatusId req2)
                     = Some "cancelled")
      by (rewrite (statusName_same db1 db _ Hst); exact Hreq2).
    pose proof (statusName_requested db1 req2 (updatedSale old req1) _ Hreq2')
      as Hnew2.
    assert (Hn2 : statusName db1
                    (Sale.saleStatusId
                       (updatedSale (updatedSale old req1) req2))
                  = Some "cancelled") by (rewrite Hnew2; exact Hreq2').
    destruct (updateSaleStatus_effects _ _ _ _ _ _ _ _ _
                Hfind1 Hold1 Hn2 H2 Hs2) as (Hi2 & _).
    simpl in Hi2. rewrite Hi2, Hi1, map_map.
    rewrite <- (map_id (inventory db)) at 2.
    apply map_ext. intros r.
    rewrite (putBackSold_same db1 db id _ Hitems).
    apply putBackSold_takeSold.
Qed.

(** The sale [s1] of [booked] is pending; it is completed, then cancelled. *)
Lemma status_effects_idempotent_and_inverse_witness :
  findSale (booked "st-pending") "s1"
  = Some (Sale.mk "s1" (Some "c1") "u1" 590 40 10 None None
                  (Some "st-pending") None)
  /\ Response.status
       (snd (updateSaleStatus nofault "s1" (statusTo "st-completed")
                              (booked "st-pending"))) = 200
  /\ Response.status
       (snd (updateSaleStatus nofault "s1" (statusTo "st-cancelled")
               (fst (updateSaleStatus nofault "s1" (statusTo "st-completed")
                                      (booked "st-pending"))))) = 200
  /\ inventory
       (fst (updateSaleStatus nofault "s1" (statusTo "st-completed")
                              (booked "st-pending")))
     = map (takeSold (booked "st-pending") "s1")
           (inventory (booked "st-pending"))
  /\ inventory
       (fst (updateSaleStatus nofault "s1" (statusTo "st-cancelled")
               (fst (updateSaleStatus nofault "s1" (statusTo "st-completed")
                                      (booked "st-pending")))))
     = inventory (booked "st-pending").
Proof.
  assert (Hfind : findSale (booked "st-pending") "s1"
                  = Some (Sale.mk "s1" (Some "c1") "u1" 590 40 10 None None
                                  (Some "st-pending") None))
    by reflexivity.
  assert (Hs1 : Response.status
                  (snd (updateSaleStatus nofault "s1" (statusTo "st-completed")
                                         (booked "st-pending"))) = 200)
    by (vm_compute; reflexivity).
  assert (Hs2 : Response.status
                  (snd (updateSaleStatus nofault "s1" (statusTo "st-cancelled")
                          (fst (updateSaleStatus nofault "s1"
                                  (statusTo "st-completed")
                                  (booked "st-pending"))))) = 200)
    by (vm_compute; reflexivity).
  split; [exact Hfind |]. split; [exact Hs1 |]. split; [exact Hs2 |].
  exact (proj2 (status_effects_idempotent_and_inverse
                  nofault "s1" _ (statusTo "st-completed")
                  (statusTo "st-cancelled") (booked "st-pending") _ _ _ _
                  Hfind eq_refl (surjective_pairing _) (surjective_pairing _))
               eq_refl eq_refl Hs1 Hs2).
Defined.

(** ** Where the effects of a sale are applied *)

(** C5, against the claim: a sale created pending takes its quantities from
    the stock (10 and 10 become 5 and 7) and credits the customer at once;
    the update of that sale to completed takes them again (0 and 4). *)
Lemma createSale_pending_applies_effects :
  Response.status
    (snd (createSale nofault 42 "s1" "u1"
                     (cartOf "st-pending" None twoLines) counter)) = 201
  /\ map Inventory.quantity (inventory counter) = [10; 10]
  /\ map Inventory.quantity
       (inventory (fst (createSale nofault 42 "s1" "u1"
                                   (cartOf "st-pending" None twoLines)
                                   counter)))
     = [5; 7]
  /\ map Customer.loyaltyPoints
       (customers (fst (createSale nofault 42 "s1" "u1"
                                   (cartOf "st-pending" None twoLines)
                                   counter)))
     = [60]
  /\ map Inventory.quantity
       (inventory
          (fst (updateSaleStatus nofault "s1" (statusTo "st-completed")
                  (fst (createSale nofault 42 "s1" "u1"
                                   (cartOf "st-pending" None twoLines)
                                   counter)))))
     = [0; 4].
Proof.
  repeat split; vm_compute; reflexivity.
Qed.

(** C5, amended. [createSale] applies the stock decrements and the customer
    aggregate increments of a sale itself, once, at creation and whatever the
    initial status of the sale; a status update that neither enters
    completed from another status nor goes from completed to cancelled
    changes neither stock nor customers. *)
Theorem sale_effects_applied_at_creation :
  (forall fault now saleId userId req db db' r,
      createSale fault now saleId userId req db = (db', r) ->
      Response.status r = 201 ->
      exists sale,
        sales db' = (sales db ++ [sale])%list
        /\ Sale.saleStatusId sale = SaleRequest.saleStatusId req
        /\ inventory db' = map (soldRow now (SaleRequest.items req))
                               (inventory db)
        /\ customers db'
           = match truthyId (SaleRequest.customerId req) with
             | Some c =>
                 map (incrementCustomer c (Sale.totalAmount sale)
                        (Qfloor (Sale.totalAmount sale / 10)))
                     (customers db)
             | None => customers db
             end)
  /\ (forall fault id req db db' r old,
         findSale db id = Some old ->
         entersCompleted
           (statusName db (Sale.saleStatusId old))
           (statusName db (Sale.saleStatusId (updatedSale old req))) = false ->
         completedToCancelled
           (statusName db (Sale.saleStatusId old))
           (statusName db (Sale.saleStatusId (updatedSale old req))) = false ->
         updateSaleStatus fault id req db = (db', r) ->
         inventory db' = inventory db /\ customers db' = customers db).
Proof.
  split.
  - intros fault now saleId userId req db db' r H Hs.
    destruct (createSale_created _ _ _ _ _ _ _ _ H Hs)
      as (subtotal & taxAmount & _ & _ & _ & ->).
    eexists. simpl. split; [reflexivity |]. split; [reflexivity |].
    split; [apply soldRows_map | reflexivity].
  - intros fault id req db db' r old Hfind He Hc H.
    destruct (Z.eq_dec (Response.status r) 200) as [Hs | Hs].
    + destruct (updateSaleStatus_effects _ _ _ _ _ _ _ _ _
                  Hfind eq_refl eq_refl H Hs) as (Hi & Hcu & _).
      rewrite He, Hc in Hi, Hcu. split; assumption.
    + rewrite (updateSaleStatus_failed _ _ _ _ _ _ H Hs). split; reflexivity.
Qed.

(** A sale created pending, and the update of a pending sale to cancelled. *)
Lemma sale_effects_applied_at_creation_witness :
  Response.status
    (snd (createSale nofault 42 "s1" "u1"
                     (cartOf "st-pending" None twoLines) counter)) = 201
  /\ (exists sale,
         sales (fst (createSale nofault 42 "s1" "u1"
                                (cartOf "st-pending" None twoLines) counter))
         = (sales counter ++ [sale])%list
         /\ Sale.saleStatusId sale = Some "st-pending"
         /\ inventory (fst (createSale nofault 42 "s1" "u1"
                                       (cartOf "st-pending" None twoLines)
                                       counter))
            = map (soldRow 42 twoLines) (inventory counter)
         /\ customers (fst (createSale nofault 42 "s1" "u1"
                                       (cartOf "st-pending" None twoLines)
                                       counter))
            = map (incrementCustomer "c1" (Sale.totalAmount sale)
                     (Qfloor (Sale.totalAmount sale / 10)))
                  (customers counter))
  /\ inventory (fst (updateSaleStatus nofault "s1" (statusTo "st-cancelled")
                                      (booked "st-pending")))
     = inventory (booked "st-pending")
  /\ customers (fst (updateSaleStatus nofault "s1" (statusTo "st-cancelled")
                                      (booked "st-pending")))
     = customers (booked "st-pending").
Proof.
  assert (Hs : Response.status
                 (snd (createSale nofault 42 "s1" "u1"
                                  (cartOf "st-pending" None twoLines)
                                  counter)) = 201)
    by (vm_compute; reflexivity).
  split; [exact Hs |]. split.
  - exact (proj1 sale_effects_applied_at_creation _ _ _ _ _ _ _ _
                 (surjective_pairing _) Hs).
  - exact (proj2 sale_effects_applied_at_creation
                 nofault "s1" (statusTo "st-cancelled") (booked "st-pending")
                 _ _ _ eq_refl eq_refl eq_refl (surjective_pairing _)).
Defined.

(** ** Leaving completed *)

(** C6, against the claim: the sale [s1] of [booked] is completed, with
    stock 5 and 7 and a customer at 59 points and 590 of purchases. Updated
    to refunded, nothing is put back and the customer is as before. Updated
    to cancelled, the stock is put back and the purchases are taken, but the
    59 points stay. *)
Lemma leaving_completed_refund_and_points :
  Response.status
    (snd (updateSaleStatus nofault "s1" (statusTo "st-refunded")
                           (booked "st-completed"))) = 200
  /\ map Inventory.quantity
       (inventory (fst (updateSaleStatus nofault "s1" (statusTo "st-refunded")
                                         (booked "st-completed"))))
     = [5; 7]
  /\ customers (fst (updateSaleStatus nofault "s1" (statusTo "st-refunded")
                                      (booked "st-completed")))
     = [Customer.mk "c1" 59 590]
  /\ Response.status
       (snd (updateSaleStatus nofault "s1" (statusTo "st-cancelled")
                              (booked "st-completed"))) = 200
  /\ map Inventory.quantity
       (inventory (fst (updateSaleStatus nofault "s1" (statusTo "st-cancelled")
                                         (booked "st-completed"))))
     = [10; 10]
  /\ map Customer.loyaltyPoints
       (customers (fst (updateSaleStatus nofault "s1" (statusTo "st-cancelled")
                                         (booked "st-completed"))))
     = [59]
  /\ Qfloor (590 / 10) = 59.
Proof.
  repeat split; vm_compute; reflexivity.
Qed.

(** C6, amended. When a status update moves a sale from completed to
    cancelled, every stock row gains the quantities of the items of the sale
    for its product, the purchases of the customer of the sale become
    [max (totalPurchases - totalAmount) 0], and the loyalty points of every
    customer stay as they were. When it moves the sale from completed to
    refunded, neither stock nor customers change. *)
Theorem leaving_completed_effects fault id req db db' r old :
  findSale db id = Some old ->
  statusName db (Sale.saleStatusId old) = Some "completed" ->
  updateSaleStatus fault id req db = (db', r) ->
  Response.status r = 200 ->
  (statusName db (StatusRequest.saleStatusId req) = Some "cancelled" ->
   (forall k row,
       nth_error (inventory db) k = Some row ->
       exists row',
         nth_error (inventory db') k = Some row'
         /\ Inventory.productId row' = Inventory.productId row
         /\ Inventory.quantity row'
            = Inventory.quantity row
              + soldQuantity db id (Inventory.productId row))
   /\ (forall k c,
          nth_error (customers db) k = Some c ->
          exists c',
            nth_error (customers db') k = Some c'
            /\ Customer.id c' = Customer.id c
            /\ Customer.loyaltyPoints c' = Customer.loyaltyPoints c
            /\ Customer.totalPurchases c'
               = if isCustomerOf old c
                 then Qmax (Customer.totalPurchases c - Sale.totalAmount old) 0
                 else Customer.totalPurchases c))
  /\ (statusName db (StatusRequest.saleStatusId req) = Some "refunded" ->
      inventory db' = inventory db /\ customers db' = customers db).
Proof.
  intros Hfind Hold H Hs. split.
  - intros Hreq.
    pose proof (statusName_requested db req old _ Hreq) as Hnew.
    assert (Hn : statusName db (Sale.saleStatusId (updatedSale old req))
                 = Some "cancelled") by (rewrite Hnew; exact Hreq).
    destruct (updateSaleStatus_effects _ _ _ _ _ _ _ _ _ Hfind Hold Hn H Hs)
      as (Hi & Hc & _).
    simpl in Hi, Hc. split.
    + intros k row Hk. exists (putBackSold db id row).
      rewrite Hi. split; [apply map_nth_error; exact Hk |].
      split; [| apply putBackSold_quantity].
      unfold putBackSold.
      destruct (inSale db id (Inventory.productId row)); reflexivity.
    + intros k c Hk. rewrite Hc. unfold purchasesTaken.
      eexists. split; [apply map_nth_error; exact Hk |].
      change (isCustomerOf (updatedSale old req) c) with (isCustomerOf old c).
      destruct (isCustomerOf old c); simpl; repeat split; reflexivity.
  - intros Hreq.
    pose proof (statusName_requested db req old _ Hreq) as Hnew.
    assert (Hn : statusName db (Sale.saleStatusId (updatedSale old req))
                 = Some "refunded") by (rewrite Hnew; exact Hreq).
    destruct (updateSaleStatus_effects _ _ _ _ _ _ _ _ _ Hfind Hold Hn H Hs)
      as (Hi & Hc & _).
    simpl in Hi, Hc. split; assumption.
Qed.

Lemma leaving_completed_effects_witness :
  findSale (booked "st-completed") "s1"
  = Some (Sale.mk "s1" (Some "c1") "u1" 590 40 10 None None
                  (Some "st-completed") None)
  /\ Response.status
       (snd (updateSaleStatus nofault "s1" (statusTo "st-refunded")
                              (booked "st-completed"))) = 200
  /\ inventory (fst (updateSaleStatus nofault "s1" (statusTo "st-refunded")
                                      (booked "st-completed")))
     = inventory (booked "st-completed")
  /\ customers (fst (updateSaleStatus nofault "s1" (statusTo "st-refunded")
                                      (booked "st-completed")))
     = customers (booked "st-completed").
Proof.
  assert (Hfind : findSale (booked "st-completed") "s1"
                  = Some (Sale.mk "s1" (Some "c1") "u1" 590 40 10 None None
                                  (Some "st-completed") None))
    by reflexivity.
  assert (Hs : Response.status
                 (snd (updateSaleStatus nofault "s1" (statusTo "st-refunded")
                                        (booked "st-completed"))) = 200)
    by (vm_compute; reflexivity).
  split; [exact Hfind |]. split; [exact Hs |].
  exact (proj2 (leaving_completed_effects
                  nofault "s1" (statusTo "st-refunded") (booked "st-completed")
                  _ _ _ Hfind eq_refl (surjective_pairing _) Hs)
               eq_refl).
Defined.

(** ** Update product stock *)

Lemma findProduct_updated db id q logs :
  findProduct
    (mkDb (map (fun x => if Product.id x =? id then withStock x q else x)
               (products db))
          (inventory db) (customers db) (saleStatuses db) (sales db)
          (saleItems db) logs (users db) (paymentMethods db) (paymentStatuses db)) id
  = option_map (fun p => withStock p q) (findProduct db id).
Proof.
  unfold findProduct. simpl.
  induction (products db) as [| p rest IH]; simpl; [reflexivity |].
  destruct (Product.id p =? id) eqn:He; simpl; rewrite He.
  - reflexivity.
  - exact IH.
Qed.

Lemma product_update_inr fault id q db db' v :
  product_update fault id q db = (db', inr v) ->
  exists p,
    findProduct db id = Some p
    /\ v = withStock p q
    /\ db' = set_products db
               (map (fun x => if Product.id x =? id then withStock x q else x)
                    (products db)).
Proof.
  intros H. apply bind_inr in H as (u & db1 & Hr & H).
  apply reach_inr in Hr as [-> _].
  destruct (findProduct db id) as [p |]; [| discriminate].
  inversion H; subst. exists p. repeat split; reflexivity.
Qed.

Lemma product_update_logs fault id q db :
  inventoryLogs (fst (product_update fault id q db)) = inventoryLogs db.
Proof.
  unfold product_update, bind, reach. destruct (fault ProductUpdate);
    [reflexivity |].
  destruct (findProduct db id); reflexivity.
Qed.

Lemma inventoryLog_create_inr fault entry db db' u :
  inventoryLog_create fault entry db = (db', inr u) ->
  db' = set_inventoryLogs db (inventoryLogs db ++ [entry]).
Proof.
  intros H. apply bind_inr in H as (u0 & db1 & Hr & H).
  apply reach_inr in Hr as [-> _]. inversion H; reflexivity.
Qed.

Lemma inventoryLog_create_inl fault entry db db' e :
  inventoryLog_create fault entry db = (db', inl e) -> db' = db.
Proof.
  unfold inventoryLog_create, bind, reach.
  destruct (fault InventoryLogCreate); intros H; inversion H; reflexivity.
Qed.

(** What a [200] of [adjustStock] says of the request and of the store. *)
Lemma adjustStock_ok fault id userId req db db' r :
  adjustStock fault id userId req db = (db', r) ->
  Response.status r = 200 ->
  exists quantity op product,
    StockRequest.quantity req = Some quantity
    /\ 0 < quantity
    /\ parseOperation (StockRequest.operation req) = Some op
    /\ findProduct db id = Some product
    /\ let newQuantity := newQuantityOf op (Product.quantity product) quantity in
       r = json 200 (ProductBody (withStock product newQuantity))
       /\ db' = mkDb (map (fun x => if Product.id x =? id
                                    then withStock x newQuantity else x)
                          (products db))
                     (inventory db) (customers db) (saleStatuses db)
                     (sales db) (saleItems db)
                     (inventoryLogs db
                      ++ [InventoryLog.mk id (StockRequest.operation req)
                            quantity (Product.quantity product) newQuantity
                            (reasonOrDefault (StockRequest.reason req))
                            userId])
                     (users db) (paymentMethods db) (paymentStatuses db).
Proof.
  unfold adjustStock. intros H Hs.
  destruct (invalidQuantity (StockRequest.quantity req)) eqn:Hq;
    [inversion H; subst; discriminate |].
  destruct (StockRequest.quantity req) as [quantity |];
    [| inversion H; subst; discriminate].
  destruct (parseOperation (StockRequest.operation req)) as [op |];
    [| inversion H; subst; discriminate].
  exists quantity, op.
  match type of H with
  | match ?m db with _ => _ end = _ => destruct (m db) as [db1 [e | resp]] eqn:Hm
  end; [inversion H; subst; discriminate |].
  inversion H; subst db1 resp; clear H.
  apply bind_inr in Hm as (found & db1 & Hf & Hm).
  apply product_findUnique_inr in Hf as [-> ->].
  destruct (findProduct db id) as [product |] eqn:Hfind;
    [| inversion Hm; subst; discriminate].
  exists product.
  apply bind_inr in Hm as (updated & db2 & Hu & Hm).
  apply product_update_inr in Hu as (p & Hp & -> & ->).
  rewrite Hfind in Hp. inversion Hp; subst p.
  apply bind_inr in Hm as (u & db3 & Hl & Hm).
  apply inventoryLog_create_inr in Hl. subst db3.
  inversion Hm; subst.
  simpl in Hq. apply orb_false_iff in Hq as [Hz Hn].
  apply Z.eqb_neq in Hz. apply Z.ltb_ge in Hn.
  repeat split; auto; lia.
Qed.

(** Any other answer of [adjustStock] wrote no audit entry. *)
Lemma adjustStock_failed_logs fault id userId req db db' r :
  adjustStock fault id userId req db = (db', r) ->
  Response.status r <> 200 ->
  inventoryLogs db' = inventoryLogs db.
Proof.
  unfold adjustStock. intros H Hs.
  destruct (invalidQuantity (StockRequest.quantity req));
    [inversion H; subst; reflexivity |].
  destruct (StockRequest.quantity req) as [quantity |];
    [| inversion H; subst; reflexivity].
  destruct (parseOperation (StockRequest.operation req)) as [op |];
    [| inversion H; subst; reflexivity].
  unfold bind at 1 in H.
  pose proof (product_findUnique_keeps fault ProductFind id db) as Hk.
  destruct (product_findUnique fault ProductFind id db)
    as [db1 [e | [product |]]]; simpl in Hk; subst db1;
    try (inversion H; subst; reflexivity).
  unfold bind at 1 in H.
  pose proof (product_update_logs fault id
                (newQuantityOf op (Product.quantity product) quantity) db)
    as Hlogs.
  destruct (product_update fault id _ db) as [db2 [e | updated]];
    simpl in Hlogs; [inversion H; subst; exact Hlogs |].
  unfold bind at 1 in H.
  destruct (inventoryLog_create fault _ db2) as [db3 [e | u]] eqn:Hl.
  - apply inventoryLog_create_inl in Hl. inversion H; subst. exact Hlogs.
  - unfold ret in H. inversion H; subst. simpl in Hs. congruence.
Qed.

(** C8, against the claim: the store fails when the audit entry is written.
    The call answers [500], no entry exists, and the stock of [p1], 10
    before, stays at the 6 the update wrote. *)
Lemma adjustStock_keeps_quantity_without_audit :
  findProduct shop "p1" = Some (Product.mk "p1" 100 8 10)
  /\ snd (adjustStock (faultAt InventoryLogCreate) "p1" "u1"
                      (StockRequest.mk (Some 4) "subtract" None) shop)
     = json 500 (ErrorBody "Failed to update stock")
  /\ findProduct
       (fst (adjustStock (faultAt InventoryLogCreate) "p1" "u1"
                         (StockRequest.mk (Some 4) "subtract" None) shop))
       "p1"
     = Some (Product.mk "p1" 100 8 6)
  /\ inventoryLogs
       (fst (adjustStock (faultAt InventoryLogCreate) "p1" "u1"
                         (StockRequest.mk (Some 4) "subtract" None) shop))
     = [].
Proof.
  repeat split; vm_compute; reflexivity.
Qed.

(** When the store fails at the audit write and at nothing before it, the
    call answers [500] with the new quantity written and no entry. *)
Lemma adjustStock_audit_fault fault id userId req db db' r q op p :
  adjustStock fault id userId req db = (db', r) ->
  fault ProductFind = false ->
  fault ProductUpdate = false ->
  fault InventoryLogCreate = true ->
  StockRequest.quantity req = Some q ->
  0 < q ->
  parseOperation (StockRequest.operation req) = Some op ->
  findProduct db id = Some p ->
  r = json 500 (ErrorBody "Failed to update stock")
  /\ findProduct db' id
     = Some (withStock p (newQuantityOf op (Product.quantity p) q))
  /\ inventoryLogs db' = inventoryLogs db.
Proof.
  unfold adjustStock. intros H Hf Hu Hl Hq Hpos Hop Hfind.
  rewrite Hq, Hop in H. simpl in H.
  assert (Hz : (q =? 0)%Z = false) by (apply Z.eqb_neq; lia).
  assert (Hn : (q <? 0)%Z = false) by (apply Z.ltb_ge; lia).
  rewrite Hz, Hn in H. simpl in H.
  unfold bind, product_findUnique, product_update, inventoryLog_create,
    bind, reach in H.
  rewrite Hf, Hfind, Hu, Hfind, Hl in H.
  inversion H; subst. split; [reflexivity |].
  split; [| reflexivity].
  unfold set_products.
  rewrite findProduct_updated, Hfind. reflexivity.
Qed.

(** C8, amended. An [adjustStock] call that answers [200], whatever its
    operation, appends exactly one audit entry, whose [previousQuantity] is
    the stock of the product before the call and whose [newQuantity] is its
    stock after the call; a call that answers otherwise appends none. The
    two writes are not one unit: when the audit entry cannot be written the
    call answers [500] and the new quantity stays written. *)
Theorem adjustStock_audit_entry fault id userId req db db' r :
  adjustStock fault id userId req db = (db', r) ->
  (Response.status r = 200 ->
   exists before after entry,
     findProduct db id = Some before
     /\ findProduct db' id = Some after
     /\ inventoryLogs db' = (inventoryLogs db ++ [entry])%list
     /\ InventoryLog.productId entry = id
     /\ InventoryLog.operation entry = StockRequest.operation req
     /\ InventoryLog.previousQuantity entry = Product.quantity before
     /\ InventoryLog.newQuantity entry = Product.quantity after)
  /\ (Response.status r <> 200 -> inventoryLogs db' = inventoryLogs db)
  /\ (fault ProductFind = false ->
      fault ProductUpdate = false ->
      fault InventoryLogCreate = true ->
      forall q op p,
        StockRequest.quantity req = Some q ->
        0 < q ->
        parseOperation (StockRequest.operation req) = Some op ->
        findProduct db id = Some p ->
        r = json 500 (ErrorBody "Failed to update stock")
        /\ findProduct db' id
           = Some (withStock p (newQuantityOf op (Product.quantity p) q))
        /\ inventoryLogs db' = inventoryLogs db).
Proof.
  intros H. split; [| split].
  - intros Hs.
    destruct (adjustStock_ok _ _ _ _ _ _ _ H Hs)
      as (quantity & op & product & _ & _ & _ & Hfind & _ & ->).
    exists product. eexists. eexists.
    split; [exact Hfind |].
    split; [rewrite findProduct_updated, Hfind; reflexivity |].
    simpl. repeat split; reflexivity.
  - apply (adjustStock_failed_logs _ _ _ _ _ _ _ H).
  - intros Hf Hu Hl q op p Hq Hpos Hop Hfind.
    apply (adjustStock_audit_fault _ _ _ _ _ _ _ _ _ _
             H Hf Hu Hl Hq Hpos Hop Hfind).
Qed.

Lemma adjustStock_audit_entry_witness :
  Response.status
    (snd (adjustStock nofault "p1" "u1"
                      (StockRequest.mk (Some 4) "subtract" None) shop)) = 200
  /\ exists before after entry,
      findProduct shop "p1" = Some before
      /\ findProduct
           (fst (adjustStock nofault "p1" "u1"
                             (StockRequest.mk (Some 4) "subtract" None) shop))
           "p1" = Some after
      /\ inventoryLogs
           (fst (adjustStock nofault "p1" "u1"
                             (StockRequest.mk (Some 4) "subtract" None) shop))
         = (inventoryLogs shop ++ [entry])%list
      /\ InventoryLog.productId entry = "p1"
      /\ InventoryLog.operation entry = "subtract"
      /\ InventoryLog.previousQuantity entry = Product.quantity before
      /\ InventoryLog.newQuantity entry = Product.quantity after.
Proof.
  assert (Hs : Response.status
                 (snd (adjustStock nofault "p1" "u1"
                                   (StockRequest.mk (Some 4) "subtract" None)
                                   shop)) = 200)
    by (vm_compute; reflexivity).
  split; [exact Hs |].
  exact (proj1 (adjustStock_audit_entry _ _ _ _ _ _ _ (surjective_pairing _))
               Hs).
Defined.

(** C9. The handler refuses the amount 0 for [set] (and for every
    operation): [!quantity] holds of 0, so the call answers [400] and the
    stock is not set to 0. A positive amount is accepted and becomes the
    stock of the product. *)
Theorem adjustStock_set_zero_rejected :
  (forall fault id userId reason db,
      adjustStock fault id userId (StockRequest.mk (Some 0) "set" reason) db
      = (db, json 400 (ErrorBody "Valid quantity is required")))
  /\ (forall id userId reason db p q,
         0 < q ->
         findProduct db id = Some p ->
         exists db',
           adjustStock nofault id userId (StockRequest.mk (Some q) "set" reason)
                       db
           = (db', json 200 (ProductBody (withStock p q)))
           /\ findProduct db' id = Some (withStock p q)).
Proof.
  split.
  - intros fault id userId reason db. reflexivity.
  - intros id userId reason db p q Hq Hfind.
    unfold adjustStock. simpl.
    assert (Hz : (q =? 0)%Z = false) by (apply Z.eqb_neq; lia).
    assert (Hn : (q <? 0)%Z = false) by (apply Z.ltb_ge; lia).
    rewrite Hz, Hn. simpl.
    unfold bind, product_findUnique, product_update, inventoryLog_create,
      bind, reach, nofault, ret. simpl.
    rewrite Hfind. simpl. rewrite Hfind. simpl.
    eexists. split; [reflexivity |].
    unfold set_inventoryLogs, set_products.
    cbn [products inventory customers saleStatuses sales saleItems
         inventoryLogs users paymentMethods paymentStatuses].
    rewrite findProduct_updated, Hfind. reflexivity.
Qed.

Lemma adjustStock_set_zero_rejected_witness :
  0 < 4
  /\ findProduct shop "p1" = Some (Product.mk "p1" 100 8 10)
  /\ exists db',
      adjustStock nofault "p1" "u1" (StockRequest.mk (Some 4) "set" None) shop
      = (db', json 200 (ProductBody (withStock (Product.mk "p1" 100 8 10) 4)))
      /\ findProduct db' "p1" = Some (withStock (Product.mk "p1" 100 8 10) 4).
Proof.
  split; [lia |]. split; [reflexivity |].
  apply (proj2 adjustStock_set_zero_rejected "p1" "u1" None shop
               (Product.mk "p1" 100 8 10) 4); [lia | reflexivity].
Defined.

(** * Further properties *)

(** ** Update sale status: errors, frame and invariants *)

Lemma sale_update_P2025 fault id paymentStatusId saleStatusId db db' :
  sale_update fault id paymentStatusId saleStatusId db = (db', inl P2025) ->
  findSale db id = None.
Proof.
  unfold sale_update, bind, reach. destruct (fault SaleUpdate);
    [discriminate |].
  destruct (findSale db id) as [old |]; [| reflexivity].
  cbv zeta. destruct (negb _); [discriminate |].
  rewrite update_customer_total_purchases_eq.
  unfold update_inventory_after_sale, updateInventoryRows. cbv zeta.
  destruct (entersCompleted _ _).
  - destruct (quantityCheck _ _); [| discriminate].
    destruct (completedToCancelled _ _); [| discriminate].
    destruct (quantityCheck _ _); discriminate.
  - destruct (completedToCancelled _ _); [| discriminate].
    destruct (quantityCheck _ _); discriminate.
Qed.

(** The three answers of the handler. *)
Lemma updateSaleStatus_answers fault id req db db' r :
  updateSaleStatus fault id req db = (db', r) ->
  Response.status r = 200
  \/ (r = json 404 (ErrorBody "Sale not found") /\ findSale db id = None)
  \/ r = internalServerError.
Proof.
  unfold updateSaleStatus. intros H.
  destruct (sale_update _ _ _ _ _) as [db1 [e | sale]] eqn:Hu.
  - destruct e; inversion H; subst; auto.
    right. left. split; [reflexivity |].
    apply (sale_update_P2025 _ _ _ _ _ _ Hu).
  - inversion H; subst. left. reflexivity.
Qed.

Lemma inSale_same db1 db2 id p :
  saleItems db1 = saleItems db2 -> inSale db1 id p = inSale db2 id p.
Proof. unfold inSale, itemsOfSale. intros ->. reflexivity. Qed.

Lemma takeSold_same db1 db2 id r :
  saleItems db1 = saleItems db2 -> takeSold db1 id r = takeSold db2 id r.
Proof.
  unfold takeSold, inSale, soldQuantity, itemsOfSale. intros ->. reflexivity.
Qed.

Lemma takeSold_quantity db id r :
  Inventory.quantity (takeSold db id r)
  = Inventory.quantity r - soldQuantity db id (Inventory.productId r).
Proof.
  unfold takeSold.
  destruct (inSale db id (Inventory.productId r)) eqn:Hin; simpl.
  - reflexivity.
  - rewrite (inSale_false_soldQuantity _ _ _ Hin). lia.
Qed.

Lemma takeSold_productId db id r :
  Inventory.productId (takeSold db id r) = Inventory.productId r.
Proof.
  unfold takeSold. destruct (inSale db id (Inventory.productId r)); reflexivity.
Qed.

Lemma putBackSold_productId db id r :
  Inventory.productId (putBackSold db id r) = Inventory.productId r.
Proof.
  unfold putBackSold.
  destruct (inSale db id (Inventory.productId r)); reflexivity.
Qed.

(** The inventory trigger ends only when the rows it wrote pass the check of
    the schema. *)
Lemma update_inventory_after_sale_checked old new db db' :
  update_inventory_after_sale old new db = inr db' ->
  let oldName := statusName db (Sale.saleStatusId old) in
  let newName := statusName db (Sale.saleStatusId new) in
  (entersCompleted oldName newName = true ->
   quantityCheck (fun r => inSale db (Sale.id new) (Inventory.productId r))
     (map (takeSold db (Sale.id new)) (inventory db)) = true)
  /\ (completedToCancelled oldName newName = true ->
      quantityCheck (fun r => inSale db (Sale.id new) (Inventory.productId r))
        (map (putBackSold db (Sale.id new)) (inventory db)) = true).
Proof.
  unfold update_inventory_after_sale, updateInventoryRows. cbv zeta.
  destruct (entersCompleted _ _) eqn:He.
  - rewrite (entersCompleted_not_cancelled _ _ He).
    destruct (quantityCheck _ _) eqn:Hc; [| discriminate].
    intros _. split; [reflexivity | discriminate].
  - destruct (completedToCancelled _ _).
    + destruct (quantityCheck _ _) eqn:Hc; [| discriminate].
      intros _. split; [discriminate | reflexivity].
    + intros _. split; discriminate.
Qed.

(** A successful [prisma.sale.update] ran the inventory trigger to its end,
    on a store with the stock, the items and the statuses the call found. *)
Lemma sale_update_trigger fault id req db db' new :
  sale_update fault id (StatusRequest.paymentStatusId req)
              (StatusRequest.saleStatusId req) db = (db', inr new) ->
  exists old mid,
    findSale db id = Some old
    /\ new = updatedSale old req
    /\ inventory mid = inventory db
    /\ saleItems mid = saleItems db
    /\ saleStatuses mid = saleStatuses db
    /\ update_inventory_after_sale old new mid = inr db'.
Proof.
  intros H. apply bind_inr in H as (u & db1 & Hr & H).
  apply reach_inr in Hr as [-> _].
  destruct (findSale db id) as [old |] eqn:Hfind; [| discriminate].
  cbv zeta in H. fold (updatedSale old req) in H.
  destruct (negb _); [discriminate |].
  rewrite update_customer_total_purchases_eq in H.
  destruct (update_inventory_after_sale _ _ _) as [e | db3] eqn:Hinv;
    [discriminate |].
  inversion H; subst db3 new; clear H.
  eexists. eexists. split; [reflexivity |]. split; [reflexivity |].
  split; [| split; [| split; [| exact Hinv]]]; reflexivity.
Qed.

Lemma quantityCheck_nonneg touched f rows :
  quantityCheck touched (map f rows) = true ->
  (forall r, touched (f r) = false -> f r = r) ->
  Forall (fun r => 0 <= Inventory.quantity r) rows ->
  Forall (fun r => 0 <= Inventory.quantity r) (map f rows).
Proof.
  intros Hc Hf Hnn. apply Forall_forall. intros r' Hin.
  pose proof (quantityCheck_true _ _ Hc r' Hin) as Hq.
  apply in_map_iff in Hin as (r & <- & Hin).
  rewrite Forall_forall in Hnn.
  destruct (touched (f r)) eqn:Ht.
  - apply Hq. reflexivity.
  - rewrite (Hf r Ht). apply Hnn. exact Hin.
Qed.

(** X1. A status update for an id no sale carries answers [404], and one
    that asks for a status id the lookup table does not hold answers [500];
    both leave the store as it was. *)
Theorem updateSaleStatus_unknown fault id req db :
  fault SaleUpdate = false ->
  (findSale db id = None ->
   updateSaleStatus fault id req db
   = (db, json 404 (ErrorBody "Sale not found")))
  /\ (forall old k,
         findSale db id = Some old ->
         StatusRequest.saleStatusId req = Some k ->
         findSaleStatus db k = None ->
         updateSaleStatus fault id req db = (db, internalServerError)).
Proof.
  intros Hf. split.
  - intros Hfind. unfold updateSaleStatus, sale_update, bind, reach.
    rewrite Hf, Hfind. reflexivity.
  - intros old k Hfind Hk Hnone.
    unfold updateSaleStatus, sale_update, bind, reach.
    rewrite Hf, Hfind, Hk. simpl. rewrite Hnone. reflexivity.
Qed.

Lemma updateSaleStatus_unknown_witness :
  nofault SaleUpdate = false
  /\ findSale (booked "st-pending") "s9" = None
  /\ updateSaleStatus nofault "s9" (statusTo "st-completed")
                      (booked "st-pending")
     = (booked "st-pending", json 404 (ErrorBody "Sale not found")).
Proof.
  split; [reflexivity |]. split; [reflexivity |].
  exact (proj1 (updateSaleStatus_unknown nofault "s9"
                  (statusTo "st-completed") (booked "st-pending") eq_refl)
               eq_refl).
Defined.

(** X2. When a status update brings a sale that was not completed to
    completed, every stock row loses the quantities of the items of the sale
    for its product and no row of a product of the sale ends below zero; the
    purchases of the customer of the sale grow by the total of the sale, and
    no customer's loyalty points change. *)
Theorem entering_completed_effects fault id req db db' r old :
  findSale db id = Some old ->
  isName (statusName db (Sale.saleStatusId old)) "completed" = false ->
  statusName db (StatusRequest.saleStatusId req) = Some "completed" ->
  updateSaleStatus fault id req db = (db', r) ->
  Response.status r = 200 ->
  (forall k row,
      nth_error (inventory db) k = Some row ->
      exists row',
        nth_error (inventory db') k = Some row'
        /\ Inventory.productId row' = Inventory.productId row
        /\ Inventory.location row' = Inventory.location row
        /\ Inventory.quantity row'
           = Inventory.quantity row
             - soldQuantity db id (Inventory.productId row)
        /\ (inSale db id (Inventory.productId row) = true ->
            0 <= Inventory.quantity row'))
  /\ (forall k c,
         nth_error (customers db) k = Some c ->
         exists c',
           nth_error (customers db') k = Some c'
           /\ Customer.id c' = Customer.id c
           /\ Customer.loyaltyPoints c' = Customer.loyaltyPoints c
           /\ Customer.totalPurchases c'
              = if isCustomerOf old c
                then (Customer.totalPurchases c + Sale.totalAmount old)%Q
                else Customer.totalPurchases c).
Proof.
  intros Hfind Hold Hreq H Hs.
  pose proof (statusName_requested db req old _ Hreq) as Hnew.
  assert (Hn : statusName db (Sale.saleStatusId (updatedSale old req))
               = Some "completed") by (rewrite Hnew; exact Hreq).
  destruct (updateSaleStatus_effects _ _ _ _ _ _ _ _ _
              Hfind eq_refl Hn H Hs) as (Hi & Hc & _).
  unfold entersCompleted in Hi, Hc. rewrite Hold in Hi, Hc.
  simpl in Hi, Hc.
  destruct (updateSaleStatus_ok _ _ _ _ _ _ H Hs) as [new Hu].
  apply sale_update_trigger in Hu
    as (old' & mid & Hfind' & -> & Hmi & Hms & Hmst & Htr).
  rewrite Hfind in Hfind'. inversion Hfind'; subst old'.
  apply update_inventory_after_sale_checked in Htr. cbv zeta in Htr.
  destruct Htr as [Hchk _].
  rewrite (statusName_same mid db _ Hmst) in Hchk.
  rewrite (statusName_same mid db _ Hmst), Hn in Hchk.
  unfold entersCompleted in Hchk. rewrite Hold in Hchk.
  specialize (Hchk eq_refl).
  change (Sale.id (updatedSale old req)) with (Sale.id old) in Hchk.
  rewrite (findSale_some_id _ _ _ Hfind), Hmi in Hchk.
  split.
  - intros k row Hk. exists (takeSold db id row). rewrite Hi.
    split; [apply map_nth_error; exact Hk |].
    split; [apply takeSold_productId |].
    split; [unfold takeSold;
            destruct (inSale db id (Inventory.productId row)); reflexivity |].
    split; [apply takeSold_quantity |].
    intros Hin.
    assert (Hin' : In (takeSold db id row)
                      (map (takeSold mid id) (inventory db))).
    { rewrite <- (takeSold_same mid db id row Hms). apply in_map.
      apply (nth_error_In _ _ Hk). }
    apply (quantityCheck_true _ _ Hchk _ Hin').
    rewrite takeSold_productId, (inSale_same mid db id _ Hms). exact Hin.
  - intros k c Hk. rewrite Hc. unfold purchasesAdded.
    eexists. split; [apply map_nth_error; exact Hk |].
    change (isCustomerOf (updatedSale old req) c) with (isCustomerOf old c).
    destruct (isCustomerOf old c); simpl; repeat split; reflexivity.
Qed.

Lemma entering_completed_effects_witness :
  findSale (booked "st-pending") "s1"
  = Some (Sale.mk "s1" (Some "c1") "u1" 590 40 10 None None
                  (Some "st-pending") None)
  /\ Response.status
       (snd (updateSaleStatus nofault "s1" (statusTo "st-completed")
                              (booked "st-pending"))) = 200
  /\ forall k c,
      nth_error (customers (booked "st-pending")) k = Some c ->
      exists c',
        nth_error
          (customers (fst (updateSaleStatus nofault "s1"
                                            (statusTo "st-completed")
                                            (booked "st-pending")))) k
        = Some c'
        /\ Customer.id c' = Customer.id c
        /\ Customer.loyaltyPoints c' = Customer.loyaltyPoints c
        /\ Customer.totalPurchases c'
           = if isCustomerOf
                  (Sale.mk "s1" (Some "c1") "u1" 590 40 10 None None
                           (Some "st-pending") None) c
             then (Customer.totalPurchases c + 590)%Q
             else Customer.totalPurchases c.
Proof.
  assert (Hfind : findSale (booked "st-pending") "s1"
                  = Some (Sale.mk "s1" (Some "c1") "u1" 590 40 10 None None
                                  (Some "st-pending") None))
    by reflexivity.
  assert (Hs : Response.status
                 (snd (updateSaleStatus nofault "s1" (statusTo "st-completed")
                                        (booked "st-pending"))) = 200)
    by (vm_compute; reflexivity).
  split; [exact Hfind |]. split; [exact Hs |].
  exact (proj2 (entering_completed_effects
                  nofault "s1" (statusTo "st-completed") (booked "st-pending")
                  _ _ _ Hfind eq_refl eq_refl (surjective_pairing _) Hs)).
Defined.

(** X3. A sale that is not completed cannot be brought to completed while a
    stock row of one of its products holds less than the sale's items ask
    of that product: the update answers [500] and the store, the status of
    the sale included, stays as it was. *)
Theorem completion_refused_on_short_stock fault id req db db' r old row :
  findSale db id = Some old ->
  isName (statusName db (Sale.saleStatusId old)) "completed" = false ->
  statusName db (StatusRequest.saleStatusId req) = Some "completed" ->
  In row (inventory db) ->
  inSale db id (Inventory.productId row) = true ->
  Inventory.quantity row < soldQuantity db id (Inventory.productId row) ->
  updateSaleStatus fault id req db = (db', r) ->
  r = internalServerError /\ db' = db.
Proof.
  intros Hfind Hold Hreq Hrow Hin Hlt H.
  pose proof (statusName_requested db req old _ Hreq) as Hnew.
  assert (Hn : statusName db (Sale.saleStatusId (updatedSale old req))
               = Some "completed") by (rewrite Hnew; exact Hreq).
  assert (Hs : Response.status r <> 200).
  { intros Hs.
    destruct (updateSaleStatus_ok _ _ _ _ _ _ H Hs) as [new Hu].
    apply sale_update_trigger in Hu
      as (old' & mid & Hfind' & -> & Hmi & Hms & Hmst & Htr).
    rewrite Hfind in Hfind'. inversion Hfind'; subst old'.
    apply update_inventory_after_sale_checked in Htr. cbv zeta in Htr.
    destruct Htr as [Hchk _].
    rewrite (statusName_same mid db _ Hmst) in Hchk.
    rewrite (statusName_same mid db _ Hmst), Hn in Hchk.
    unfold entersCompleted in Hchk. rewrite Hold in Hchk.
    specialize (Hchk eq_refl).
    change (Sale.id (updatedSale old req)) with (Sale.id old) in Hchk.
    rewrite (findSale_some_id _ _ _ Hfind), Hmi in Hchk.
    assert (Hin' : In (takeSold db id row)
                      (map (takeSold mid id) (inventory db))).
    { rewrite <- (takeSold_same mid db id row Hms). apply in_map. exact Hrow. }
    pose proof (quantityCheck_true _ _ Hchk _ Hin') as Hq. cbv beta in Hq.
    rewrite takeSold_productId, (inSale_same mid db id _ Hms) in Hq.
    specialize (Hq Hin). rewrite takeSold_quantity in Hq. lia. }
  split; [| apply (updateSaleStatus_failed _ _ _ _ _ _ H Hs)].
  destruct (updateSaleStatus_answers _ _ _ _ _ _ H) as [Hr | [[_ Hr] | Hr]].
  - contradiction.
  - rewrite Hfind in Hr. discriminate.
  - exact Hr.
Qed.

(** The sale [s1] asks 5 of [p1]; the one stock row of [p1] holds 2. *)
Lemma completion_refused_on_short_stock_witness :
  findSale (set_inventory (booked "st-pending")
                          [Inventory.mk "i1" "p1" 2 0 None "default" 42])
           "s1"
  = Some (Sale.mk "s1" (Some "c1") "u1" 590 40 10 None None
                  (Some "st-pending") None)
  /\ 2 < soldQuantity (set_inventory (booked "st-pending")
                         [Inventory.mk "i1" "p1" 2 0 None "default" 42])
                      "s1" "p1"
  /\ snd (updateSaleStatus nofault "s1" (statusTo "st-completed")
            (set_inventory (booked "st-pending")
                           [Inventory.mk "i1" "p1" 2 0 None "default" 42]))
     = internalServerError
  /\ fst (updateSaleStatus nofault "s1" (statusTo "st-completed")
            (set_inventory (booked "st-pending")
                           [Inventory.mk "i1" "p1" 2 0 None "default" 42]))
     = set_inventory (booked "st-pending")
                     [Inventory.mk "i1" "p1" 2 0 None "default" 42].
Proof.
  assert (Hfind : findSale
                    (set_inventory (booked "st-pending")
                       [Inventory.mk "i1" "p1" 2 0 None "default" 42]) "s1"
                  = Some (Sale.mk "s1" (Some "c1") "u1" 590 40 10 None None
                                  (Some "st-pending") None))
    by reflexivity.
  assert (Hlt : 2 < soldQuantity
                      (set_inventory (booked "st-pending")
                         [Inventory.mk "i1" "p1" 2 0 None "default" 42])
                      "s1" "p1")
    by (vm_compute; reflexivity).
  split; [exact Hfind |]. split; [exact Hlt |].
  exact (completion_refused_on_short_stock
           nofault "s1" (statusTo "st-completed") _ _ _ _
           (Inventory.mk "i1" "p1" 2 0 None "default" 42)
           Hfind eq_refl eq_refl (or_introl eq_refl) eq_refl Hlt
           (surjective_pairing _)).
Defined.

Lemma updateSaleStatus_row fault id req db db' r :
  updateSaleStatus fault id req db = (db', r) ->
  Response.status r = 200 ->
  exists old,
    findSale db id = Some old
    /\ findSale db' id = Some (updatedSale old req).
Proof.
  intros H Hs. destruct (updateSaleStatus_ok _ _ _ _ _ _ H Hs) as [new Hu].
  apply sale_update_inr in Hu as (old & Hfind & -> & Hdb).
  cbv zeta in Hdb. exists old. split; [exact Hfind |]. subst db'.
  unfold findSale at 1. cbn [sales].
  apply (findSale_updated db id old); [exact Hfind |].
  apply (findSale_some_id _ _ _ Hfind).
Qed.

(** X4. A status update that answers [200] writes the two status fields of
    the one sale and nothing else of the sales: the row keeps its id, its
    customer, its amounts and its notes, the other sales are as before, and
    the sale items, the catalog, the status table and the audit log are
    untouched. *)
Theorem updateSaleStatus_frame fault id req db db' r :
  updateSaleStatus fault id req db = (db', r) ->
  Response.status r = 200 ->
  exists old,
    findSale db id = Some old
    /\ findSale db' id = Some (updatedSale old req)
    /\ Sale.totalAmount (updatedSale old req) = Sale.totalAmount old
    /\ Sale.customerId (updatedSale old req) = Sale.customerId old
    /\ List.length (sales db') = List.length (sales db)
    /\ (forall k s,
           nth_error (sales db) k = Some s ->
           Sale.id s <> id ->
           nth_error (sales db') k = Some s)
    /\ saleItems db' = saleItems db
    /\ products db' = products db
    /\ saleStatuses db' = saleStatuses db
    /\ inventoryLogs db' = inventoryLogs db.
Proof.
  intros H Hs. destruct (updateSaleStatus_ok _ _ _ _ _ _ H Hs) as [new Hu].
  apply sale_update_inr in Hu as (old & Hfind & -> & Hdb).
  cbv zeta in Hdb. exists old. split; [exact Hfind |]. subst db'.
  split.
  { unfold findSale at 1. cbn [sales].
    apply (findSale_updated db id old); [exact Hfind |].
    apply (findSale_some_id _ _ _ Hfind). }
  split; [reflexivity |]. split; [reflexivity |].
  cbn [sales saleItems products saleStatuses inventoryLogs].
  split; [apply length_map |].
  split; [| repeat split; reflexivity].
  intros k s Hk Hne.
  rewrite (map_nth_error _ _ _ Hk).
  destruct (Sale.id s =? id) eqn:He; [| reflexivity].
  apply String.eqb_eq in He. contradiction.
Qed.

Lemma updateSaleStatus_frame_witness :
  Response.status
    (snd (updateSaleStatus nofault "s1" (statusTo "st-completed")
                           (booked "st-pending"))) = 200
  /\ exists old,
      findSale (booked "st-pending") "s1" = Some old
      /\ findSale (fst (updateSaleStatus nofault "s1"
                                         (statusTo "st-completed")
                                         (booked "st-pending"))) "s1"
         = Some (updatedSale old (statusTo "st-completed"))
      /\ Sale.totalAmount (updatedSale old (statusTo "st-completed"))
         = Sale.totalAmount old
      /\ Sale.customerId (updatedSale old (statusTo "st-completed"))
         = Sale.customerId old
      /\ List.length
           (sales (fst (updateSaleStatus nofault "s1"
                                         (statusTo "st-completed")
                                         (booked "st-pending"))))
         = List.length (sales (booked "st-pending"))
      /\ (forall k s,
             nth_error (sales (booked "st-pending")) k = Some s ->
             Sale.id s <> "s1" ->
             nth_error
               (sales (fst (updateSaleStatus nofault "s1"
                                             (statusTo "st-completed")
                                             (booked "st-pending")))) k
             = Some s)
      /\ saleItems (fst (updateSaleStatus nofault "s1"
                                          (statusTo "st-completed")
                                          (booked "st-pending")))
         = saleItems (booked "st-pending")
      /\ products (fst (updateSaleStatus nofault "s1"
                                         (statusTo "st-completed")
                                         (booked "st-pending")))
         = products (booked "st-pending")
      /\ saleStatuses (fst (updateSaleStatus nofault "s1"
                                             (statusTo "st-completed")
                                             (booked "st-pending")))
         = saleStatuses (booked "st-pending")
      /\ inventoryLogs (fst (updateSaleStatus nofault "s1"
                                              (statusTo "st-completed")
                                              (booked "st-pending")))
         = inventoryLogs (booked "st-pending").
Proof.
  assert (Hs : Response.status
                 (snd (updateSaleStatus nofault "s1" (statusTo "st-completed")
                                        (booked "st-pending"))) = 200)
    by (vm_compute; reflexivity).
  split; [exact Hs |].
  exact (updateSaleStatus_frame _ _ _ _ _ _ (surjective_pairing _) Hs).
Defined.

(** X5. A status update whose body carries no [saleStatusId] (a payment
    status alone, or nothing) leaves the sale status, the stock and the
    customers as they were, whatever the status of the sale and whatever
    the call answers. *)
Theorem payment_only_update_has_no_effect fault id req db db' r :
  StatusRequest.saleStatusId req = None ->
  updateSaleStatus fault id req db = (db', r) ->
  inventory db' = inventory db
  /\ customers db' = customers db
  /\ (forall old, findSale db id = Some old ->
                  exists kept, findSale db' id = Some kept
                               /\ Sale.saleStatusId kept
                                  = Sale.saleStatusId old).
Proof.
  intros Hnone H.
  destruct (Z.eq_dec (Response.status r) 200) as [Hs | Hs].
  - destruct (updateSaleStatus_row _ _ _ _ _ _ H Hs)
      as (old & Hfind & Hfind').
    assert (Hkeep : Sale.saleStatusId (updatedSale old req)
                    = Sale.saleStatusId old)
      by (simpl; rewrite Hnone; reflexivity).
    destruct (updateSaleStatus_effects _ _ _ _ _ _ _ _ _
                Hfind eq_refl eq_refl H Hs) as (Hi & Hc & _).
    rewrite Hkeep in Hi, Hc.
    assert (He : forall v, entersCompleted v v = false).
    { intros v. unfold entersCompleted.
      destruct (isName v "completed"); reflexivity. }
    assert (Hx : forall v, completedToCancelled v v = false).
    { intros [n |]; unfold completedToCancelled, isName; [| reflexivity].
      destruct (n =? "cancelled") eqn:E; [| reflexivity].
      apply String.eqb_eq in E. subst n. reflexivity. }
    rewrite He, Hx in Hi, Hc.
    split; [exact Hi |]. split; [exact Hc |].
    intros old' Hfind''. rewrite Hfind in Hfind''. inversion Hfind''; subst.
    exists (updatedSale old' req). split; assumption.
  - rewrite (updateSaleStatus_failed _ _ _ _ _ _ H Hs).
    split; [reflexivity |]. split; [reflexivity |].
    intros old Hfind. exists old. split; [exact Hfind | reflexivity].
Qed.

Lemma payment_only_update_has_no_effect_witness :
  StatusRequest.saleStatusId (StatusRequest.mk (Some "pay-paid") None) = None
  /\ inventory (fst (updateSaleStatus nofault "s1"
                       (StatusRequest.mk (Some "pay-paid") None)
                       (booked "st-pending")))
     = inventory (booked "st-pending")
  /\ customers (fst (updateSaleStatus nofault "s1"
                       (StatusRequest.mk (Some "pay-paid") None)
                       (booked "st-pending")))
     = customers (booked "st-pending").
Proof.
  split; [reflexivity |].
  pose proof (payment_only_update_has_no_effect
                nofault "s1" (StatusRequest.mk (Some "pay-paid") None)
                (booked "st-pending") _ _ eq_refl (surjective_pairing _))
    as (Hi & Hc & _).
  split; [exact Hi | exact Hc].
Defined.

(** ** Stock invariants of the status update *)

Lemma update_inventory_after_sale_nonneg old new db db' :
  update_inventory_after_sale old new db = inr db' ->
  stockNonNegative db -> stockNonNegative db'.
Proof.
  intros H Hnn.
  pose proof (update_inventory_after_sale_checked _ _ _ _ H) as Hchk.
  apply update_inventory_after_sale_inr in H. cbv zeta in H, Hchk.
  destruct Hchk as [Htake Hput]. subst db'. unfold stockNonNegative. simpl.
  destruct (entersCompleted _ _).
  - apply (quantityCheck_nonneg _ _ _ (Htake eq_refl)); [| exact Hnn].
    intros r Ht. rewrite takeSold_productId in Ht.
    unfold takeSold. rewrite Ht. reflexivity.
  - destruct (completedToCancelled _ _); [| exact Hnn].
    apply (quantityCheck_nonneg _ _ _ (Hput eq_refl)); [| exact Hnn].
    intros r Ht. rewrite putBackSold_productId in Ht.
    unfold putBackSold. rewrite Ht. reflexivity.
Qed.

(** X6. No status update takes a stock row below zero: when no row is below
    zero before the call, none is after it, whatever the transition and
    whatever the call answers. *)
Theorem updateSaleStatus_keeps_stock_nonnegative fault id req db db' r :
  stockNonNegative db ->
  updateSaleStatus fault id req db = (db', r) ->
  stockNonNegative db'.
Proof.
  intros Hnn H.
  destruct (Z.eq_dec (Response.status r) 200) as [Hs | Hs].
  - destruct (updateSaleStatus_ok _ _ _ _ _ _ H Hs) as [new Hu].
    apply sale_update_trigger in Hu
      as (old & mid & _ & _ & Hmi & _ & _ & Htr).
    apply (update_inventory_after_sale_nonneg _ _ _ _ Htr).
    unfold stockNonNegative. rewrite Hmi. exact Hnn.
  - rewrite (updateSaleStatus_failed _ _ _ _ _ _ H Hs). exact Hnn.
Qed.

Lemma updateSaleStatus_keeps_stock_nonnegative_witness :
  stockNonNegative (booked "st-pending")
  /\ stockNonNegative
       (fst (updateSaleStatus nofault "s1" (statusTo "st-completed")
                              (booked "st-pending"))).
Proof.
  assert (Hnn : stockNonNegative (booked "st-pending")).
  { unfold stockNonNegative. simpl. repeat constructor; simpl; lia. }
  split; [exact Hnn |].
  exact (updateSaleStatus_keeps_stock_nonnegative
           nofault "s1" (statusTo "st-completed") (booked "st-pending") _ _
           Hnn (surjective_pairing _)).
Defined.

(** ** Update product stock: what is left alone *)

Lemma adjustStock_tables fault id userId req db db' r :
  adjustStock fault id userId req db = (db', r) ->
  inventory db' = inventory db
  /\ customers db' = customers db
  /\ sales db' = sales db
  /\ saleItems db' = saleItems db
  /\ saleStatuses db' = saleStatuses db.
Proof.
  unfold adjustStock. intros H.
  destruct (invalidQuantity (StockRequest.quantity req));
    [inversion H; subst; repeat split; reflexivity |].
  destruct (StockRequest.quantity req) as [quantity |];
    [| inversion H; subst; repeat split; reflexivity].
  destruct (parseOperation (StockRequest.operation req)) as [op |];
    [| inversion H; subst; repeat split; reflexivity].
  unfold bind, product_findUnique, product_update, inventoryLog_create,
    bind, reach, ret in H.
  destruct (fault ProductFind);
    [inversion H; subst; repeat split; reflexivity |].
  cbv beta iota in H.
  destruct (findProduct db id) as [product |] eqn:Hfind;
    [| inversion H; subst; repeat split; reflexivity].
  cbv beta iota in H.
  destruct (fault ProductUpdate);
    [inversion H; subst; repeat split; reflexivity |].
  cbv beta iota in H. rewrite Hfind in H. cbv beta iota in H.
  destruct (fault InventoryLogCreate);
    inversion H; subst; repeat split; reflexivity.
Qed.

(** X7. The stock the inventory router adjusts is not the stock a sale
    takes from. [adjustStock] writes the [quantity] of a product and never
    a row of table [inventory]; [createSale] and a status update write rows
    of [inventory] and never the catalog. So no stock adjustment changes
    what a sale can take, and no sale changes what the inventory router
    reports. *)
Theorem stock_counters_are_disjoint :
  (forall fault id userId req db,
      inventory (fst (adjustStock fault id userId req db)) = inventory db)
  /\ (forall fault now saleId userId req db,
         products (fst (createSale fault now saleId userId req db))
         = products db)
  /\ (forall fault id req db,
         products (fst (updateSaleStatus fault id req db)) = products db).
Proof.
  split; [| split].
  - intros fault id userId req db.
    apply (adjustStock_tables _ _ _ _ _ _ _ (surjective_pairing _)).
  - intros fault now saleId userId req db.
    pose proof (surjective_pairing
                  (createSale fault now saleId userId req db)) as H.
    destruct (Z.eq_dec
                (Response.status
                   (snd (createSale fault now saleId userId req db))) 201)
      as [Hs | Hs].
    + destruct (createSale_created _ _ _ _ _ _ _ _ H Hs)
        as (subtotal & taxAmount & _ & _ & _ & ->).
      reflexivity.
    + destruct (createSale_failed _ _ _ _ _ _ _ _ H Hs) as [-> _].
      reflexivity.
  - intros fault id req db.
    pose proof (surjective_pairing (updateSaleStatus fault id req db)) as H.
    destruct (Z.eq_dec
                (Response.status (snd (updateSaleStatus fault id req db))) 200)
      as [Hs | Hs].
    + destruct (updateSaleStatus_ok _ _ _ _ _ _ H Hs) as [new Hu].
      apply sale_update_inr in Hu as (old & _ & _ & Hdb).
      cbv zeta in Hdb. rewrite Hdb. reflexivity.
    + rewrite (updateSaleStatus_failed _ _ _ _ _ _ H Hs). reflexivity.
Qed.

(** X8. An [adjustStock] call that answers [400] or [404] has written
    nothing. The amount is tested first, then the operation, then the
    product: a missing, zero or negative amount answers [400] whatever the
    rest, an unknown operation answers [400] whether or not the product
    exists, and an unknown product answers [404] only for a valid amount and
    operation. *)
Theorem adjustStock_rejections fault id userId req db db' r :
  adjustStock fault id userId req db = (db', r) ->
  (Response.status r = 400 \/ Response.status r = 404 -> db' = db)
  /\ (invalidQuantity (StockRequest.quantity req) = true ->
      r = json 400 (ErrorBody "Valid quantity is required"))
  /\ (invalidQuantity (StockRequest.quantity req) = false ->
      parseOperation (StockRequest.operation req) = None ->
      r = json 400
            (ErrorBody "Valid operation is required (add, subtract, set)"))
  /\ (Response.status r = 404 ->
      invalidQuantity (StockRequest.quantity req) = false
      /\ parseOperation (StockRequest.operation req) <> None
      /\ findProduct db id = None).
Proof.
  unfold adjustStock. intros H.
  destruct (invalidQuantity (StockRequest.quantity req)) eqn:Hq.
  { inversion H; subst.
    split; [reflexivity |]. split; [reflexivity |].
    split; [discriminate |]. simpl. discriminate. }
  destruct (StockRequest.quantity req) as [quantity |]; [| discriminate].
  destruct (parseOperation (StockRequest.operation req)) as [op |] eqn:Hop.
  2:{ inversion H; subst.
      split; [reflexivity |]. split; [discriminate |].
      split; [reflexivity |]. simpl. discriminate. }
  unfold bind, product_findUnique, product_update, inventoryLog_create,
    bind, reach, ret in H.
  destruct (fault ProductFind).
  { inversion H; subst. simpl.
    split; [intros [E | E]; discriminate |]. split; [discriminate |].
    split; discriminate. }
  cbv beta iota in H.
  destruct (findProduct db id) as [product |] eqn:Hfind.
  2:{ inversion H; subst. simpl.
      split; [reflexivity |]. split; [discriminate |].
      split; [discriminate |].
      intros _. split; [reflexivity |]. split; [discriminate | reflexivity]. }
  cbv beta iota in H.
  destruct (fault ProductUpdate).
  { inversion H; subst. simpl.
    split; [intros [E | E]; discriminate |]. split; [discriminate |].
    split; discriminate. }
  cbv beta iota in H. rewrite Hfind in H. cbv beta iota in H.
  destruct (fault InventoryLogCreate); inversion H; subst; simpl;
    (split; [intros [E | E]; discriminate |]; split; [discriminate |];
     split; discriminate).
Qed.

Lemma adjustStock_rejections_witness :
  invalidQuantity (Some 4) = false
  /\ parseOperation "remove" = None
  /\ snd (adjustStock nofault "p9" "u1"
                      (StockRequest.mk (Some 4) "remove" None) shop)
     = json 400
         (ErrorBody "Valid operation is required (add, subtract, set)").
Proof.
  split; [reflexivity |]. split; [reflexivity |].
  exact (proj1 (proj2 (proj2 (adjustStock_rejections
                                nofault "p9" "u1"
                                (StockRequest.mk (Some 4) "remove" None)
                                shop _ _ (surjective_pairing _))))
               eq_refl eq_refl).
Defined.

(** The catalog after [adjustStock]: as before, or with the new stock at the
    product, when the update was reached. *)
Lemma adjustStock_products fault id userId req db db' r :
  adjustStock fault id userId req db = (db', r) ->
  products db' = products db
  \/ exists q op p,
      StockRequest.quantity req = Some q
      /\ 0 < q
      /\ parseOperation (StockRequest.operation req) = Some op
      /\ findProduct db id = Some p
      /\ products db'
         = map (fun x =>
                  if Product.id x =? id
                  then withStock x (newQuantityOf op (Product.quantity p) q)
                  else x)
               (products db).
Proof.
  unfold adjustStock. intros H.
  destruct (invalidQuantity (StockRequest.quantity req)) eqn:Hq;
    [inversion H; subst; left; reflexivity |].
  destruct (StockRequest.quantity req) as [quantity |]; [| discriminate].
  destruct (parseOperation (StockRequest.operation req)) as [op |];
    [| inversion H; subst; left; reflexivity].
  simpl in Hq. apply orb_false_iff in Hq as [Hz Hn].
  apply Z.eqb_neq in Hz. apply Z.ltb_ge in Hn.
  unfold bind, product_findUnique, product_update, inventoryLog_create,
    bind, reach, ret in H.
  destruct (fault ProductFind); [inversion H; subst; left; reflexivity |].
  cbv beta iota in H.
  destruct (findProduct db id) as [product |] eqn:Hfind;
    [| inversion H; subst; left; reflexivity].
  cbv beta iota in H.
  destruct (fault ProductUpdate); [inversion H; subst; left; reflexivity |].
  cbv beta iota in H. rewrite Hfind in H. cbv beta iota in H.
  destruct (fault InventoryLogCreate); inversion H; subst; right;
    exists quantity, op, product; repeat split; auto; lia.
Qed.

(** X9. [adjustStock] never takes the stock of the catalog below zero,
    whatever it answers: when no product is below zero before the call,
    none is after it. It writes the one product of the path: every product with
    another id is as before. *)
Theorem adjustStock_keeps_catalog fault id userId req db db' r :
  adjustStock fault id userId req db = (db', r) ->
  (catalogNonNegative db -> catalogNonNegative db')
  /\ (forall k p,
         nth_error (products db) k = Some p ->
         Product.id p <> id ->
         nth_error (products db') k = Some p)
  /\ List.length (products db') = List.length (products db).
Proof.
  intros H.
  destruct (adjustStock_products _ _ _ _ _ _ _ H)
    as [Hsame | (q & op & p & _ & Hq & _ & Hfind & Hnew)].
  - unfold catalogNonNegative. rewrite Hsame. repeat split; auto.
  - unfold catalogNonNegative. rewrite Hnew. split; [| split].
    + intros Hnn p' Hin.
      apply in_map_iff in Hin as (x & <- & Hin).
      destruct (Product.id x =? id); [| apply Hnn; exact Hin].
      simpl. unfold findProduct in Hfind. apply find_some in Hfind as [Hp _].
      specialize (Hnn p Hp). destruct op; simpl; lia.
    + intros k x Hk Hne. rewrite (map_nth_error _ _ _ Hk).
      destruct (Product.id x =? id) eqn:He; [| reflexivity].
      apply String.eqb_eq in He. contradiction.
    + apply length_map.
Qed.

Lemma adjustStock_keeps_catalog_witness :
  catalogNonNegative shop
  /\ catalogNonNegative
       (fst (adjustStock nofault "p1" "u1"
                         (StockRequest.mk (Some 40) "subtract" None) shop))
  /\ findProduct
       (fst (adjustStock nofault "p1" "u1"
                         (StockRequest.mk (Some 40) "subtract" None) shop))
       "p1"
     = Some (Product.mk "p1" 100 8 0).
Proof.
  assert (Hnn : catalogNonNegative shop).
  { unfold catalogNonNegative. simpl.
    intros p [<- | [<- | []]]; simpl; lia. }
  split; [exact Hnn |]. split; [| vm_compute; reflexivity].
  exact (proj1 (adjustStock_keeps_catalog
                  nofault "p1" "u1"
                  (StockRequest.mk (Some 40) "subtract" None) shop _ _
                  (surjective_pairing _)) Hnn).
Defined.

(** X10. The audit log only grows, and every entry replays. No handler
    changes or removes an entry: [adjustStock] appends at most one, the
    sales handlers none. And when every entry before an [adjustStock] call
    carries a known operation, a positive amount and the new quantity that
    operation gives from the previous one, so does every entry after it. *)
Theorem audit_log_append_only :
  (forall fault id userId req db,
      exists added,
        inventoryLogs (fst (adjustStock fault id userId req db))
        = (inventoryLogs db ++ added)%list
        /\ (List.length added <= 1)%nat
        /\ (auditReplays db ->
            auditReplays (fst (adjustStock fault id userId req db))))
  /\ (forall fault now saleId userId req db,
         inventoryLogs (fst (createSale fault now saleId userId req db))
         = inventoryLogs db)
  /\ (forall fault id req db,
         inventoryLogs (fst (updateSaleStatus fault id req db))
         = inventoryLogs db).
Proof.
  split; [| split].
  - intros fault id userId req db.
    pose proof (surjective_pairing (adjustStock fault id userId req db)) as H.
    destruct (Z.eq_dec
                (Response.status (snd (adjustStock fault id userId req db)))
                200) as [Hs | Hs].
    + destruct (adjustStock_ok _ _ _ _ _ _ _ H Hs)
        as (q & op & p & Hq & Hpos & Hop & Hfind & _ & Hdb).
      rewrite Hdb. cbn [inventoryLogs]. eexists.
      split; [reflexivity |]. split; [simpl; lia |].
      unfold auditReplays. cbn [inventoryLogs]. intros Hall.
      apply Forall_app. split; [exact Hall |].
      constructor; [| constructor].
      exists op. simpl. repeat split; auto.
    + pose proof (adjustStock_failed_logs _ _ _ _ _ _ _ H Hs) as Hl.
      exists []. rewrite app_nil_r.
      split; [exact Hl |]. split; [simpl; lia |].
      unfold auditReplays. rewrite Hl. auto.
  - intros fault now saleId userId req db.
    pose proof (surjective_pairing
                  (createSale fault now saleId userId req db)) as H.
    destruct (Z.eq_dec
                (Response.status
                   (snd (createSale fault now saleId userId req db))) 201)
      as [Hs | Hs].
    + destruct (createSale_created _ _ _ _ _ _ _ _ H Hs)
        as (subtotal & taxAmount & _ & _ & _ & ->).
      reflexivity.
    + destruct (createSale_failed _ _ _ _ _ _ _ _ H Hs) as [-> _].
      reflexivity.
  - intros fault id req db.
    pose proof (surjective_pairing (updateSaleStatus fault id req db)) as H.
    destruct (Z.eq_dec
                (Response.status (snd (updateSaleStatus fault id req db))) 200)
      as [Hs | Hs].
    + destruct (updateSaleStatus_ok _ _ _ _ _ _ H Hs) as [new Hu].
      apply sale_update_inr in Hu as (old & _ & _ & Hdb).
      cbv zeta in Hdb. rewrite Hdb. reflexivity.
    + rewrite (updateSaleStatus_failed _ _ _ _ _ _ H Hs). reflexivity.
Qed.

(** ** Create sale: errors and edge cases *)

Lemma computeTotals_unknown fault db before item after :
  forall n subtotal taxAmount,
    (forall i, In i before -> findProduct db (Item.productId i) <> None) ->
    findProduct db (Item.productId item) = None ->
    (forall k, (k <= List.length before)%nat ->
               fault (ProductFindUnique (n + k)) = false) ->
    computeTotals fault (before ++ item :: after) n subtotal taxAmount db
    = (db, inr (inl (Item.productId item))).
Proof.
  induction before as [| b rest IH]; intros n subtotal taxAmount Hknown Hun Hf.
  - simpl. unfold bind, product_findUnique, bind, reach.
    specialize (Hf 0%nat (Nat.le_0_l _)). rewrite Nat.add_0_r in Hf.
    rewrite Hf, Hun. reflexivity.
  - simpl. unfold bind at 1. unfold product_findUnique, bind, reach.
    pose proof (Hf 0%nat (Nat.le_0_l _)) as Hf0. rewrite Nat.add_0_r in Hf0.
    rewrite Hf0.
    destruct (findProduct db (Item.productId b)) as [p |] eqn:Hb.
    + apply IH.
      * intros i Hi. apply Hknown. right. exact Hi.
      * exact Hun.
      * intros k Hk. replace (S n + k)%nat with (n + S k)%nat by lia.
        apply Hf. simpl. lia.
    + exfalso. apply (Hknown b); [left; reflexivity | exact Hb].
Qed.

(** X11. A cart that names an unknown product is refused before anything is
    written: when the catalog reads up to it succeed, [createSale] answers
    [400] with the id of the first unknown product of the cart, and the
    store is as it was. *)
Theorem createSale_unknown_product
        fault now saleId userId req db before item after :
  SaleRequest.items req = (before ++ item :: after)%list ->
  (forall i, In i before -> findProduct db (Item.productId i) <> None) ->
  findProduct db (Item.productId item) = None ->
  (forall k, (k <= List.length before)%nat ->
             fault (ProductFindUnique k) = false) ->
  createSale fault now saleId userId req db
  = (db, json 400 (ErrorBody ("Product " ++ Item.productId item
                              ++ " not found"))).
Proof.
  intros Hitems Hknown Hun Hf. unfold createSale. rewrite Hitems.
  rewrite (computeTotals_unknown fault db before item after 0 0%Q 0%Q
             Hknown Hun Hf).
  reflexivity.
Qed.

Lemma createSale_unknown_product_witness :
  findProduct shop "p1" <> None
  /\ findProduct shop "p7" = None
  /\ createSale nofault 42 "s1" "u1"
       (cartOf "st-completed" None
               [Item.mk "p1" 1 100 None None; Item.mk "p7" 1 5 None None;
                Item.mk "p8" 1 5 None None]) shop
     = (shop, json 400 (ErrorBody "Product p7 not found")).
Proof.
  assert (Hk : findProduct shop "p1" <> None) by (simpl; discriminate).
  split; [exact Hk |]. split; [reflexivity |].
  apply (createSale_unknown_product
           nofault 42 "s1" "u1"
           (cartOf "st-completed" None
                   [Item.mk "p1" 1 100 None None; Item.mk "p7" 1 5 None None;
                    Item.mk "p8" 1 5 None None]) shop
           [Item.mk "p1" 1 100 None None] (Item.mk "p7" 1 5 None None)
           [Item.mk "p8" 1 5 None None]).
  - reflexivity.
  - intros i [<- | []]. exact Hk.
  - reflexivity.
  - intros k _. reflexivity.
Defined.

Lemma fkHolds_some {A : Type} (lookup : Id -> option A) k :
  fkHolds lookup (Some k) = true -> exists a, lookup k = Some a.
Proof.
  simpl. destruct (lookup k) as [a |]; [eauto | discriminate].
Qed.

(** The insert a [201] of [createSale] has made. *)
Lemma createSale_sale_create fault now saleId userId req db db' r :
  createSale fault now saleId userId req db = (db', r) ->
  Response.status r = 201 ->
  exists taxAmount total db1 v,
    sale_create fault
                (headerOf saleId userId req taxAmount (discountOf req) total)
                (map (saleItemOf saleId) (SaleRequest.items req)) db
    = (db1, inr v).
Proof.
  unfold createSale. intros H Hs.
  pose proof (computeTotals_keeps fault (SaleRequest.items req) 0 0 0 db) as Hk.
  destruct (computeTotals fault (SaleRequest.items req) 0 0 0 db)
    as [db1 [e | [pid | [subtotal taxAmount]]]]; simpl in Hk; subst db1;
    try (inversion H; subst; discriminate).
  unfold transaction in H.
  destruct (createSaleTx _ _ _ _ _ _ _ _ _) as [db2 [e | [sale items]]] eqn:Htx;
    [inversion H; subst; discriminate |].
  unfold createSaleTx in Htx.
  apply bind_inr in Htx as (v0 & db1 & Hc & _).
  exists taxAmount. eexists. exists db1, v0. exact Hc.
Qed.

(** X12. An empty cart is accepted. With no line and no discount, and with
    every reference of the sale (the customer, the user, the payment
    method, the payment status, the sale status) absent or known to the
    store, [createSale] answers [201] and stores a sale of total 0 and tax
    0 with no item; the stock is as it was. *)
Theorem createSale_empty_cart fault now saleId userId req db db' r :
  SaleRequest.items req = [] ->
  SaleRequest.discountAmount req = None ->
  fkHolds (findCustomer db) (SaleRequest.customerId req) = true ->
  fkHolds (findSaleStatus db) (SaleRequest.saleStatusId req) = true ->
  fkHolds (findKey (users db)) (Some userId) = true ->
  fkHolds (findKey (paymentMethods db)) (SaleRequest.paymentMethodId req)
  = true ->
  fkHolds (findKey (paymentStatuses db)) (SaleRequest.paymentStatusId req)
  = true ->
  findSale db saleId = None ->
  fault SaleCreate = false ->
  fault CustomerUpdate = false ->
  createSale fault now saleId userId req db = (db', r) ->
  Response.status r = 201
  /\ inventory db' = inventory db
  /\ saleItems db' = saleItems db
  /\ exists sale,
      sales db' = (sales db ++ [sale])%list
      /\ Sale.id sale = saleId
      /\ (Sale.totalAmount sale == 0)%Q
      /\ (Sale.taxAmount sale == 0)%Q.
Proof.
  intros Hitems Hdisc Hfc Hfs Hfu Hfm Hfp Hfind Hsc Hcu H.
  unfold createSale in H. rewrite Hitems, Hdisc in H. simpl in H.
  unfold transaction, createSaleTx, bind at 1 in H.
  unfold sale_create, bind at 1, reach in H.
  rewrite Hsc in H. unfold saleKeysHold in H.
  cbn [Sale.id Sale.customerId Sale.saleStatusId Sale.userId
       Sale.paymentMethodId Sale.paymentStatusId] in H.
  rewrite Hfind, Hfc, Hfs, Hfu, Hfm, Hfp in H.
  rewrite Hitems in H. simpl in H.
  unfold bind at 1, ret at 1 in H.
  destruct (truthyId (SaleRequest.customerId req)) as [c |] eqn:Hc.
  - assert (Hex : exists cust, findCustomer db c = Some cust).
    { unfold truthyId in Hc.
      destruct (SaleRequest.customerId req) as [c0 |]; [| discriminate].
      destruct (c0 =? ""); [discriminate |]. inversion Hc; subst.
      apply (fkHolds_some _ _ Hfc). }
    destruct Hex as [cust Hcust].
    unfold bind, customer_update, bind, reach, ret in H.
    rewrite Hcu in H. cbv beta iota in H.
    change (findCustomer (set_saleItems _ _) c) with (findCustomer db c) in H.
    rewrite Hcust in H. inversion H; subst. simpl.
    split; [reflexivity |]. split; [reflexivity |].
    split; [apply app_nil_r |].
    eexists. split; [reflexivity |]. split; [reflexivity |].
    split; reflexivity.
  - unfold ret in H. inversion H; subst. simpl.
    split; [reflexivity |]. split; [reflexivity |].
    split; [apply app_nil_r |].
    eexists. split; [reflexivity |]. split; [reflexivity |].
    split; reflexivity.
Qed.

Lemma createSale_empty_cart_witness :
  fkHolds (findCustomer counter) (Some "c1") = true
  /\ fkHolds (findSaleStatus counter) (Some "st-completed") = true
  /\ fkHolds (findKey (users counter)) (Some "u1") = true
  /\ findSale counter "s1" = None
  /\ Response.status
       (snd (createSale nofault 42 "s1" "u1"
                        (SaleRequest.mk (Some "c1") [] (Some "pm-cash")
                           (Some "pay-paid") (Some "st-completed") None None)
                        counter)) = 201
  /\ inventory (fst (createSale nofault 42 "s1" "u1"
                       (SaleRequest.mk (Some "c1") [] (Some "pm-cash")
                          (Some "pay-paid") (Some "st-completed") None None)
                       counter))
     = inventory counter.
Proof.
  split; [reflexivity |]. split; [reflexivity |]. split; [reflexivity |].
  split; [reflexivity |].
  pose proof (createSale_empty_cart
                nofault 42 "s1" "u1"
                (SaleRequest.mk (Some "c1") [] (Some "pm-cash")
                   (Some "pay-paid") (Some "st-completed") None None)
                counter
                _ _ eq_refl eq_refl eq_refl eq_refl eq_refl eq_refl eq_refl
                eq_refl eq_refl eq_refl
                (surjective_pairing _)) as (Hs & Hi & _).
  split; [exact Hs | exact Hi].
Defined.

(** ** Create sale: what the prices of the request decide *)

Lemma computeTotals_sameLines fault a b :
  Forall2 sameLine a b ->
  forall n subtotal taxAmount db,
    computeTotals fault a n subtotal taxAmount db
    = computeTotals fault b n subtotal taxAmount db.
Proof.
  induction 1 as [| x y a b [Hp Hq] _ IH]; intros n subtotal taxAmount db.
  - reflexivity.
  - simpl. rewrite Hp, Hq. unfold bind.
    destruct (product_findUnique fault (ProductFindUnique n)
                (Item.productId y) db) as [db1 [e | [p |]]];
      [reflexivity | apply IH | reflexivity].
Qed.

Lemma bind_unfold {A B : Type} (m : M A) (k : A -> M B) db :
  bind m k db
  = match m db with
    | (db', inr a) => k a db'
    | (db', inl e) => (db', inl e)
    end.
Proof. reflexivity. Qed.

Lemma soldRows_sameLines now a b :
  Forall2 sameLine a b ->
  forall rows, soldRows now a rows = soldRows now b rows.
Proof.
  unfold soldRows.
  induction 1 as [| x y a b [Hp Hq] _ IH]; intros rows; [reflexivity |].
  simpl. rewrite Hp, Hq. apply IH.
Qed.

(** The checks the items of a [201] have passed. *)
Lemma createSale_created_items fault now saleId userId req db db' r :
  createSale fault now saleId userId req db = (db', r) ->
  Response.status r = 201 ->
  forall item,
    In item (SaleRequest.items req) ->
    (0 < Item.quantity item)%Z
    /\ (0 <= Item.unitPrice item)%Q
    /\ (0 <= Item.unitPrice item * inject_Z (Item.quantity item)
              - orZero (Item.discount item))%Q.
Proof.
  intros H Hs item Hin.
  destruct (createSale_sale_create _ _ _ _ _ _ _ _ H Hs)
    as (taxAmount & total & db1 & v & Hc).
  apply sale_create_checked in Hc as (_ & _ & Hitems).
  pose proof (proj1 (forallb_forall _ _) Hitems (saleItemOf saleId item)
                    (in_map _ _ _ Hin)) as Hi.
  unfold itemCheck in Hi.
  cbn [saleItemOf SaleItem.quantity SaleItem.unitPrice SaleItem.totalPrice]
    in Hi.
  apply andb_true_iff in Hi as [Hi Ht].
  apply andb_true_iff in Hi as [Hq Hu].
  apply Z.ltb_lt in Hq. apply Qle_bool_iff in Hu. apply Qle_bool_iff in Ht.
  repeat split; assumption.
Qed.

(** X13. The unit price, the discount and the tax rate a request gives for
    its lines decide what the stored sale items carry and whether the
    store takes them, and nothing else. Two carts that ask the same
    quantities of the same products, with the same customer, statuses and
    discount amount, and that are both accepted ([201]), are answered the
    same sale header (total, tax, discount) and leave the same stock and
    the same customer aggregates: the amount charged comes from the
    catalog alone. A line whose discount exceeds its unit price times its
    quantity by a cent or more is refused by the store
    ([CHECK (total_price >= 0)]): the call answers [500] ([400] when the
    cart names an unknown product) and nothing is stored. *)
Theorem request_prices_decide_items_only :
  (forall fault now saleId userId req items2 db db1 r1 db2 r2,
      Forall2 sameLine (SaleRequest.items req) items2 ->
      createSale fault now saleId userId req db = (db1, r1) ->
      createSale fault now saleId userId (withItems req items2) db
      = (db2, r2) ->
      Response.status r1 = 201 ->
      Response.status r2 = 201 ->
      sameButItems db1 db2
      /\ exists sale stored1 stored2,
          Response.body r1
          = SaleBody "Sale created successfully" sale stored1
          /\ Response.body r2
             = SaleBody "Sale created successfully" sale stored2)
  /\ (forall fault now saleId userId req db db' r item,
         createSale fault now saleId userId req db = (db', r) ->
         In item (SaleRequest.items req) ->
         (Item.unitPrice item * inject_Z (Item.quantity item)
          - orZero (Item.discount item) <= - (1 # 100))%Q ->
         db' = db /\ (Response.status r = 400 \/ Response.status r = 500)).
Proof.
  split.
  - intros fault now saleId userId req items2 db db1 r1 db2 r2 Hsame H1 H2
           Hs1 Hs2.
    destruct (createSale_created _ _ _ _ _ _ _ _ H1 Hs1)
      as (subtotal & taxAmount & Ht1 & -> & _ & ->).
    destruct (createSale_created _ _ _ _ _ _ _ _ H2 Hs2)
      as (subtotal2 & taxAmount2 & Ht2 & -> & _ & ->).
    cbn [SaleRequest.items withItems] in Ht2.
    rewrite <- (computeTotals_sameLines fault _ _ Hsame 0%nat 0%Q 0%Q db)
      in Ht2.
    rewrite Ht1 in Ht2. inversion Ht2; subst subtotal2 taxAmount2.
    cbn [SaleRequest.items SaleRequest.customerId withItems].
    change (discountOf (withItems req items2)) with (discountOf req).
    change (headerOf saleId userId (withItems req items2) taxAmount
                     (discountOf req)
                     (totalAmount subtotal taxAmount (discountOf req)))
      with (headerOf saleId userId req taxAmount (discountOf req)
                     (totalAmount subtotal taxAmount (discountOf req))).
    split.
    + unfold sameButItems.
      cbn [products inventory customers saleStatuses sales inventoryLogs].
      rewrite (soldRows_sameLines now _ _ Hsame).
      repeat split; reflexivity.
    + eexists. eexists. eexists. split; reflexivity.
  - intros fault now saleId userId req db db' r item H Hin Hneg.
    apply (createSale_failed _ _ _ _ _ _ _ _ H). intros Hs.
    destruct (createSale_created_items _ _ _ _ _ _ _ _ H Hs item Hin)
      as (_ & _ & Hle).
    lra.
Qed.

(** The second cart gives [p1] away at 1 with a discount of 1: the header
    and the stock are those of the first. A discount of 150 on one [p1] at
    100 is refused. *)
Lemma request_prices_decide_items_only_witness :
  (Forall2 sameLine twoLines
           [Item.mk "p1" 5 1 (Some 1%Q) None; Item.mk "p2" 3 0 None None]
   /\ sameButItems
        (fst (createSale nofault 42 "s1" "u1"
                         (cartOf "st-completed" None twoLines) counter))
        (fst (createSale nofault 42 "s1" "u1"
                (withItems (cartOf "st-completed" None twoLines)
                   [Item.mk "p1" 5 1 (Some 1%Q) None;
                    Item.mk "p2" 3 0 None None])
                counter)))
  /\ fst (createSale nofault 42 "s1" "u1"
            (cartOf "st-completed" None
                    [Item.mk "p1" 1 100 (Some 150%Q) None]) counter)
     = counter.
Proof.
  assert (Hsame : Forall2 sameLine twoLines
                    [Item.mk "p1" 5 1 (Some 1%Q) None;
                     Item.mk "p2" 3 0 None None])
    by (repeat constructor).
  split; [split; [exact Hsame |] |].
  - exact (proj1 (proj1 request_prices_decide_items_only
                        nofault 42 "s1" "u1"
                        (cartOf "st-completed" None twoLines) _ counter
                        _ _ _ _ Hsame (surjective_pairing _)
                        (surjective_pairing _)
                        ltac:(vm_compute; reflexivity)
                        ltac:(vm_compute; reflexivity))).
  - exact (proj1 (proj2 request_prices_decide_items_only
                        nofault 42 "s1" "u1"
                        (cartOf "st-completed" None
                                [Item.mk "p1" 1 100 (Some 150%Q) None])
                        counter _ _ (Item.mk "p1" 1 100 (Some 150%Q) None)
                        (surjective_pairing _) (or_introl eq_refl)
                        ltac:(vm_compute; discriminate))).
Defined.

(** ** Create sale: the customer and the references *)

Lemma createSale_created_checks fault now saleId userId req db db' r :
  createSale fault now saleId userId req db = (db', r) ->
  Response.status r = 201 ->
  findSale db saleId = None
  /\ fkHolds (findCustomer db) (SaleRequest.customerId req) = true
  /\ fkHolds (findSaleStatus db) (SaleRequest.saleStatusId req) = true.
Proof.
  intros H Hs.
  destruct (createSale_sale_create _ _ _ _ _ _ _ _ H Hs)
    as (taxAmount & total & db1 & v & Hc).
  pose proof (sale_create_inr _ _ _ _ _ _ Hc) as (_ & _ & Hfind & _).
  apply sale_create_checked in Hc as (Hkeys & _ & _).
  unfold saleKeysHold in Hkeys.
  cbn [headerOf Sale.customerId Sale.saleStatusId] in Hkeys.
  repeat (apply andb_true_iff in Hkeys as [Hkeys ?]).
  repeat split; assumption.
Qed.

(** X14. A sale credits its customer and no one else. After a [201] for a
    customer, that customer's purchases have grown by the total of the
    sale, to the cent, and the loyalty points by a whole number [points]
    of tens of that total, [10 * points <= total <= 10 * points + 10];
    every other customer is as before. *)
Theorem createSale_credits_customer
        fault now saleId userId req db db' r c :
  createSale fault now saleId userId req db = (db', r) ->
  Response.status r = 201 ->
  truthyId (SaleRequest.customerId req) = Some c ->
  exists sale points,
    sales db' = (sales db ++ [sale])%list
    /\ (inject_Z points * 10 <= Sale.totalAmount sale)%Q
    /\ (Sale.totalAmount sale <= inject_Z points * 10 + 10)%Q
    /\ forall k cust,
        nth_error (customers db) k = Some cust ->
        exists cust',
          nth_error (customers db') k = Some cust'
          /\ Customer.id cust' = Customer.id cust
          /\ if Customer.id cust =? c
             then Customer.loyaltyPoints cust'
                  = Customer.loyaltyPoints cust + points
                  /\ (Customer.totalPurchases cust + Sale.totalAmount sale
                      - (1 # 100)
                      <= Customer.totalPurchases cust')%Q
                  /\ (Customer.totalPurchases cust'
                      <= Customer.totalPurchases cust + Sale.totalAmount sale
                         + (1 # 100))%Q
             else cust' = cust.
Proof.
  intros H Hs Hc.
  destruct (createSale_created _ _ _ _ _ _ _ _ H Hs)
    as (subtotal & taxAmount & _ & _ & Hle & ->).
  set (total := totalAmount subtotal taxAmount (discountOf req)) in *.
  eexists. exists (Qfloor (total / 10)). cbn [sales customers].
  split; [reflexivity |].
  change (Sale.totalAmount
            (headerOf saleId userId req taxAmount (discountOf req) total))
    with total.
  pose proof (Qfloor_le (total / 10)) as Hfl.
  pose proof (Qlt_floor (total / 10)) as Hlt.
  assert (Heq : (total == total / 10 * 10)%Q) by field.
  split; [lra |].
  split.
  { rewrite inject_Z_plus in Hlt. change (inject_Z 1) with 1%Q in Hlt. lra. }
  intros k cust Hk. unfold creditedCustomers. rewrite Hc.
  eexists. split; [apply map_nth_error; exact Hk |].
  unfold incrementCustomer.
  destruct (Customer.id cust =? c); simpl; [| split; reflexivity].
  split; [reflexivity |]. split; [reflexivity |].
  split; lra.
Qed.

Lemma createSale_credits_customer_witness :
  Response.status
    (snd (createSale nofault 42 "s1" "u1"
                     (cartOf "st-completed" None twoLines) counter)) = 201
  /\ truthyId (SaleRequest.customerId (cartOf "st-completed" None twoLines))
     = Some "c1"
  /\ exists sale points,
      sales (fst (createSale nofault 42 "s1" "u1"
                             (cartOf "st-completed" None twoLines) counter))
      = (sales counter ++ [sale])%list
      /\ (inject_Z points * 10 <= Sale.totalAmount sale)%Q
      /\ (Sale.totalAmount sale <= inject_Z points * 10 + 10)%Q
      /\ forall k cust,
          nth_error (customers counter) k = Some cust ->
          exists cust',
            nth_error
              (customers (fst (createSale nofault 42 "s1" "u1"
                                          (cartOf "st-completed" None twoLines)
                                          counter))) k
            = Some cust'
            /\ Customer.id cust' = Customer.id cust
            /\ if Customer.id cust =? "c1"
               then Customer.loyaltyPoints cust'
                    = Customer.loyaltyPoints cust + points
                    /\ (Customer.totalPurchases cust + Sale.totalAmount sale
                        - (1 # 100)
                        <= Customer.totalPurchases cust')%Q
                    /\ (Customer.totalPurchases cust'
                        <= Customer.totalPurchases cust
                           + Sale.totalAmount sale + (1 # 100))%Q
               else cust' = cust.
Proof.
  assert (Hs : Response.status
                 (snd (createSale nofault 42 "s1" "u1"
                                  (cartOf "st-completed" None twoLines)
                                  counter)) = 201)
    by (vm_compute; reflexivity).
  split; [exact Hs |]. split; [reflexivity |].
  exact (createSale_credits_customer _ _ _ _ _ _ _ _ "c1"
           (surjective_pairing _) Hs eq_refl).
Defined.

(** X15. A sale for a customer or a sale status the store does not hold is
    refused and nothing is written; the answer is the [500] of any failure
    ([400] when the cart also names an unknown product), not a [404]. *)
Theorem createSale_unknown_reference fault now saleId userId req db db' r :
  createSale fault now saleId userId req db = (db', r) ->
  fkHolds (findCustomer db) (SaleRequest.customerId req) = false
  \/ fkHolds (findSaleStatus db) (SaleRequest.saleStatusId req) = false ->
  db' = db /\ (Response.status r = 400 \/ Response.status r = 500).
Proof.
  intros H Hfk. apply (createSale_failed _ _ _ _ _ _ _ _ H).
  intros Hs.
  destruct (createSale_created_checks _ _ _ _ _ _ _ _ H Hs) as (_ & Hc & Hst).
  destruct Hfk as [Hfk | Hfk]; congruence.
Qed.

Lemma createSale_unknown_reference_witness :
  fkHolds (findCustomer counter) (Some "c9") = false
  /\ fst (createSale nofault 42 "s1" "u1"
            (SaleRequest.mk (Some "c9") twoLines None None
                            (Some "st-completed") None None) counter)
     = counter
  /\ (Response.status
        (snd (createSale nofault 42 "s1" "u1"
                (SaleRequest.mk (Some "c9") twoLines None None
                                (Some "st-completed") None None) counter))
      = 400
      \/ Response.status
           (snd (createSale nofault 42 "s1" "u1"
                   (SaleRequest.mk (Some "c9") twoLines None None
                                   (Some "st-completed") None None) counter))
         = 500).
Proof.
  split; [reflexivity |].
  exact (createSale_unknown_reference
           nofault 42 "s1" "u1"
           (SaleRequest.mk (Some "c9") twoLines None None
                           (Some "st-completed") None None)
           counter _ _ (surjective_pairing _) (or_introl eq_refl)).
Defined.

(** ** Reading a sale back *)

Lemma find_app_none {A : Type} (f : A -> bool) l1 l2 :
  find f l1 = None -> find f (l1 ++ l2) = find f l2.
Proof.
  induction l1 as [| x l1 IH]; simpl; [reflexivity |].
  destruct (f x); [discriminate | exact IH].
Qed.

Lemma find_app_some {A : Type} (f : A -> bool) l1 l2 a :
  find f l1 = Some a -> find f (l1 ++ l2) = Some a.
Proof.
  induction l1 as [| x l1 IH]; simpl; [discriminate |].
  destruct (f x); [auto | exact IH].
Qed.

Lemma filter_none {A : Type} (f : A -> bool) l :
  (forall x, In x l -> f x = false) -> filter f l = [].
Proof.
  induction l as [| x l IH]; simpl; intros H; [reflexivity |].
  rewrite (H x (or_introl eq_refl)). apply IH.
  intros y Hy. apply H. right. exact Hy.
Qed.

Lemma filter_all {A : Type} (f : A -> bool) l :
  (forall x, In x l -> f x = true) -> filter f l = l.
Proof.
  induction l as [| x l IH]; simpl; intros H; [reflexivity |].
  rewrite (H x (or_introl eq_refl)). f_equal. apply IH.
  intros y Hy. apply H. right. exact Hy.
Qed.

(** When the first loop of [createSale] ends, the catalog holds the product
    of every line. *)
Lemma computeTotals_known fault items :
  forall n subtotal taxAmount db db' totals,
    computeTotals fault items n subtotal taxAmount db
    = (db', inr (inr totals)) ->
    forall i, In i items -> findProduct db (Item.productId i) <> None.
Proof.
  induction items as [| item rest IH];
    intros n subtotal taxAmount db db' totals H i Hi.
  - destruct Hi.
  - simpl in H. apply bind_inr in H as (found & db1 & Hf & H).
    apply product_findUnique_inr in Hf as [-> ->].
    destruct (findProduct db (Item.productId item)) as [p |] eqn:Hp.
    + destruct Hi as [<- | Hi]; [rewrite Hp; discriminate |].
      apply (IH _ _ _ _ _ _ H i Hi).
    + inversion H.
Qed.

(** X16. A sale that was created reads back as it was answered. After a
    [201], in a store whose sale items all belonged to stored sales,
    [getSale] on the new id answers [200] with the header of the [201], the
    items of the [201] in the order of the cart, and each item with its
    product. *)
Theorem getSale_after_createSale
        fault readFault now saleId userId req db db' r :
  createSale fault now saleId userId req db = (db', r) ->
  Response.status r = 201 ->
  itemsHaveSales db ->
  readFault SaleFindUnique = false ->
  exists view,
    getSale readFault saleId db' = (db', Done 200 view)
    /\ Response.body r
       = SaleBody "Sale created successfully" (SaleView.sale view)
                  (map fst (SaleView.saleItems view))
    /\ map fst (SaleView.saleItems view)
       = map (saleItemOf saleId) (SaleRequest.items req)
    /\ Forall (fun ip => snd ip <> None) (SaleView.saleItems view).
Proof.
  intros H Hs Hitems Hrf.
  destruct (createSale_created_checks _ _ _ _ _ _ _ _ H Hs) as (Hfresh & _).
  destruct (createSale_created _ _ _ _ _ _ _ _ H Hs)
    as (subtotal & taxAmount & Htot & -> & _ & ->).
  set (sale := headerOf saleId userId req taxAmount (discountOf req)
                        (totalAmount subtotal taxAmount (discountOf req))).
  set (stored := map (saleItemOf saleId) (SaleRequest.items req)).
  set (db' := mkDb _ _ _ _ _ _ _ _ _ _).
  assert (Hfind : findSale db' saleId = Some sale).
  { unfold findSale, db'. cbn [sales].
    unfold findSale in Hfresh. rewrite (find_app_none _ _ _ Hfresh).
    simpl. rewrite String.eqb_refl. reflexivity. }
  assert (Hof : itemsOfSale db' saleId = stored).
  { unfold itemsOfSale, db'. cbn [saleItems]. rewrite filter_app.
    rewrite filter_none.
    - simpl. apply filter_all. intros x Hx. unfold stored in Hx.
      apply in_map_iff in Hx as (i & <- & _). simpl. apply String.eqb_refl.
    - intros x Hx. destruct (SaleItem.saleId x =? saleId) eqn:He;
        [| reflexivity].
      apply String.eqb_eq in He. specialize (Hitems x Hx).
      rewrite He in Hitems. contradiction. }
  exists (hydrate db' sale).
  split.
  { unfold getSale, sale_findUnique, bind, attempt. rewrite Hrf.
    cbv beta iota. rewrite Hfind. reflexivity. }
  unfold hydrate. cbn [SaleView.sale SaleView.saleItems].
  change (Sale.id sale) with saleId. rewrite Hof, map_map. cbn [fst].
  rewrite map_id.
  split; [reflexivity |]. split; [reflexivity |].
  apply Forall_forall. intros ip Hip.
  apply in_map_iff in Hip as (si & <- & Hsi). cbn [snd].
  unfold stored in Hsi. apply in_map_iff in Hsi as (i & <- & Hi).
  cbn [SaleItem.productId saleItemOf].
  change (findProduct db' (Item.productId i))
    with (findProduct db (Item.productId i)).
  apply (computeTotals_known _ _ _ _ _ _ _ _ Htot i Hi).
Qed.

Lemma getSale_after_createSale_witness :
  Response.status
    (snd (createSale nofault 42 "s1" "u1"
                     (cartOf "st-completed" None twoLines) counter)) = 201
  /\ itemsHaveSales counter
  /\ exists view,
      getSale (fun _ => false) "s1"
              (fst (createSale nofault 42 "s1" "u1"
                               (cartOf "st-completed" None twoLines) counter))
      = (fst (createSale nofault 42 "s1" "u1"
                         (cartOf "st-completed" None twoLines) counter),
         Done 200 view)
      /\ Response.body
           (snd (createSale nofault 42 "s1" "u1"
                            (cartOf "st-completed" None twoLines) counter))
         = SaleBody "Sale created successfully" (SaleView.sale view)
                    (map fst (SaleView.saleItems view))
      /\ map fst (SaleView.saleItems view) = map (saleItemOf "s1") twoLines
      /\ Forall (fun ip => snd ip <> None) (SaleView.saleItems view).
Proof.
  assert (Hs : Response.status
                 (snd (createSale nofault 42 "s1" "u1"
                                  (cartOf "st-completed" None twoLines)
                                  counter)) = 201)
    by (vm_compute; reflexivity).
  assert (Hi : itemsHaveSales counter) by (intros i []).
  split; [exact Hs |]. split; [exact Hi |].
  exact (getSale_after_createSale
           nofault (fun _ => false) 42 "s1" "u1"
           (cartOf "st-completed" None twoLines) counter _ _
           (surjective_pairing _) Hs Hi eq_refl).
Defined.

(** ** Delete customer *)

Lemma find_filter_other (id k : Id) (rows : list Customer.t) :
  k <> id ->
  find (fun c => Customer.id c =? k)
       (filter (fun x => negb (Customer.id x =? id)) rows)
  = find (fun c => Customer.id c =? k) rows.
Proof.
  intros Hne. induction rows as [| c rows IH]; simpl; [reflexivity |].
  destruct (Customer.id c =? id) eqn:Hid; simpl.
  - apply String.eqb_eq in Hid.
    destruct (Customer.id c =? k) eqn:Hk; [| exact IH].
    apply String.eqb_eq in Hk. congruence.
  - destruct (Customer.id c =? k); [reflexivity | exact IH].
Qed.

Lemma find_filter_same (id : Id) (rows : list Customer.t) :
  find (fun c => Customer.id c =? id)
       (filter (fun x => negb (Customer.id x =? id)) rows)
  = None.
Proof.
  induction rows as [| c rows IH]; simpl; [reflexivity |].
  destruct (Customer.id c =? id) eqn:Hid; simpl; [exact IH |].
  rewrite Hid. exact IH.
Qed.

(** X17. Deleting a customer: an unknown id answers [404]; a customer that
    a sale refers to cannot be deleted, the call answers [500]; in both
    cases, and at a backend fault, the store is as it was. Otherwise the
    call answers [200], the customer is gone, every other customer can be
    found as before, and no other table is written. *)
Theorem deleteCustomer_outcomes fault id db db' a :
  deleteCustomer fault id db = (db', a) ->
  (statusOf a <> 200 -> db' = db)
  /\ (fault CustomerDelete = false ->
      findCustomer db id = None ->
      a = Fail 404 "Customer not found")
  /\ (fault CustomerDelete = false ->
      findCustomer db id <> None ->
      existsb (refersTo id) (sales db) = true ->
      a = Fail 500 "Internal server error")
  /\ (fault CustomerDelete = false ->
      findCustomer db id <> None ->
      existsb (refersTo id) (sales db) = false ->
      a = Done 200 "Customer deleted successfully"
      /\ findCustomer db' id = None
      /\ (forall k, k <> id -> findCustomer db' k = findCustomer db k)
      /\ db' = set_customers db (customers db')).
Proof.
  unfold deleteCustomer, customer_delete, bind, attempt. intros H.
  destruct (fault CustomerDelete).
  { inversion H; subst. simpl.
    split; [reflexivity |]. repeat split; discriminate. }
  cbv beta iota in H.
  destruct (findCustomer db id) as [c |] eqn:Hfind.
  2:{ inversion H; subst. simpl.
      split; [reflexivity |]. split; [reflexivity |].
      split; intros _ Hc; contradiction. }
  destruct (existsb (refersTo id) (sales db)) eqn:Href.
  { inversion H; subst. simpl.
    split; [reflexivity |]. split; [discriminate |].
    split; [reflexivity |]. discriminate. }
  inversion H; subst. simpl.
  split; [intros Hc; contradiction |]. split; [discriminate |].
  split; [discriminate |].
  intros _ _ _. split; [reflexivity |].
  split; [apply find_filter_same |].
  split; [intros k Hk; apply (find_filter_other id k _ Hk) | reflexivity].
Qed.

(** The customer [c1] of [booked] has a sale; [counter] has none. *)
Lemma deleteCustomer_outcomes_witness :
  findCustomer (booked "st-cancelled") "c1" <> None
  /\ existsb (refersTo "c1") (sales (booked "st-cancelled")) = true
  /\ snd (deleteCustomer (fun _ => false) "c1" (booked "st-cancelled"))
     = Fail 500 "Internal server error"
  /\ findCustomer counter "c1" <> None
  /\ existsb (refersTo "c1") (sales counter) = false
  /\ snd (deleteCustomer (fun _ => false) "c1" counter)
     = Done 200 "Customer deleted successfully".
Proof.
  assert (H1 : findCustomer (booked "st-cancelled") "c1" <> None)
    by (simpl; discriminate).
  assert (H2 : findCustomer counter "c1" <> None) by (simpl; discriminate).
  split; [exact H1 |]. split; [reflexivity |].
  split.
  { exact (proj1 (proj2 (proj2 (deleteCustomer_outcomes
                                  (fun _ => false) "c1"
                                  (booked "st-cancelled") _ _
                                  (surjective_pairing _))))
                 eq_refl H1 eq_refl). }
  split; [exact H2 |]. split; [reflexivity |].
  exact (proj1 (proj2 (proj2 (proj2 (deleteCustomer_outcomes
                                       (fun _ => false) "c1" counter _ _
                                       (surjective_pairing _))))
                      eq_refl H2 eq_refl)).
Defined.

(** ** The references between the tables *)

Lemma find_map_keeps {A : Type} (key : A -> Id) (f : A -> A) k l :
  (forall a, key (f a) = key a) ->
  find (fun a => key a =? k) (map f l)
  = option_map f (find (fun a => key a =? k) l).
Proof.
  intros Hkey. induction l as [| a l IH]; simpl; [reflexivity |].
  rewrite Hkey. destruct (key a =? k); [reflexivity | exact IH].
Qed.

Lemma fkHolds_map_customers db db' f key :
  customers db' = map f (customers db) ->
  (forall c, Customer.id (f c) = Customer.id c) ->
  fkHolds (findCustomer db') key = fkHolds (findCustomer db) key.
Proof.
  intros Hmap Hid. destruct key as [k |]; [| reflexivity].
  unfold fkHolds, findCustomer. rewrite Hmap.
  rewrite (find_map_keeps Customer.id f k _ Hid).
  destruct (find _ (customers db)); reflexivity.
Qed.

Lemma fkHolds_same_statuses db db' key :
  saleStatuses db' = saleStatuses db ->
  fkHolds (findSaleStatus db') key = fkHolds (findSaleStatus db) key.
Proof.
  intros Hst. unfold fkHolds, findSaleStatus. rewrite Hst. reflexivity.
Qed.

Lemma creditedCustomers_map customerId total rows :
  exists f,
    creditedCustomers customerId total rows = map f rows
    /\ forall c, Customer.id (f c) = Customer.id c.
Proof.
  unfold creditedCustomers. destruct (truthyId customerId) as [c |].
  - eexists. split; [reflexivity |].
    intros x. unfold incrementCustomer.
    destruct (Customer.id x =? c); reflexivity.
  - exists (fun x => x). split; [symmetry; apply map_id | reflexivity].
Qed.

Lemma createSale_keeps_references fault now saleId userId req db :
  referencesHold db ->
  referencesHold (fst (createSale fault now saleId userId req db)).
Proof.
  intros [Hsales Hitems].
  pose proof (surjective_pairing
                (createSale fault now saleId userId req db)) as H.
  destruct (Z.eq_dec
              (Response.status
                 (snd (createSale fault now saleId userId req db))) 201)
    as [Hs | Hs].
  2:{ destruct (createSale_failed _ _ _ _ _ _ _ _ H Hs) as [-> _].
      split; assumption. }
  destruct (createSale_created_checks _ _ _ _ _ _ _ _ H Hs)
    as (Hfresh & Hfc & Hfs).
  destruct (createSale_created _ _ _ _ _ _ _ _ H Hs)
    as (subtotal & taxAmount & _ & _ & _ & ->).
  set (total := totalAmount subtotal taxAmount (discountOf req)).
  destruct (creditedCustomers_map (SaleRequest.customerId req) total
              (customers db)) as (f & Hf & Hid).
  set (db' := mkDb _ _ _ _ _ _ _ _ _ _).
  assert (Hcust : forall key,
             fkHolds (findCustomer db') key = fkHolds (findCustomer db) key).
  { intros key. apply (fkHolds_map_customers db db' f); [exact Hf | exact Hid]. }
  split.
  - intros s Hin. unfold db' in Hin. cbn [sales] in Hin.
    rewrite Hcust.
    rewrite (fkHolds_same_statuses db db' _ eq_refl).
    apply in_app_or in Hin as [Hin | [<- | []]].
    + apply Hsales. exact Hin.
    + split; assumption.
  - intros i Hin. unfold db' in Hin. cbn [saleItems] in Hin.
    unfold findSale, db'. cbn [sales].
    apply in_app_or in Hin as [Hin | Hin].
    + specialize (Hitems i Hin). unfold findSale in Hitems.
      destruct (find (fun s => Sale.id s =? SaleItem.saleId i) (sales db))
        as [s |] eqn:Hf'; [| contradiction].
      rewrite (find_app_some _ _ _ _ Hf'). discriminate.
    + apply in_map_iff in Hin as (it & <- & _). cbn [SaleItem.saleId saleItemOf].
      unfold findSale in Hfresh. rewrite (find_app_none _ _ _ Hfresh).
      simpl. rewrite String.eqb_refl. discriminate.
Qed.

Lemma sale_update_fk fault id req db db' new :
  sale_update fault id (StatusRequest.paymentStatusId req)
              (StatusRequest.saleStatusId req) db = (db', inr new) ->
  fkHolds (findSaleStatus db) (Sale.saleStatusId new) = true.
Proof.
  intros H. apply bind_inr in H as (u & db1 & Hr & H).
  apply reach_inr in Hr as [-> _].
  destruct (findSale db id) as [old |]; [| discriminate].
  cbv zeta in H.
  destruct (fkHolds (findSaleStatus db) _) eqn:Hfk; [| discriminate].
  destruct (fkHolds (findKey (paymentStatuses db)) _); [| discriminate].
  cbn [negb andb] in H. rewrite update_customer_total_purchases_eq in H.
  destruct (update_inventory_after_sale _ _ _); [discriminate |].
  inversion H; subst. exact Hfk.
Qed.

Lemma updateSaleStatus_keeps_references fault id req db :
  referencesHold db ->
  referencesHold (fst (updateSaleStatus fault id req db)).
Proof.
  intros [Hsales Hitems].
  pose proof (surjective_pairing (updateSaleStatus fault id req db)) as H.
  destruct (Z.eq_dec
              (Response.status (snd (updateSaleStatus fault id req db))) 200)
    as [Hs | Hs].
  2:{ rewrite (updateSaleStatus_failed _ _ _ _ _ _ H Hs). split; assumption. }
  destruct (updateSaleStatus_ok _ _ _ _ _ _ H Hs) as [new Hu].
  pose proof (sale_update_fk _ _ _ _ _ _ Hu) as Hfk.
  apply sale_update_inr in Hu as (old & Hfind & -> & Hdb).
  cbv zeta in Hdb. rewrite Hdb. clear Hdb H Hs.
  set (new := updatedSale old req) in *.
  set (db' := mkDb _ _ _ _ _ _ _ _ _ _).
  assert (Hold : In old (sales db)).
  { unfold findSale in Hfind. apply find_some in Hfind as [Hin _]. exact Hin. }
  assert (Hcust : forall key,
             fkHolds (findCustomer db') key = fkHolds (findCustomer db) key).
  { intros key. unfold db', purchasesAdded, purchasesTaken.
    destruct (entersCompleted _ _).
    - eapply fkHolds_map_customers; [reflexivity |].
      intros c. cbv beta. destruct (isCustomerOf new c); reflexivity.
    - destruct (completedToCancelled _ _); [| reflexivity].
      eapply fkHolds_map_customers; [reflexivity |].
      intros c. cbv beta. destruct (isCustomerOf new c); reflexivity. }
  split.
  - intros s Hin. unfold db' in Hin. cbn [sales] in Hin.
    rewrite Hcust, (fkHolds_same_statuses db db' _ eq_refl).
    apply in_map_iff in Hin as (s0 & <- & Hin0).
    destruct (Sale.id s0 =? id).
    + split; [apply (Hsales old Hold) | exact Hfk].
    + apply Hsales. exact Hin0.
  - intros i Hin. unfold db' in Hin. cbn [saleItems] in Hin.
    specialize (Hitems i Hin). unfold findSale, db'. cbn [sales].
    rewrite (find_map_keeps Sale.id
               (fun s => if Sale.id s =? id then new else s)).
    + unfold findSale in Hitems.
      destruct (find _ (sales db)); [discriminate | contradiction].
    + intros s. destruct (Sale.id s =? id) eqn:He; [| reflexivity].
      apply String.eqb_eq in He. rewrite He.
      apply (findSale_some_id _ _ _ Hfind).
Qed.

Lemma deleteCustomer_keeps_references fault id db :
  referencesHold db ->
  referencesHold (fst (deleteCustomer fault id db)).
Proof.
  intros [Hsales Hitems].
  unfold deleteCustomer, customer_delete, bind, attempt.
  destruct (fault CustomerDelete); [split; assumption |]. cbv beta iota.
  destruct (findCustomer db id) as [c |]; [| split; assumption].
  destruct (existsb (refersTo id) (sales db)) eqn:Href;
    [split; assumption |].
  cbn [fst]. split.
  - intros s Hin. cbn [sales set_customers] in Hin.
    destruct (Hsales s Hin) as [Hc Hst]. split; [| exact Hst].
    destruct (Sale.customerId s) as [k |] eqn:Hk; [| reflexivity].
    assert (Hne : k <> id).
    { intros ->. rewrite <- Bool.not_true_iff_false in Href. apply Href.
      apply existsb_exists. exists s. split; [exact Hin |].
      unfold refersTo. rewrite Hk. apply String.eqb_refl. }
    unfold fkHolds, findCustomer in *. cbn [customers set_customers].
    rewrite (find_filter_other id k _ Hne). exact Hc.
  - exact Hitems.
Qed.

(** X18. No handler breaks a reference. When every stored sale refers to a
    stored customer and a stored sale status (or to none) and every stored
    sale item to a stored sale, the same holds after [createSale], after a
    status update and after deleting a customer, whatever they answer. *)
Theorem handlers_keep_references :
  (forall fault now saleId userId req db,
      referencesHold db ->
      referencesHold (fst (createSale fault now saleId userId req db)))
  /\ (forall fault id req db,
         referencesHold db ->
         referencesHold (fst (updateSaleStatus fault id req db)))
  /\ (forall fault id db,
         referencesHold db ->
         referencesHold (fst (deleteCustomer fault id db))).
Proof.
  split; [| split].
  - apply createSale_keeps_references.
  - apply updateSaleStatus_keeps_references.
  - apply deleteCustomer_keeps_references.
Qed.

Lemma handlers_keep_references_witness :
  referencesHold (booked "st-pending")
  /\ referencesHold
       (fst (updateSaleStatus nofault "s1" (statusTo "st-completed")
                              (booked "st-pending")))
  /\ referencesHold
       (fst (deleteCustomer (fun _ => false) "c1" (booked "st-pending"))).
Proof.
  assert (Hr : referencesHold (booked "st-pending")).
  { split.
    - intros s [<- | []]. split; reflexivity.
    - intros i [<- | [<- | []]]; simpl; discriminate. }
  split; [exact Hr |]. split.
  - exact (proj1 (proj2 handlers_keep_references) nofault "s1"
                 (statusTo "st-completed") (booked "st-pending") Hr).
  - exact (proj2 (proj2 handlers_keep_references) (fun _ => false) "c1"
                 (booked "st-pending") Hr).
Defined.

(** ** Customer statistics *)

Lemma customerStats_done fault createdAt id db db' stats :
  customerStats fault createdAt id db = (db', Done 200 stats) ->
  db' = db
  /\ exists c,
      findCustomer db id = Some c
      /\ stats
         = CustomerStats.mk id (Customer.totalPurchases c)
             (Z.of_nat (List.length (salesOfCustomer db id)))
             (if (0 <? Z.of_nat (List.length (salesOfCustomer db id)))%Z
              then (Customer.totalPurchases c
                    / inject_Z (Z.of_nat
                                  (List.length (salesOfCustomer db id))))%Q
              else 0%Q)
             (Customer.loyaltyPoints c)
             (match sortNewest createdAt (salesOfCustomer db id) with
              | newest :: _ => Some (createdAt newest)
              | [] => None
              end).
Proof.
  unfold customerStats, customer_findUnique, bind, attempt.
  destruct (fault CustomerFindUnique); [discriminate |]. cbv beta iota.
  destruct (findCustomer db id) as [c |]; simpl; [| discriminate].
  intros H. inversion H; subst. split; [reflexivity |].
  exists c. split; reflexivity.
Qed.

(** X19. The average order value of a customer never divides by zero and
    agrees with the other figures of the answer: it is 0 for a customer
    without a sale, and otherwise the average times the number of orders is
    the customer's total of purchases (the amounts as exact rationals, the
    division not rounded). The number of orders is the number of sales
    that refer to the customer, and a customer that does not exist gets a
    [404]. *)
Theorem customerStats_average fault createdAt id db :
  (forall db' stats,
      customerStats fault createdAt id db = (db', Done 200 stats) ->
      CustomerStats.totalOrders stats
      = Z.of_nat (List.length (salesOfCustomer db id))
      /\ (CustomerStats.totalOrders stats = 0 ->
          CustomerStats.averageOrderValue stats = 0%Q)
      /\ (0 < CustomerStats.totalOrders stats ->
          (CustomerStats.averageOrderValue stats
           * inject_Z (CustomerStats.totalOrders stats)
           == CustomerStats.totalPurchases stats)%Q))
  /\ (fault CustomerFindUnique = false ->
      findCustomer db id = None ->
      customerStats fault createdAt id db
      = (db, Fail 404 "Customer not found")).
Proof.
  split.
  - intros db' stats H.
    destruct (customerStats_done _ _ _ _ _ _ H) as (_ & c & _ & ->).
    cbn [CustomerStats.totalOrders CustomerStats.averageOrderValue
         CustomerStats.totalPurchases].
    set (n := Z.of_nat (List.length (salesOfCustomer db id))).
    split; [reflexivity |]. split.
    + intros Hz. rewrite Hz. reflexivity.
    + intros Hpos. destruct (0 <? n)%Z eqn:Hn; [| apply Z.ltb_ge in Hn; lia].
      field. intros Hq.
      assert (Hne : ~ (inject_Z n == inject_Z 0)%Q).
      { rewrite inject_Z_injective. lia. }
      apply Hne. exact Hq.
  - intros Hf Hnone.
    unfold customerStats, customer_findUnique, bind, attempt.
    rewrite Hf. cbv beta iota. rewrite Hnone. reflexivity.
Qed.

Lemma customerStats_average_witness :
  findCustomer (booked "st-pending") "c7" = None
  /\ customerStats (fun _ => false) clock "c7" (booked "st-pending")
     = (booked "st-pending", Fail 404 "Customer not found").
Proof.
  split; [reflexivity |].
  exact (proj2 (customerStats_average (fun _ => false) clock "c7"
                  (booked "st-pending")) eq_refl eq_refl).
Defined.

Lemma insertNewest_in createdAt s sorted x :
  In x (insertNewest createdAt s sorted) <-> x = s \/ In x sorted.
Proof.
  induction sorted as [| y rest IH]; simpl.
  - split; intros [H | H]; auto.
  - destruct (createdAt y <? createdAt s)%Z; simpl.
    + split; intros [H | H]; auto.
    + rewrite IH. split; intros H; tauto.
Qed.

Lemma sortNewest_in_from createdAt rows :
  forall acc x,
    In x (fold_left (fun sorted s => insertNewest createdAt s sorted) rows acc)
    <-> In x rows \/ In x acc.
Proof.
  induction rows as [| r rows IH]; intros acc x; simpl.
  - tauto.
  - rewrite IH, insertNewest_in. split; intros H.
    + destruct H as [H | [H | H]]; auto.
    + destruct H as [[H | H] | H]; auto.
Qed.

Lemma sortNewest_in createdAt rows x :
  In x (sortNewest createdAt rows) <-> In x rows.
Proof.
  unfold sortNewest. rewrite sortNewest_in_from. simpl. tauto.
Qed.

Lemma insertNewest_ahead createdAt s sorted :
  newestAhead createdAt sorted ->
  newestAhead createdAt (insertNewest createdAt s sorted).
Proof.
  destruct sorted as [| x rest]; simpl.
  - intros _ y [<- | []]. lia.
  - intros Hmax. destruct (createdAt x <? createdAt s)%Z eqn:Hlt; simpl.
    + apply Z.ltb_lt in Hlt. intros y [<- | Hy]; [lia |].
      specialize (Hmax y Hy). lia.
    + apply Z.ltb_ge in Hlt. intros y [<- | Hy]; [lia |].
      apply insertNewest_in in Hy as [-> | Hy]; [exact Hlt |].
      apply Hmax. right. exact Hy.
Qed.

Lemma sortNewest_ahead_from createdAt rows :
  forall acc,
    newestAhead createdAt acc ->
    newestAhead createdAt
      (fold_left (fun sorted s => insertNewest createdAt s sorted) rows acc).
Proof.
  induction rows as [| r rows IH]; intros acc Hacc; simpl.
  - exact Hacc.
  - apply IH. apply insertNewest_ahead. exact Hacc.
Qed.

(** X20. The last order date of the statistics is the date of a newest sale
    of the customer: it is absent exactly when the customer has no sale,
    and otherwise it is the [createdAt] of one of the customer's sales and
    no sale of the customer is more recent. *)
Theorem customerStats_lastOrderDate fault createdAt id db db' stats :
  customerStats fault createdAt id db = (db', Done 200 stats) ->
  (CustomerStats.lastOrderDate stats = None <->
   CustomerStats.totalOrders stats = 0)
  /\ forall d,
      CustomerStats.lastOrderDate stats = Some d ->
      (exists s, In s (salesOfCustomer db id) /\ createdAt s = d)
      /\ forall s, In s (salesOfCustomer db id) -> createdAt s <= d.
Proof.
  intros H. destruct (customerStats_done _ _ _ _ _ _ H) as (_ & c & _ & ->).
  cbn [CustomerStats.lastOrderDate CustomerStats.totalOrders].
  pose proof (sortNewest_in createdAt (salesOfCustomer db id)) as Hin.
  pose proof (sortNewest_ahead_from createdAt (salesOfCustomer db id) [] I)
    as Hmax.
  fold (sortNewest createdAt (salesOfCustomer db id)) in Hmax.
  destruct (sortNewest createdAt (salesOfCustomer db id)) as [| x rest].
  - assert (Hnil : salesOfCustomer db id = []).
    { destruct (salesOfCustomer db id) as [| y l]; [reflexivity |].
      exfalso. apply (proj2 (Hin y)). left. reflexivity. }
    rewrite Hnil. simpl. split; [tauto | discriminate].
  - split.
    + split; [discriminate |]. intros Hz.
      assert (Hx : In x (salesOfCustomer db id))
        by (apply Hin; left; reflexivity).
      destruct (salesOfCustomer db id); [destruct Hx | simpl in Hz; lia].
    + intros d Hd. inversion Hd; subst d. split.
      * exists x. split; [apply Hin; left; reflexivity | reflexivity].
      * intros s Hs. apply Hmax. apply Hin. exact Hs.
Qed.

(** In [twoSales] the customer has a sale at 100 and a sale at 200. *)
Lemma customerStats_lastOrderDate_witness :
  exists stats,
    customerStats (fun _ => false) clock "c1" twoSales
    = (twoSales, Done 200 stats)
    /\ CustomerStats.lastOrderDate stats = Some 200
    /\ forall s, In s (salesOfCustomer twoSales "c1") -> clock s <= 200.
Proof.
  eexists. split; [vm_compute; reflexivity |].
  split; [reflexivity |].
  apply (proj2 (customerStats_lastOrderDate
                  (fun _ => false) clock "c1" twoSales twoSales _ eq_refl)
               200 eq_refl).
Defined.

Lemma length_filter_map {A : Type} (f : A -> A) (p : A -> bool) l :
  (forall a, In a l -> p (f a) = p a) ->
  List.length (filter p (map f l)) = List.length (filter p l).
Proof.
  induction l as [| a l IH]; simpl; intros Hp; [reflexivity |].
  rewrite (Hp a (or_introl eq_refl)).
  assert (Hl : forall x, In x l -> p (f x) = p x)
    by (intros x Hx; apply Hp; right; exact Hx).
  destruct (p a); simpl; rewrite (IH Hl); reflexivity.
Qed.

Lemma unique_sale_id (rows : list Sale.t) a b :
  NoDup (map Sale.id rows) ->
  In a rows -> In b rows -> Sale.id a = Sale.id b -> a = b.
Proof.
  induction rows as [| x rows IH]; simpl; intros Hnd Ha Hb Hid; [destruct Ha |].
  inversion Hnd as [| ? ? Hnotin Hnd']; subst.
  destruct Ha as [-> | Ha]; destruct Hb as [-> | Hb].
  - reflexivity.
  - exfalso. apply Hnotin. rewrite Hid. apply in_map. exact Hb.
  - exfalso. apply Hnotin. rewrite <- Hid. apply in_map. exact Ha.
  - apply IH; assumption.
Qed.

(** X21. Every sale that refers to a customer counts as an order of that
    customer, whatever becomes of it. A [createSale] that answers [201] for
    a customer raises the [totalOrders] of that customer's statistics by
    one; a status update, a cancellation included, never changes the
    [totalOrders] of any customer of a store whose sales have distinct
    ids. *)
Theorem customerStats_order_count :
  (forall fault readFault createdAt now saleId userId req db db' r c
          before after,
      createSale fault now saleId userId req db = (db', r) ->
      Response.status r = 201 ->
      truthyId (SaleRequest.customerId req) = Some c ->
      customerStats readFault createdAt c db = (db, Done 200 before) ->
      customerStats readFault createdAt c db' = (db', Done 200 after) ->
      CustomerStats.totalOrders after = CustomerStats.totalOrders before + 1)
  /\ (forall fault readFault createdAt id req db db' r c before after,
         NoDup (map Sale.id (sales db)) ->
         updateSaleStatus fault id req db = (db', r) ->
         customerStats readFault createdAt c db = (db, Done 200 before) ->
         customerStats readFault createdAt c db' = (db', Done 200 after) ->
         CustomerStats.totalOrders after = CustomerStats.totalOrders before).
Proof.
  split.
  - intros fault readFault createdAt now saleId userId req db db' r c
           before after H Hs Hc Hb Ha.
    destruct (customerStats_done _ _ _ _ _ _ Hb) as (_ & c0 & _ & ->).
    destruct (customerStats_done _ _ _ _ _ _ Ha) as (_ & c1 & _ & ->).
    cbn [CustomerStats.totalOrders].
    destruct (createSale_created _ _ _ _ _ _ _ _ H Hs)
      as (subtotal & taxAmount & _ & _ & _ & ->).
    unfold salesOfCustomer. cbn [sales]. rewrite filter_app, length_app.
    simpl. unfold truthyId in Hc.
    destruct (SaleRequest.customerId req) as [k |]; [| discriminate].
    destruct (k =? ""); [discriminate |]. inversion Hc; subst k.
    rewrite String.eqb_refl. simpl. lia.
  - intros fault readFault createdAt id req db db' r c before after
           Hnd H Hb Ha.
    destruct (customerStats_done _ _ _ _ _ _ Hb) as (_ & c0 & _ & ->).
    destruct (customerStats_done _ _ _ _ _ _ Ha) as (_ & c1 & _ & ->).
    cbn [CustomerStats.totalOrders].
    destruct (Z.eq_dec (Response.status r) 200) as [Hs | Hs].
    + destruct (updateSaleStatus_ok _ _ _ _ _ _ H Hs) as [new Hu].
      apply sale_update_inr in Hu as (old & Hfind & -> & Hdb).
      cbv zeta in Hdb. rewrite Hdb. unfold salesOfCustomer. cbn [sales].
      rewrite length_filter_map; [reflexivity |].
      intros s Hin. destruct (Sale.id s =? id) eqn:He; [| reflexivity].
      apply String.eqb_eq in He.
      unfold findSale in Hfind. apply find_some in Hfind as [Hold Hid].
      apply String.eqb_eq in Hid.
      assert (Hsame : s = old)
        by (apply (unique_sale_id _ _ _ Hnd Hin Hold); congruence).
      subst s. reflexivity.
    + rewrite (updateSaleStatus_failed _ _ _ _ _ _ H Hs). reflexivity.
Qed.

(** The sale [s1] of [booked] is cancelled; it still counts. *)
Lemma customerStats_order_count_witness :
  NoDup (map Sale.id (sales (booked "st-completed")))
  /\ exists before after,
      customerStats (fun _ => false) clock "c1" (booked "st-completed")
      = (booked "st-completed", Done 200 before)
      /\ customerStats (fun _ => false) clock "c1"
           (fst (updateSaleStatus nofault "s1" (statusTo "st-cancelled")
                                  (booked "st-completed")))
         = (fst (updateSaleStatus nofault "s1" (statusTo "st-cancelled")
                                  (booked "st-completed")),
            Done 200 after)
      /\ CustomerStats.totalOrders after = CustomerStats.totalOrders before.
Proof.
  assert (Hnd : NoDup (map Sale.id (sales (booked "st-completed"))))
    by (simpl; repeat constructor; simpl; tauto).
  split; [exact Hnd |].
  eexists. eexists.
  split; [vm_compute; reflexivity |].
  split; [vm_compute; reflexivity |].
  exact (proj2 customerStats_order_count nofault (fun _ => false) clock "s1"
               (statusTo "st-cancelled") (booked "st-completed") _ _ "c1"
               _ _ Hnd (surjective_pairing _) eq_refl eq_refl).
Defined.

(** ** Sales statistics *)

Lemma salesStats_done fault createdAt parseDate q db db' stats :
  salesStats fault createdAt parseDate q db = (db', Done 200 stats) ->
  exists cond,
    dateFilter createdAt parseDate q = Some cond
    /\ stats
       = SalesStats.mk
           (Z.of_nat (List.length (filter cond (sales db))))
           (sumOrZero (sumTotalAmount (filter cond (sales db))))
           (Z.of_nat (List.length (customers db)))
           (if (0 <? Z.of_nat (List.length (filter cond (sales db))))%Z
            then (sumOrZero (sumTotalAmount (filter cond (sales db)))
                  / inject_Z (Z.of_nat
                                (List.length (filter cond (sales db)))))%Q
            else 0%Q).
Proof.
  unfold salesStats. destruct (dateFilter createdAt parseDate q) as [cond |];
    [| discriminate].
  unfold bind, sale_count, sale_aggregate, customer_count, bind, attempt, ret.
  destruct (fault SaleCount); [discriminate |]. cbv beta iota.
  destruct (fault SaleAggregate); [discriminate |]. cbv beta iota.
  destruct (fault CustomerCount); [discriminate |]. cbv beta iota.
  intros H. inversion H; subst. exists cond. split; reflexivity.
Qed.

(** X22. The sales statistics never divide by zero and their figures agree:
    with no sale in the range the revenue and the average are 0, otherwise
    the average times the number of sales is the revenue (the amounts as
    exact rationals, the division not rounded). The customers are counted
    whatever the dates. A range needs both dates: with the start or the end
    date missing the other one is ignored and every sale is counted. *)
Theorem salesStats_figures fault createdAt parseDate q db :
  (forall db' stats,
      salesStats fault createdAt parseDate q db = (db', Done 200 stats) ->
      (SalesStats.totalSales stats = 0 ->
       SalesStats.totalRevenue stats = 0%Q
       /\ SalesStats.averageSale stats = 0%Q)
      /\ (0 < SalesStats.totalSales stats ->
          (SalesStats.averageSale stats
           * inject_Z (SalesStats.totalSales stats)
           == SalesStats.totalRevenue stats)%Q)
      /\ SalesStats.totalCustomers stats
         = Z.of_nat (List.length (customers db))
      /\ (truthyString (StatsQuery.startDate q) = None
          \/ truthyString (StatsQuery.endDate q) = None ->
          SalesStats.totalSales stats = Z.of_nat (List.length (sales db))))
  /\ (truthyString (StatsQuery.startDate q) = None
      \/ truthyString (StatsQuery.endDate q) = None ->
      salesStats fault createdAt parseDate q db
      = salesStats fault createdAt parseDate (StatsQuery.mk None None) db).
Proof.
  assert (Hlone : truthyString (StatsQuery.startDate q) = None
                  \/ truthyString (StatsQuery.endDate q) = None ->
                  dateFilter createdAt parseDate q = Some (fun _ => true)).
  { unfold dateFilter. intros [Hn | Hn]; rewrite Hn; [reflexivity |].
    destruct (truthyString (StatsQuery.startDate q)); reflexivity. }
  split.
  - intros db' stats H.
    destruct (salesStats_done _ _ _ _ _ _ _ H) as (cond & Hcond & ->).
    cbn [SalesStats.totalSales SalesStats.totalRevenue SalesStats.averageSale
         SalesStats.totalCustomers].
    set (rows := filter cond (sales db)).
    set (n := Z.of_nat (List.length rows)).
    split; [| split; [| split]].
    + intros Hz. rewrite Hz. split; [| reflexivity].
      destruct rows; [reflexivity | simpl in n; lia].
    + intros Hpos. destruct (0 <? n)%Z eqn:Hn; [| apply Z.ltb_ge in Hn; lia].
      field. intros Hq.
      assert (Hne : ~ (inject_Z n == inject_Z 0)%Q).
      { rewrite inject_Z_injective. lia. }
      apply Hne. exact Hq.
    + reflexivity.
    + intros Hl. rewrite (Hlone Hl) in Hcond. inversion Hcond; subst cond.
      unfold n, rows. rewrite filter_all; [reflexivity | reflexivity].
  - intros Hl. unfold salesStats. rewrite (Hlone Hl). reflexivity.
Qed.

Lemma salesStats_figures_witness :
  truthyString (StatsQuery.startDate (StatsQuery.mk (Some "2024-01-01") None))
  = Some "2024-01-01"
  /\ truthyString (StatsQuery.endDate (StatsQuery.mk (Some "2024-01-01") None))
     = None
  /\ salesStats (fun _ => false) clock (fun _ => Some 150)
                (StatsQuery.mk (Some "2024-01-01") None) twoSales
     = salesStats (fun _ => false) clock (fun _ => Some 150)
                  (StatsQuery.mk None None) twoSales.
Proof.
  split; [reflexivity |]. split; [reflexivity |].
  exact (proj2 (salesStats_figures (fun _ => false) clock (fun _ => Some 150)
                  (StatsQuery.mk (Some "2024-01-01") None) twoSales)
               (or_intror eq_refl)).
Defined.

(** ** The list of sales *)

Lemma firstn_add {A : Type} (a b : nat) (l : list A) :
  firstn (a + b) l = (firstn a l ++ firstn b (skipn a l))%list.
Proof.
  revert l. induction a as [| a IH]; intros l; [reflexivity |].
  destruct l as [| x l]; simpl.
  - destruct b; reflexivity.
  - rewrite IH. reflexivity.
Qed.

Lemma insertNewest_perm createdAt s l :
  Permutation (insertNewest createdAt s l) (s :: l).
Proof.
  induction l as [| x l IH]; simpl; [apply Permutation_refl |].
  destruct (createdAt x <? createdAt s)%Z; [apply Permutation_refl |].
  eapply perm_trans; [apply perm_skip, IH | apply perm_swap].
Qed.

Lemma sortNewest_perm createdAt l : Permutation (sortNewest createdAt l) l.
Proof.
  unfold sortNewest.
  assert (H : forall acc,
             Permutation
               (fold_left (fun sorted s => insertNewest createdAt s sorted)
                          l acc)
               (l ++ acc)%list).
  { induction l as [| x l IH]; intros acc; simpl; [apply Permutation_refl |].
    eapply perm_trans; [apply IH |].
    eapply perm_trans;
      [apply Permutation_app_head, insertNewest_perm |].
    apply Permutation_sym, Permutation_middle. }
  specialize (H []). rewrite app_nil_r in H. exact H.
Qed.

Lemma ceilDiv_bounds total take :
  0 < take ->
  exists pages,
    ceilDiv total take = Some pages
    /\ (pages - 1) * take < total <= pages * take.
Proof.
  intros Ht. unfold ceilDiv.
  destruct (take =? 0)%Z eqn:He; [apply Z.eqb_eq in He; lia |].
  eexists. split; [reflexivity |].
  set (x := (inject_Z total / inject_Z take)%Q).
  assert (Hpos : (0 < inject_Z take)%Q)
    by (change 0%Q with (inject_Z 0); rewrite <- Zlt_Qlt; exact Ht).
  assert (Hx : (x * inject_Z take == inject_Z total)%Q).
  { unfold x. field. intros Hz. rewrite Hz in Hpos.
    exact (Qlt_irrefl _ Hpos). }
  pose proof (Qle_ceiling x) as Hle.
  pose proof (Qceiling_lt x) as Hlt.
  split.
  - apply (Qmult_lt_compat_r _ _ _ Hpos) in Hlt.
    rewrite Hx, <- inject_Z_mult, <- Zlt_Qlt in Hlt. exact Hlt.
  - apply (Qmult_le_compat_r _ _ (inject_Z take)) in Hle;
      [| apply Qlt_le_weak; exact Hpos].
    rewrite Hx, <- inject_Z_mult, <- Zle_Qle in Hle. exact Hle.
Qed.

Lemma listSales_run fault newestFirst q db :
  fault SaleFindMany = false ->
  fault SaleCount = false ->
  0 <= (pageOf q - 1) * limitOf q ->
  listSales fault newestFirst q db
  = (db,
     Done 200
          (map (hydrate db)
               (firstn (Z.to_nat (limitOf q))
                       (skipn (Z.to_nat ((pageOf q - 1) * limitOf q))
                              (newestFirst (matching q db)))),
           Pagination.mk (pageOf q) (limitOf q)
                         (Z.of_nat (List.length (matching q db)))
                         (ceilDiv (Z.of_nat (List.length (matching q db)))
                                  (limitOf q)))).
Proof.
  intros Hf Hc Hskip.
  unfold listSales, sale_findMany, sale_count, bind, attempt.
  cbv zeta.
  replace (0 <=? (pageOf q - 1) * limitOf q)%Z with true
    by (symmetry; apply Z.leb_le; lia).
  cbn [negb]. rewrite Hf, Hc. reflexivity.
Qed.

(** X23. A page of the list of sales. For a page and a limit of at least 1
    within the [Int] range the list answers [200] and leaves the store as
    it is; [total] counts the sales that match the filters, whatever the
    page; the page holds at most [limit] rows; [pages] is the least number
    of pages of [limit] rows that hold [total] rows; and, the store
    ordering the rows it found, every row returned is a stored sale that
    matches the filters, with its relations. *)
Theorem listSales_page fault newestFirst q db :
  fault SaleFindMany = false ->
  fault SaleCount = false ->
  1 <= pageOf q ->
  1 <= limitOf q <= 2147483647 ->
  (pageOf q - 1) * limitOf q <= 2147483647 ->
  exists found pages,
    listSales fault newestFirst q db
    = (db,
       Done 200
            (found,
             Pagination.mk (pageOf q) (limitOf q)
                           (Z.of_nat (List.length (matching q db)))
                           (Some pages)))
    /\ Z.of_nat (List.length found) <= limitOf q
    /\ (pages - 1) * limitOf q
       < Z.of_nat (List.length (matching q db))
       <= pages * limitOf q
    /\ ((forall l, Permutation (newestFirst l) l) ->
        forall v,
          In v found ->
          In (SaleView.sale v) (sales db)
          /\ salesWhere q (SaleView.sale v) = true
          /\ v = hydrate db (SaleView.sale v)).
Proof.
  intros Hf Hc Hp Hl Hs.
  destruct (ceilDiv_bounds (Z.of_nat (List.length (matching q db)))
                           (limitOf q)) as (pages & Hpages & Hb); [lia |].
  eexists. exists pages.
  split; [rewrite listSales_run by (try assumption; nia);
          rewrite Hpages; reflexivity |].
  split; [| split; [exact Hb |]].
  - rewrite length_map.
    pose proof (firstn_le_length
                  (Z.to_nat (limitOf q))
                  (skipn (Z.to_nat ((pageOf q - 1) * limitOf q))
                         (newestFirst (matching q db)))) as Hlen.
    lia.
  - intros Hperm v Hv. apply in_map_iff in Hv as (s & <- & Hin).
    cbn [hydrate SaleView.sale].
    assert (Hm : In s (matching q db)).
    { apply (Permutation_in _ (Hperm _)).
      rewrite <- (firstn_skipn (Z.to_nat ((pageOf q - 1) * limitOf q))
                               (newestFirst (matching q db))).
      apply in_or_app. right.
      rewrite <- (firstn_skipn (Z.to_nat (limitOf q))
                               (skipn _ (newestFirst (matching q db)))).
      apply in_or_app. left. exact Hin. }
    apply filter_In in Hm as [Hs1 Hs2]. repeat split; assumption.
Qed.

(** The second page of two of three sales holds the oldest one. *)
Lemma listSales_page_witness :
  (forall l, Permutation (sortNewest clock l) l)
  /\ exists found pages,
    listSales (fun _ => false) (sortNewest clock) (anyPage 2 2) threeSales
    = (threeSales,
       Done 200
            (found,
             Pagination.mk (pageOf (anyPage 2 2)) (limitOf (anyPage 2 2))
               (Z.of_nat (List.length (matching (anyPage 2 2) threeSales)))
               (Some pages)))
    /\ Z.of_nat (List.length found) <= limitOf (anyPage 2 2)
    /\ (pages - 1) * limitOf (anyPage 2 2)
       < Z.of_nat (List.length (matching (anyPage 2 2) threeSales))
       <= pages * limitOf (anyPage 2 2)
    /\ ((forall l, Permutation (sortNewest clock l) l) ->
        forall v,
          In v found ->
          In (SaleView.sale v) (sales threeSales)
          /\ salesWhere (anyPage 2 2) (SaleView.sale v) = true
          /\ v = hydrate threeSales (SaleView.sale v)).
Proof.
  split; [exact (sortNewest_perm clock) |].
  apply (listSales_page (fun _ => false) (sortNewest clock) (anyPage 2 2)
                        threeSales eq_refl eq_refl);
    vm_compute; try split; congruence.
Defined.

(** X24. The edges of the paging. Page 0 with a limit of at least 1 asks
    the store to skip a negative number of rows: the list answers [500],
    whatever the store holds. A limit of 0 is accepted: the answer is
    [200] with no row, the [total] of the matching sales and a [pages]
    that is no number. *)
Theorem listSales_edges fault newestFirst q db :
  (pageOf q = 0 -> 1 <= limitOf q ->
   listSales fault newestFirst q db
   = (db, Fail 500 "Internal server error"))
  /\ (limitOf q = 0 ->
      fault SaleFindMany = false -> fault SaleCount = false ->
      listSales fault newestFirst q db
      = (db,
         Done 200
              ([],
               Pagination.mk (pageOf q) 0
                             (Z.of_nat (List.length (matching q db)))
                             None))).
Proof.
  split.
  - intros Hp Hl. unfold listSales, sale_findMany. cbv zeta. rewrite Hp.
    replace (0 <=? (0 - 1) * limitOf q)%Z with false
      by (symmetry; apply Z.leb_gt; lia).
    reflexivity.
  - intros Hl Hf Hc.
    rewrite listSales_run by (try assumption; rewrite Hl; lia).
    rewrite Hl. reflexivity.
Qed.

Lemma listSales_edges_witness :
  listSales (fun _ => false) (sortNewest clock) (anyPage 0 2) threeSales
  = (threeSales, Fail 500 "Internal server error")
  /\ listSales (fun _ => false) (sortNewest clock) (anyPage 1 0) threeSales
     = (threeSales,
        Done 200
             ([],
              Pagination.mk (pageOf (anyPage 1 0)) 0
                (Z.of_nat (List.length (matching (anyPage 1 0) threeSales)))
                None)).
Proof.
  split.
  - apply (proj1 (listSales_edges (fun _ => false) (sortNewest clock)
                                  (anyPage 0 2) threeSales));
      [reflexivity | vm_compute; congruence].
  - apply (proj2 (listSales_edges (fun _ => false) (sortNewest clock)
                                  (anyPage 1 0) threeSales));
      reflexivity.
Defined.

Lemma firstPages_S fault newestFirst q db k :
  firstPages fault newestFirst q db (S k)
  = (firstPages fault newestFirst q db k
     ++ rowsOf (snd (listSales fault newestFirst
                               (onPage q (N.of_nat (S k))) db)))%list.
Proof.
  unfold firstPages. rewrite seq_S, flat_map_app. simpl.
  rewrite app_nil_r. reflexivity.
Qed.

Lemma sale_of_hydrate db rows :
  map SaleView.sale (map (hydrate db) rows) = rows.
Proof.
  rewrite map_map. apply map_id.
Qed.

(** X25. The pages of the list of sales cut the ordered list of matching
    sales into consecutive pieces: with a limit of at least 1 and
    [k * limit] within the [Int] range, the rows of the pages 1 to [k],
    asked one call a page over the same store, are the first [k * limit]
    rows of the matching sales in the order the store gives them, none
    left out and none twice. When the store orders the matching sales
    without dropping or doubling one, and [k * limit] is at least their
    number, the pages hold every matching sale exactly once. *)
Theorem listSales_pages_partition fault newestFirst q db k :
  fault SaleFindMany = false ->
  fault SaleCount = false ->
  1 <= limitOf q ->
  Z.of_nat k * limitOf q <= 2147483647 ->
  firstPages fault newestFirst q db k
  = map (hydrate db)
        (firstn (k * Z.to_nat (limitOf q)) (newestFirst (matching q db)))
  /\ ((forall l, Permutation (newestFirst l) l) ->
      Z.of_nat (List.length (matching q db)) <= Z.of_nat k * limitOf q ->
      firstPages fault newestFirst q db k
      = map (hydrate db) (newestFirst (matching q db))
      /\ Permutation
           (map SaleView.sale (firstPages fault newestFirst q db k))
           (matching q db)).
Proof.
  intros Hf Hc Hl Hk.
  assert (Hfirst : firstPages fault newestFirst q db k
                   = map (hydrate db)
                       (firstn (k * Z.to_nat (limitOf q))
                               (newestFirst (matching q db)))).
  { induction k as [| k IH]; [reflexivity |].
    rewrite firstPages_S, IH by nia.
    rewrite listSales_run;
      try assumption;
      change (limitOf (onPage q (N.of_nat (S k)))) with (limitOf q);
      change (pageOf (onPage q (N.of_nat (S k))))
        with (Z.of_N (N.of_nat (S k)));
      rewrite ?nat_N_Z; try nia.
    cbn [snd rowsOf].
    change (matching (onPage q (N.of_nat (S k))) db) with (matching q db).
    rewrite <- map_app. f_equal.
    replace (S k * Z.to_nat (limitOf q))%nat
      with (k * Z.to_nat (limitOf q) + Z.to_nat (limitOf q))%nat by lia.
    rewrite firstn_add. f_equal. f_equal. f_equal. nia. }
  split; [exact Hfirst |].
  intros Hperm Hall.
  assert (Hwhole : firstPages fault newestFirst q db k
                   = map (hydrate db) (newestFirst (matching q db))).
  { rewrite Hfirst, firstn_all2; [reflexivity |].
    rewrite (Permutation_length (Hperm (matching q db))). nia. }
  split; [exact Hwhole |].
  rewrite Hwhole, sale_of_hydrate. apply Hperm.
Qed.

(** Two pages of two rows hold the three sales, newest first. *)
Lemma listSales_pages_partition_witness :
  (forall l, Permutation (sortNewest clock l) l)
  /\ firstPages (fun _ => false) (sortNewest clock) (anyPage 1 2) threeSales 2
     = map (hydrate threeSales)
           (sortNewest clock (matching (anyPage 1 2) threeSales))
  /\ Permutation
       (map SaleView.sale
            (firstPages (fun _ => false) (sortNewest clock) (anyPage 1 2)
                        threeSales 2))
       (matching (anyPage 1 2) threeSales).
Proof.
  split; [exact (sortNewest_perm clock) |].
  apply (proj2 (listSales_pages_partition (fun _ => false) (sortNewest clock)
                  (anyPage 1 2) threeSales 2 eq_refl eq_refl
                  ltac:(vm_compute; congruence)
                  ltac:(vm_compute; congruence))
               (sortNewest_perm clock)).
  vm_compute; congruence.
Defined.

(** ** The stock row upsert of the products router *)

Lemma inventory_upsert_inl fault newId now storeNow productId location
      quantity minQuantity maxQuantity db db' e :
  inventory_upsert fault newId now storeNow productId location quantity
                   minQuantity maxQuantity db = (db', inl e) ->
  db' = db.
Proof.
  unfold inventory_upsert.
  destruct (fault InventoryUpsert); [congruence |].
  destruct (negb (String.length location <=? 100)%nat); [congruence |].
  destruct (find (atKey productId location) (inventory db)).
  - destruct (0 <=? quantity)%Z; congruence.
  - cbv zeta.
    destruct (find (fun x => Inventory.id x =? newId) (inventory db));
      [congruence |].
    destruct (findProduct db productId); [| congruence].
    destruct (0 <=? quantity)%Z; congruence.
Qed.

Lemma inventory_upsert_inr fault newId now storeNow productId location
      quantity minQuantity maxQuantity db db' row :
  inventory_upsert fault newId now storeNow productId location quantity
                   minQuantity maxQuantity db = (db', inr row) ->
  0 <= quantity
  /\ ((exists r,
          find (atKey productId location) (inventory db) = Some r
          /\ row = restocked quantity minQuantity maxQuantity now r
          /\ db' = set_inventory db
                     (map (fun x =>
                             if atKey productId location x
                             then restocked quantity minQuantity maxQuantity
                                            now x
                             else x)
                          (inventory db)))
      \/ (find (atKey productId location) (inventory db) = None
          /\ findProduct db productId <> None
          /\ row = Inventory.mk newId productId quantity minQuantity
                                (Some maxQuantity) location storeNow
          /\ db' = set_inventory db (inventory db ++ [row])%list)).
Proof.
  unfold inventory_upsert.
  destruct (fault InventoryUpsert); [congruence |].
  destruct (negb (String.length location <=? 100)%nat); [congruence |].
  destruct (find (atKey productId location) (inventory db)) as [r |].
  - destruct (0 <=? quantity)%Z eqn:Hq; [| congruence].
    intros H. inversion H; subst. apply Z.leb_le in Hq.
    split; [exact Hq |]. left. exists r. repeat split; reflexivity.
  - cbv zeta.
    destruct (find (fun x => Inventory.id x =? newId) (inventory db));
      [congruence |].
    destruct (findProduct db productId) eqn:Hp; [| congruence].
    destruct (0 <=? quantity)%Z eqn:Hq; [| congruence].
    intros H. inversion H; subst. apply Z.leb_le in Hq.
    split; [exact Hq |]. right. repeat split; congruence.
Qed.

Lemma putInventory_done fault JsValue parseInt truthy newId now storeNow id
      body db db' s row :
  putInventory fault JsValue parseInt truthy newId now storeNow id body db
  = (db', Done s row) ->
  s = 200
  /\ exists quantity minQuantity maxQuantity,
      parseInt (bodyQuantity JsValue body) = Some quantity
      /\ parseIntOrZero JsValue parseInt truthy (bodyMinQuantity JsValue body)
         = Some minQuantity
      /\ parseIntOrZero JsValue parseInt truthy (bodyMaxQuantity JsValue body)
         = Some maxQuantity
      /\ inventory_upsert fault newId now storeNow id
           (locationOrDefault (bodyLocation JsValue body))
           quantity minQuantity maxQuantity db = (db', inr row).
Proof.
  unfold putInventory, prismaInt.
  destruct (parseInt (bodyQuantity JsValue body)) as [quantity |];
    [| congruence].
  destruct (inInt32 quantity); [| congruence].
  destruct (parseIntOrZero JsValue parseInt truthy
                           (bodyMinQuantity JsValue body))
    as [minQuantity |]; [| congruence].
  destruct (inInt32 minQuantity); [| congruence].
  destruct (parseIntOrZero JsValue parseInt truthy
                           (bodyMaxQuantity JsValue body))
    as [maxQuantity |]; [| congruence].
  destruct (inInt32 maxQuantity); [| congruence].
  destruct (inventory_upsert fault newId now storeNow id
              (locationOrDefault (bodyLocation JsValue body))
              quantity minQuantity maxQuantity db) as [db1 [e | out]] eqn:Hu;
    [congruence |].
  intros H. inversion H; subst. split; [reflexivity |].
  exists quantity, minQuantity, maxQuantity.
  repeat split; try reflexivity. exact Hu.
Qed.

Lemma putInventory_fail fault JsValue parseInt truthy newId now storeNow id
      body db db' s e :
  putInventory fault JsValue parseInt truthy newId now storeNow id body db
  = (db', Fail s e) ->
  s = 500 /\ e = "Internal server error" /\ db' = db.
Proof.
  unfold putInventory.
  destruct (prismaInt (parseInt (bodyQuantity JsValue body)));
    [| intros H; inversion H; repeat split; reflexivity].
  destruct (prismaInt (parseIntOrZero JsValue parseInt truthy
                                      (bodyMinQuantity JsValue body)));
    [| intros H; inversion H; repeat split; reflexivity].
  destruct (prismaInt (parseIntOrZero JsValue parseInt truthy
                                      (bodyMaxQuantity JsValue body)));
    [| intros H; inversion H; repeat split; reflexivity].
  destruct (inventory_upsert fault newId now storeNow id
              (locationOrDefault (bodyLocation JsValue body)) z z0 z1 db)
    as [db1 [err | out]] eqn:Hu; [| congruence].
  intros H. inversion H; subst. split; [reflexivity |].
  split; [reflexivity |].
  exact (inventory_upsert_inl _ _ _ _ _ _ _ _ _ _ _ _ Hu).
Qed.

Lemma find_atKey_none productId location rows :
  find (atKey productId location) rows = None ->
  ~ In (productId, location) (map stockKey rows).
Proof.
  intros Hfind Hin. apply in_map_iff in Hin as (r & Hk & Hr).
  pose proof (find_none _ _ Hfind r Hr) as Hno.
  unfold stockKey in Hk. inversion Hk as [[Hp Hl]].
  unfold atKey in Hno. rewrite Hp, Hl, !String.eqb_refl in Hno.
  discriminate.
Qed.

Lemma atKey_stockKey productId location r :
  atKey productId location r = true <-> stockKey r = (productId, location).
Proof.
  unfold atKey, stockKey. rewrite andb_true_iff, !String.eqb_eq.
  split; [intros [-> ->]; reflexivity | intros H; inversion H; auto].
Qed.

Lemma restocked_keys productId location quantity minQuantity maxQuantity now
      rows :
  map stockKey
      (map (fun x =>
              if atKey productId location x
              then restocked quantity minQuantity maxQuantity now x
              else x) rows)
  = map stockKey rows.
Proof.
  rewrite map_map. apply map_ext. intros x.
  destruct (atKey productId location x); reflexivity.
Qed.

Lemma filter_unique_key productId location rows r :
  NoDup (map stockKey rows) ->
  In r rows ->
  stockKey r = (productId, location) ->
  filter (atKey productId location) rows = [r].
Proof.
  induction rows as [| x rows IH]; simpl; intros Hnd Hin Hk; [destruct Hin |].
  inversion Hnd as [| ? ? Hnotin Hnd']; subst.
  destruct Hin as [-> | Hin].
  - rewrite (proj2 (atKey_stockKey _ _ _) Hk). f_equal.
    apply filter_none. intros y Hy.
    destruct (atKey productId location y) eqn:Hy'; [| reflexivity].
    exfalso. apply Hnotin. rewrite Hk.
    rewrite <- (proj1 (atKey_stockKey _ _ _) Hy'). apply in_map. exact Hy.
  - destruct (atKey productId location x) eqn:Hx.
    + exfalso. apply Hnotin.
      rewrite (proj1 (atKey_stockKey _ _ _) Hx), <- Hk. apply in_map.
      exact Hin.
    + apply IH; assumption.
Qed.

Lemma others_kept productId location quantity minQuantity maxQuantity now
      rows :
  filter (fun r => negb (atKey productId location r))
         (map (fun x =>
                 if atKey productId location x
                 then restocked quantity minQuantity maxQuantity now x
                 else x) rows)
  = filter (fun r => negb (atKey productId location r)) rows.
Proof.
  induction rows as [| x rows IH]; [reflexivity |]. simpl.
  destruct (atKey productId location x) eqn:Hx.
  - change (atKey productId location
                  (restocked quantity minQuantity maxQuantity now x))
      with (atKey productId location x).
    rewrite Hx. simpl. exact IH.
  - rewrite Hx. simpl. rewrite IH. reflexivity.
Qed.

(** X26. What an accepted stock row upsert writes. A [200] answers the row
    of the product at the location asked (at [default] when the body gives
    none), with the quantity of the body, which is not below zero; the row
    is in the store; the rows at other keys, the catalog with its own
    stock figures, the customers, the sales and their items are as they
    were, and no audit entry is written. *)
Theorem putInventory_writes_one_row fault JsValue parseInt truthy newId now
        storeNow id body db db' row :
  putInventory fault JsValue parseInt truthy newId now storeNow id body db
  = (db', Done 200 row) ->
  (exists quantity,
      parseInt (bodyQuantity JsValue body) = Some quantity
      /\ 0 <= quantity
      /\ Inventory.quantity row = quantity)
  /\ stockKey row = (id, locationOrDefault (bodyLocation JsValue body))
  /\ In row (inventory db')
  /\ filter (fun r =>
               negb (atKey id (locationOrDefault (bodyLocation JsValue body))
                           r))
            (inventory db')
     = filter (fun r =>
                 negb (atKey id
                             (locationOrDefault (bodyLocation JsValue body))
                             r))
              (inventory db)
  /\ products db' = products db
  /\ customers db' = customers db
  /\ saleStatuses db' = saleStatuses db
  /\ sales db' = sales db
  /\ saleItems db' = saleItems db
  /\ inventoryLogs db' = inventoryLogs db.
Proof.
  intros H.
  destruct (putInventory_done _ _ _ _ _ _ _ _ _ _ _ _ _ H)
    as (_ & quantity & minQuantity & maxQuantity & Hq & _ & _ & Hu).
  set (location := locationOrDefault (bodyLocation JsValue body)) in *.
  destruct (inventory_upsert_inr _ _ _ _ _ _ _ _ _ _ _ _ Hu)
    as (Hpos & [(r & Hfind & -> & ->) | (Hfind & _ & -> & ->)]).
  - apply find_some in Hfind as [Hin Hkey].
    split; [exists quantity; repeat split; assumption |].
    split; [exact (proj1 (atKey_stockKey _ _ _) Hkey) |].
    split.
    { cbn [inventory set_inventory]. apply in_map_iff. exists r.
      rewrite Hkey. split; [reflexivity | exact Hin]. }
    split; [cbn [inventory set_inventory]; apply others_kept |].
    repeat split; reflexivity.
  - split; [exists quantity; repeat split; assumption |].
    split; [reflexivity |].
    split; [cbn [inventory set_inventory]; apply in_or_app; right; left;
            reflexivity |].
    split.
    { cbn [inventory set_inventory]. rewrite filter_app. simpl.
      unfold atKey at 2. cbn [Inventory.productId Inventory.location].
      rewrite !String.eqb_refl. simpl. apply app_nil_r. }
    repeat split; reflexivity.
Qed.

(** A first row for [p1] at the warehouse of [counter]. *)
Lemma putInventory_writes_one_row_witness :
  exists db' row,
    putNumbers (fun _ => false) "i9" 5 6 "p1"
               (restock (Some 25) (Some "warehouse")) counter
    = (db', Done 200 row)
    /\ stockKey row = ("p1", "warehouse")
    /\ Inventory.quantity row = 25
    /\ inventoryLogs db' = inventoryLogs counter.
Proof.
  eexists. eexists. split; [vm_compute; reflexivity |].
  pose proof (putInventory_writes_one_row
                (fun _ => false) (option Z) parseIntNumber truthyNumber
                "i9" 5 6 "p1" (restock (Some 25) (Some "warehouse"))
                counter _ _ eq_refl) as H.
  destruct H as ((quantity & Hq & _ & Hrow) & Hkey & _ & _ & _ & _ & _ & _
                 & _ & Hlogs).
  split; [exact Hkey |]. split; [| exact Hlogs].
  transitivity quantity; [exact Hrow | vm_compute in Hq; congruence].
Defined.

Lemma putInventory_row_stored fault JsValue parseInt truthy newId now
      storeNow id body db db' row :
  putInventory fault JsValue parseInt truthy newId now storeNow id body db
  = (db', Done 200 row) ->
  stockKey row = (id, locationOrDefault (bodyLocation JsValue body))
  /\ In row (inventory db').
Proof.
  intros H.
  destruct (putInventory_done _ _ _ _ _ _ _ _ _ _ _ _ _ H)
    as (_ & quantity & minQuantity & maxQuantity & _ & _ & _ & Hu).
  destruct (inventory_upsert_inr _ _ _ _ _ _ _ _ _ _ _ _ Hu)
    as (_ & [(r & Hfind & -> & ->) | (_ & _ & -> & ->)]).
  - apply find_some in Hfind as [Hin Hkey].
    split; [exact (proj1 (atKey_stockKey _ _ _) Hkey) |].
    cbn [inventory set_inventory]. apply in_map_iff. exists r.
    rewrite Hkey. split; [reflexivity | exact Hin].
  - split; [reflexivity |].
    cbn [inventory set_inventory]. apply in_or_app. right. left.
    reflexivity.
Qed.

(** X27. The stock row upsert keeps the store well formed. When no two
    stock rows share a product and a location, an accepted upsert leaves
    it so, and the store then holds exactly one row for the product at the
    location: the row answered. When no stock row is below zero, none is
    after the call, whatever the answer. *)
Theorem putInventory_keeps_stock_well_formed fault JsValue parseInt truthy
        newId now storeNow id body db db' a :
  putInventory fault JsValue parseInt truthy newId now storeNow id body db
  = (db', a) ->
  (keysUnique db -> keysUnique db')
  /\ (stockNonNegative db -> stockNonNegative db')
  /\ (forall row,
         a = Done 200 row ->
         keysUnique db ->
         filter (atKey id (locationOrDefault (bodyLocation JsValue body)))
                (inventory db')
         = [row]).
Proof.
  intros H. destruct a as [s e | s row].
  - destruct (putInventory_fail _ _ _ _ _ _ _ _ _ _ _ _ _ H)
      as (_ & _ & ->).
    split; [auto |]. split; [auto |]. intros row Hrow. discriminate.
  - destruct (putInventory_done _ _ _ _ _ _ _ _ _ _ _ _ _ H)
      as (-> & quantity & minQuantity & maxQuantity & _ & _ & _ & Hu).
    set (location := locationOrDefault (bodyLocation JsValue body)) in *.
    assert (Hunique : keysUnique db -> keysUnique db').
    { destruct (inventory_upsert_inr _ _ _ _ _ _ _ _ _ _ _ _ Hu)
        as (_ & [(r & _ & _ & ->) | (Hfind & _ & -> & ->)]);
        unfold keysUnique; cbn [inventory set_inventory]; intros Hnd.
      - rewrite restocked_keys. exact Hnd.
      - rewrite map_app. simpl.
        apply (Permutation_NoDup (Permutation_cons_append _ _)).
        constructor; [| exact Hnd].
        exact (find_atKey_none _ _ _ Hfind). }
    split; [exact Hunique |]. split.
    + destruct (inventory_upsert_inr _ _ _ _ _ _ _ _ _ _ _ _ Hu)
        as (Hpos & [(r & _ & _ & ->) | (_ & _ & -> & ->)]);
        unfold stockNonNegative; cbn [inventory set_inventory]; intros Hnn.
      * apply Forall_forall. intros x Hx.
        apply in_map_iff in Hx as (y & <- & Hy).
        destruct (atKey id location y); [exact Hpos |].
        exact (proj1 (Forall_forall _ _) Hnn y Hy).
      * apply Forall_app. split; [exact Hnn |].
        constructor; [exact Hpos | constructor].
    + intros row' Hrow Hnd. inversion Hrow; subst row'.
      pose proof (putInventory_row_stored _ _ _ _ _ _ _ _ _ _ _ _ H)
        as (Hkey & Hin).
      exact (filter_unique_key _ _ _ _ (Hunique Hnd) Hin Hkey).
Qed.

(** The default row of [p1] is written over, not doubled. *)
Lemma putInventory_keeps_stock_well_formed_witness :
  keysUnique counter
  /\ exists db' row,
      putNumbers (fun _ => false) "i9" 5 6 "p1" (restock (Some 25) None)
                 counter
      = (db', Done 200 row)
      /\ keysUnique db'
      /\ filter (atKey "p1" "default") (inventory db') = [row].
Proof.
  assert (Hnd : keysUnique counter).
  { unfold keysUnique. simpl. repeat constructor; simpl; [| tauto].
    intros [H | []]. discriminate. }
  split; [exact Hnd |].
  eexists. eexists. split; [vm_compute; reflexivity |].
  pose proof (putInventory_keeps_stock_well_formed
                (fun _ => false) (option Z) parseIntNumber truthyNumber
                "i9" 5 6 "p1" (restock (Some 25) None) counter _ _ eq_refl)
    as (Hk & _ & Hone).
  split; [exact (Hk Hnd) | exact (Hone _ eq_refl Hnd)].
Defined.

(** X28. What the stock row upsert refuses. Every refusal is the generic
    [500] and leaves the store as it was. A quantity that is no number, a
    quantity below zero, and a first row for a product the catalog does not
    hold are each refused. *)
Theorem putInventory_refusals fault JsValue parseInt truthy newId now
        storeNow id body db :
  (forall db' s e,
      putInventory fault JsValue parseInt truthy newId now storeNow id body
                   db = (db', Fail s e) ->
      s = 500 /\ e = "Internal server error" /\ db' = db)
  /\ (parseInt (bodyQuantity JsValue body) = None
      \/ (exists quantity,
             parseInt (bodyQuantity JsValue body) = Some quantity
             /\ quantity < 0)
      \/ (findProduct db id = None
          /\ find (atKey id (locationOrDefault (bodyLocation JsValue body)))
                  (inventory db) = None) ->
      putInventory fault JsValue parseInt truthy newId now storeNow id body
                   db = (db, Fail 500 "Internal server error")).
Proof.
  split.
  - intros db' s e H.
    exact (putInventory_fail _ _ _ _ _ _ _ _ _ _ _ _ _ H).
  - intros Hcause.
    destruct (putInventory fault JsValue parseInt truthy newId now storeNow
                           id body db) as [db' [s e | s row]] eqn:H.
    + destruct (putInventory_fail _ _ _ _ _ _ _ _ _ _ _ _ _ H)
        as (-> & -> & ->).
      reflexivity.
    + exfalso.
      destruct (putInventory_done _ _ _ _ _ _ _ _ _ _ _ _ _ H)
        as (_ & quantity & minQuantity & maxQuantity & Hq & _ & _ & Hu).
      destruct (inventory_upsert_inr _ _ _ _ _ _ _ _ _ _ _ _ Hu)
        as (Hpos & Hbranch).
      destruct Hcause as [Hnan | [(q' & Hq' & Hneg) | (Hprod & Hrow)]].
      * congruence.
      * rewrite Hq in Hq'. inversion Hq'; subst q'. lia.
      * destruct Hbranch as [(r & Hfind & _) | (_ & Hknown & _)];
          [congruence | exact (Hknown Hprod)].
Qed.

(** A negative quantity for the default row of [p1]. *)
Lemma putInventory_refusals_witness :
  (exists quantity,
      parseIntNumber (bodyQuantity (option Z) (restock (Some (-1)) None))
      = Some quantity
      /\ quantity < 0)
  /\ putNumbers (fun _ => false) "i9" 5 6 "p1" (restock (Some (-1)) None)
                counter
     = (counter, Fail 500 "Internal server error").
Proof.
  assert (Hneg : exists quantity,
             parseIntNumber
               (bodyQuantity (option Z) (restock (Some (-1)) None))
             = Some quantity
             /\ quantity < 0)
    by (exists (-1); split; [reflexivity | lia]).
  split; [exact Hneg |].
  exact (proj2 (putInventory_refusals
                  (fun _ => false) (option Z) parseIntNumber truthyNumber
                  "i9" 5 6 "p1" (restock (Some (-1)) None) counter)
               (or_intror (or_introl Hneg))).
Defined.
